(** * Verification of the CSV ingestion core of candlestick_patterns

    A shallow embedding of

      - [csv_upload/csv_processor.py]  (class [CSVProcessor]),
      - [csv_upload/bulk_processor.py] (class [BulkCSVProcessor]),
      - [csv_upload/stock_forms.py]    ([StockForm], [CandlestickForm.clean]),
      - [csv_upload/forms.py]          (the checks of the two upload forms),

    followed by the properties of the specification that are stated about
    them.

    Conventions of the embedding.

      - Python [str] is [string]; the development covers ASCII text, so
        [upper], [lower], [strip] and the digit classes are the ASCII
        restrictions of the Python ones.
      - An exception is a value of [PyExn]; code that can raise returns an
        [Outcome], and code that mutates [self] or the database threads a
        [World] through the state-and-exception monad [Py].
      - The Django tables are lists of rows; [get_or_create] looks a row up
        by its unique key and appends a fresh row when there is none.  The
        database itself (column widths, backend errors) is outside the
        repository and is taken to accept every row it is given.
      - A CSV file is what [csv.reader] yields for it: a list of records,
        each a list of cells.  [csv.DictReader] is modelled on top of it. *)

From Stdlib Require Import String Ascii List Bool Arith ZArith Lia.
From Stdlib Require Import Permutation.
Import ListNotations.

Set Warnings "-abstract-large-number".

Local Open Scope string_scope.
Local Open Scope list_scope.
Local Open Scope nat_scope.

(** String concatenation, written apart from the append of lists. *)
Infix "+++" := String.append (right associativity, at level 60).

(* ================================================================== *)
(** ** Python string primitives (ASCII) *)
(* ================================================================== *)

Module PyStr.

Definition code (c : ascii) : nat := nat_of_ascii c.

Definition is_digit (c : ascii) : bool :=
  (48 <=? code c) && (code c <=? 57).

Definition is_lower (c : ascii) : bool :=
  (97 <=? code c) && (code c <=? 122).

Definition is_upper (c : ascii) : bool :=
  (65 <=? code c) && (code c <=? 90).

Definition is_alpha (c : ascii) : bool := is_lower c || is_upper c.

(** [str.isspace] on one ASCII character: TAB, LF, VT, FF, CR, the four
    separators FS..US and the space. *)
Definition is_space (c : ascii) : bool :=
  ((9 <=? code c) && (code c <=? 13))
  || ((28 <=? code c) && (code c <=? 31))
  || (code c =? 32).

Definition upper_char (c : ascii) : ascii :=
  if is_lower c then ascii_of_nat (code c - 32) else c.

Definition lower_char (c : ascii) : ascii :=
  if is_upper c then ascii_of_nat (code c + 32) else c.

Fixpoint map_str (f : ascii -> ascii) (s : string) : string :=
  match s with
  | EmptyString => EmptyString
  | String c s' => String (f c) (map_str f s')
  end.

(** [s.upper()] and [s.lower()]. *)
Definition upper (s : string) : string := map_str upper_char s.
Definition lower (s : string) : string := map_str lower_char s.

Fixpoint forall_str (p : ascii -> bool) (s : string) : bool :=
  match s with
  | EmptyString => true
  | String c s' => p c && forall_str p s'
  end.

Fixpoint exists_str (p : ascii -> bool) (s : string) : bool :=
  match s with
  | EmptyString => false
  | String c s' => p c || exists_str p s'
  end.

(** The longest prefix of characters that satisfy [p], and the rest. *)
Fixpoint span (p : ascii -> bool) (s : string) : string * string :=
  match s with
  | String c r =>
      if p c then let '(a, b) := span p r in (String c a, b)
      else (EmptyString, s)
  | EmptyString => (EmptyString, EmptyString)
  end.

(** [c in s] for a single character [c]. *)
Definition contains_char (c : ascii) (s : string) : bool :=
  exists_str (Ascii.eqb c) s.

(** [s.startswith(p)]. *)
Definition startswith (s p : string) : bool := prefix p s.

Fixpoint rev_str (acc s : string) : string :=
  match s with
  | EmptyString => acc
  | String c s' => rev_str (String c acc) s'
  end.

Definition reverse (s : string) : string := rev_str EmptyString s.

(** [s.endswith(p)]. *)
Definition endswith (s p : string) : bool :=
  prefix (reverse p) (reverse s).

Fixpoint lstrip (s : string) : string :=
  match s with
  | EmptyString => EmptyString
  | String c s' => if is_space c then lstrip s' else s
  end.

(** [s.strip()]: leading and trailing white space removed. *)
Definition strip (s : string) : string :=
  reverse (lstrip (reverse (lstrip s))).

(** The scan of [s.replace(old, new)] for a non-empty [old]: occurrences
    are found left to right and do not overlap; [skip] counts the
    characters of an occurrence that are still to be dropped. *)
Fixpoint replace_from (old new : string) (skip : nat) (s : string) : string :=
  match s with
  | EmptyString => EmptyString
  | String c s' =>
      match skip with
      | S k => replace_from old new k s'
      | O =>
          if prefix old s
          then new +++ replace_from old new (String.length old - 1) s'
          else String c (replace_from old new 0 s')
      end
  end.

Definition replace (s old new : string) : string := replace_from old new 0 s.

(** [s.split(sep)] for a one-character separator: never the empty list. *)
Fixpoint split (sep : ascii) (s : string) : list string :=
  match s with
  | EmptyString => [EmptyString]
  | String c s' =>
      if Ascii.eqb c sep then EmptyString :: split sep s'
      else match split sep s' with
           | h :: t => String c h :: t
           | [] => [String c EmptyString]
           end
  end.

(** [sep.join(l)]. *)
Fixpoint join (sep : string) (l : list string) : string :=
  match l with
  | [] => EmptyString
  | [x] => x
  | x :: rest => x +++ sep +++ join sep rest
  end.

(** Truthiness of a string: [bool(s)]. *)
Definition truthy (s : string) : bool :=
  match s with EmptyString => false | _ => true end.

Definition digit_val (c : ascii) : nat := code c - 48.

Definition digit_char (n : nat) : ascii := ascii_of_nat (48 + n).

(** [str(n)] for a natural number. *)
Fixpoint nat_digits (fuel n : nat) (acc : string) : string :=
  match fuel with
  | O => acc
  | S f =>
      let acc' := String (digit_char (n mod 10)) acc in
      if n / 10 =? 0 then acc' else nat_digits f (n / 10) acc'
  end.

Definition str_of_nat (n : nat) : string := nat_digits (S n) n EmptyString.

(** [f"{n:02d}"] and [f"{n:04d}"] for numbers that fit. *)
Definition fmt2 (n : nat) : string :=
  String (digit_char (n / 10 mod 10)) (String (digit_char (n mod 10)) EmptyString).

Definition fmt4 (n : nat) : string :=
  String (digit_char (n / 1000 mod 10))
    (String (digit_char (n / 100 mod 10)) (fmt2 n)).

Definition in_list (s : string) (l : list string) : bool :=
  existsb (String.eqb s) l.

End PyStr.

(* ================================================================== *)
(** ** Exceptions and outcomes *)
(* ================================================================== *)

(** The exception classes the ingestion code raises or receives.  All of
    them are subclasses of [Exception]; [str(e)] is the message. *)
Inductive PyExn : Type :=
| ValueError (msg : string)
| TypeError (msg : string)
| AttributeError (msg : string)
| OverflowError (msg : string)
| InvalidOperation (msg : string)
| ValidationError (msg : string).

Definition exn_str (e : PyExn) : string :=
  match e with
  | ValueError m | TypeError m | AttributeError m | OverflowError m
  | InvalidOperation m | ValidationError m => m
  end.

Inductive Outcome (A : Type) : Type :=
| Return (a : A)
| Raise (e : PyExn).

Arguments Return {A} a.
Arguments Raise {A} e.

Definition is_return {A} (o : Outcome A) : bool :=
  match o with Return _ => true | Raise _ => false end.

(* ================================================================== *)
(** ** Dates and [datetime.strptime(s, '%Y%m%d')] *)
(* ================================================================== *)

Record Date : Type := mkDate { year : nat; month : nat; day : nat }.

Definition is_leap (y : nat) : bool :=
  ((y mod 4 =? 0) && negb (y mod 100 =? 0)) || (y mod 400 =? 0).

Definition days_in_month (y m : nat) : nat :=
  match m with
  | 1 | 3 | 5 | 7 | 8 | 10 | 12 => 31
  | 4 | 6 | 9 | 11 => 30
  | 2 => if is_leap y then 29 else 28
  | _ => 0
  end.

(** [datetime.date(y, m, d)] exists: MINYEAR is 1, MAXYEAR 9999. *)
Definition valid_date (y m d : nat) : bool :=
  (1 <=? y) && (y <=? 9999) && (1 <=? m) && (m <=? 12)
  && (1 <=? d) && (d <=? days_in_month y m).

(** [str(date)], the ISO form YYYY-MM-DD. *)
Definition date_str (d : Date) : string :=
  PyStr.fmt4 (year d) +++ "-" +++ PyStr.fmt2 (month d) +++ "-" +++ PyStr.fmt2 (day d).

Definition date_eqb (a b : Date) : bool :=
  (year a =? year b) && (month a =? month b) && (day a =? day b).

(** A [datetime]: a date and the time of day. *)
Record DateTime : Type := mkDateTime {
  dt_date : Date; dt_hour : nat; dt_minute : nat; dt_second : nat
}.

(** [datetime.combine(d, datetime.min.time())]: the date at midnight. *)
Definition midnight (d : Date) : DateTime := mkDateTime d 0 0 0.

Definition datetime_eqb (a b : DateTime) : bool :=
  date_eqb (dt_date a) (dt_date b) && (dt_hour a =? dt_hour b)
  && (dt_minute a =? dt_minute b) && (dt_second a =? dt_second b).

Module Strptime.
Import PyStr.

(** One alternative of a directive's regular expression: the value it
    reads and the rest of the input. *)
Definition Alt : Type := (nat * string)%type.

(** [%Y] is [\d\d\d\d]. *)
Definition re_Y (s : string) : list Alt :=
  match s with
  | String a (String b (String c (String d r))) =>
      if is_digit a && is_digit b && is_digit c && is_digit d
      then [(1000 * digit_val a + 100 * digit_val b + 10 * digit_val c + digit_val d, r)]
      else []
  | _ => []
  end.

Definition two (s : string) (p : ascii -> ascii -> bool) (v : ascii -> ascii -> nat)
  : list Alt :=
  match s with
  | String a (String b r) => if p a b then [(v a b, r)] else []
  | _ => []
  end.

Definition one (s : string) (p : ascii -> bool) (v : ascii -> nat) : list Alt :=
  match s with
  | String a r => if p a then [(v a, r)] else []
  | _ => []
  end.

Definition in_range (lo hi : nat) (c : ascii) : bool :=
  (lo <=? code c) && (code c <=? hi).

Definition dec2 (a b : ascii) : nat := 10 * digit_val a + digit_val b.

(** [%m] is [1[0-2]|0[1-9]|[1-9]], alternatives in this order. *)
Definition re_m (s : string) : list Alt :=
  two s (fun a b => (code a =? 49) && in_range 48 50 b) dec2
  ++ two s (fun a b => (code a =? 48) && in_range 49 57 b) dec2
  ++ one s (in_range 49 57) digit_val.

(** [%d] is [3[0-1]|[1-2]\d|0[1-9]|[1-9]| [1-9]], alternatives in this
    order. *)
Definition re_d (s : string) : list Alt :=
  two s (fun a b => (code a =? 51) && in_range 48 49 b) dec2
  ++ two s (fun a b => in_range 49 50 a && is_digit b) dec2
  ++ two s (fun a b => (code a =? 48) && in_range 49 57 b) dec2
  ++ one s (in_range 49 57) digit_val
  ++ two s (fun a b => (code a =? 32) && in_range 49 57 b) (fun _ b => digit_val b).

(** The first match of the compiled format, found by backtracking over
    the alternatives: the three values and the unmatched rest. *)
Definition re_match (s : string) : option (nat * nat * nat * string) :=
  hd_error
    (flat_map (fun '(y, r1) =>
       flat_map (fun '(m, r2) =>
         map (fun '(d, r3) => (y, m, d, r3)) (re_d r2)) (re_m r1)) (re_Y s)).

(** [datetime.strptime(s, '%Y%m%d').date()]; [None] stands for the
    [ValueError] of a string that does not match, of one with
    unconverted data left, and of a day that is not in the calendar. *)
Definition strptime_Ymd (s : string) : option Date :=
  match re_match s with
  | Some (y, m, d, EmptyString) =>
      if valid_date y m d then Some (mkDate y m d) else None
  | _ => None
  end.

End Strptime.

(* ================================================================== *)
(** ** Numbers: [decimal.Decimal], [float] and [int(float(s))] *)
(* ================================================================== *)

(** A [decimal.Decimal]: sign, coefficient and exponent, or a special
    value. *)
Inductive Decimal : Type :=
| DFinite (neg : bool) (coeff : N) (exp : Z)
| DInfinity (neg : bool)
| DNaN (neg : bool) (signaling : bool) (diag : N).

(** A Python [float] (IEEE binary64): the finite value [m * 2^e], an
    infinity or a NaN. *)
Inductive PyFloat : Type :=
| FFinite (m : Z) (e : Z)
| FInf (neg : bool)
| FNan.

Module PyNum.
Import PyStr.
Local Open Scope Z_scope.

Fixpoint take_digits (s : string) : string * string :=
  match s with
  | String c r =>
      if is_digit c
      then let '(d, r') := take_digits r in (String c d, r')
      else (EmptyString, s)
  | EmptyString => (EmptyString, EmptyString)
  end.

(** [digit (["_"] digit)*] after its first digit: the digits read, with
    the underscores dropped, and the rest. *)
Fixpoint digitpart_tail (s : string) : string * string :=
  match s with
  | String c r =>
      if is_digit c
      then let '(d, r') := digitpart_tail r in (String c d, r')
      else if Ascii.eqb c "_"
           then match r with
                | String c2 _ =>
                    if is_digit c2 then digitpart_tail r else (EmptyString, s)
                | EmptyString => (EmptyString, s)
                end
           else (EmptyString, s)
  | EmptyString => (EmptyString, EmptyString)
  end.

(** A [digitpart] of the float grammar starts with a digit; the empty
    string of digits is returned when there is none. *)
Definition take_digitpart (s : string) : string * string :=
  match s with
  | String c _ => if is_digit c then digitpart_tail s else (EmptyString, s)
  | EmptyString => (EmptyString, EmptyString)
  end.

Fixpoint digits_value (acc : N) (s : string) : N :=
  match s with
  | EmptyString => acc
  | String c r => digits_value (10 * acc + N.of_nat (digit_val c))%N r
  end.

Definition int_of_digits (s : string) : N := digits_value 0%N s.

(** An optional sign: [true] for a minus. *)
Definition take_sign (s : string) : bool * string :=
  match s with
  | String c r =>
      if Ascii.eqb c "-" then (true, r)
      else if Ascii.eqb c "+" then (false, r)
      else (false, s)
  | EmptyString => (false, s)
  end.

Definition is_e (c : ascii) : bool := Ascii.eqb c "e" || Ascii.eqb c "E".

Definition signed (neg : bool) (n : N) : Z :=
  if neg then - Z.of_N n else Z.of_N n.

Definition strlen (s : string) : Z := Z.of_nat (String.length s).

(** *** [Decimal(s)] *)

(** The optional exponent part (E, a sign, digits) and the end of the string:
    the exponent read, or [None] when the rest does not match. *)
Definition decimal_exponent (s : string) : option Z :=
  match s with
  | EmptyString => Some 0
  | String c r =>
      if is_e c then
        let '(neg, r1) := take_sign r in
        match take_digits r1 with
        | (String d ds, EmptyString) => Some (signed neg (int_of_digits (String d ds)))
        | _ => None
        end
      else None
  end.

(** The numeric part of the Decimal grammar: integer digits, an
    optional point with fraction digits, at least one digit in all, then
    the exponent. *)
Definition decimal_number (neg : bool) (s : string) : option Decimal :=
  let '(ip, r1) := take_digits s in
  let '(fp, r2) :=
    match r1 with
    | String c r => if Ascii.eqb c "." then take_digits r else (EmptyString, r1)
    | EmptyString => (EmptyString, r1)
    end in
  match ip +++ fp with
  | EmptyString => None
  | String _ _ =>
      match decimal_exponent r2 with
      | Some e => Some (DFinite neg (int_of_digits (ip +++ fp)) (e - strlen fp))
      | None => None
      end
  end.

(** [NaN] and [sNaN] with their diagnostic digits. *)
Definition decimal_nan (neg : bool) (s : string) : option Decimal :=
  let body (signaling : bool) (r : string) :=
    match take_digits r with
    | (ds, EmptyString) => Some (DNaN neg signaling (int_of_digits ds))
    | _ => None
    end in
  match lower s with
  | String "n" (String "a" (String "n" r)) => body false r
  | String "s" (String "n" (String "a" (String "n" r))) => body true r
  | _ => None
  end.

(** [Decimal(s)] as the constructor reads a string: white space around
    it and every underscore are removed, then the string has to be a
    number, an infinity or a NaN.  [None] is [InvalidOperation].  The
    bounds that the C implementation puts on the exponent (18 digits) are
    not modelled. *)
Definition parse_decimal (s : string) : option Decimal :=
  let s1 := replace (strip s) "_" "" in
  let '(neg, body) := take_sign s1 in
  match body with
  | EmptyString => None
  | String c _ =>
      if is_digit c || Ascii.eqb c "."
      then decimal_number neg body
      else if String.eqb (lower body) "inf" || String.eqb (lower body) "infinity"
           then Some (DInfinity neg)
           else decimal_nan neg body
  end.

(** *** [float(s)] *)

Definition round_half_even (a b : Z) : Z :=
  let n := a / b in
  match Z.compare (2 * (a mod b)) b with
  | Lt => n
  | Gt => n + 1
  | Eq => if Z.even n then n else n + 1
  end.

(** The binary64 number nearest to the positive ratio [p / q] (ties to
    even), with gradual underflow and overflow to infinity. *)
Definition binary64_of_ratio (neg : bool) (p q : Z) : PyFloat :=
  if p =? 0 then FFinite 0 0
  else
    let scaled (e : Z) : Z * Z :=
      if 0 <=? e then (p, q * 2 ^ e) else (p * 2 ^ (- e), q) in
    let e0 := Z.log2 p - Z.log2 q - 52 in
    let n0 := let '(a, b) := scaled e0 in a / b in
    let e1 := if n0 <? 2 ^ 52 then e0 - 1 else e0 in
    let e := Z.max e1 (-1074) in
    let '(a, b) := scaled e in
    let m := round_half_even a b in
    if (971 <? e) || ((e =? 971) && (2 ^ 53 <=? m)) then FInf neg
    else FFinite (if neg then - m else m) e.

(** The float of the decimal numeral [c * 10^e10].  Numerals far above
    the largest or far below the smallest binary64 number are settled
    without forming the power of ten. *)
Definition float_of_decimal (neg : bool) (c : N) (ndigits e10 : Z) : PyFloat :=
  if (c =? 0)%N then FFinite 0 0
  else if 400 <? ndigits + e10 then FInf neg
  else if ndigits + e10 <? -400 then FFinite 0 0
  else if 0 <=? e10 then binary64_of_ratio neg (Z.of_N c * 10 ^ e10) 1
  else binary64_of_ratio neg (Z.of_N c) (10 ^ (- e10)).

(** [exponent ::= ("e" | "E") [sign] digitpart], then the end. *)
Definition float_exponent (s : string) : option Z :=
  match s with
  | EmptyString => Some 0
  | String c r =>
      if is_e c then
        let '(neg, r1) := take_sign r in
        match take_digitpart r1 with
        | (String d ds, EmptyString) => Some (signed neg (int_of_digits (String d ds)))
        | _ => None
        end
      else None
  end.

(** [number ::= [digitpart] "." digitpart | digitpart ["."]]. *)
Definition float_number (neg : bool) (s : string) : option PyFloat :=
  let '(ip, r1) := take_digitpart s in
  let after_point :=
    match r1 with
    | String c r =>
        if Ascii.eqb c "."
        then let '(fp, r2) := take_digitpart r in Some (fp, r2)
        else None
    | EmptyString => None
    end in
  let '(fp, r2) :=
    match after_point with
    | Some x => x
    | None => (EmptyString, r1)
    end in
  match ip +++ fp with
  | EmptyString => None
  | String _ _ =>
      match float_exponent r2 with
      | Some e =>
          Some (float_of_decimal neg (int_of_digits (ip +++ fp))
                  (strlen (ip +++ fp)) (e - strlen fp))
      | None => None
      end
  end.

(** [float(s)]; [None] is the [ValueError] of a string that is not a
    float literal. *)
Definition parse_float (s : string) : option PyFloat :=
  let '(neg, body) := take_sign (strip s) in
  match body with
  | EmptyString => None
  | String c _ =>
      if is_digit c || Ascii.eqb c "."
      then float_number neg body
      else if String.eqb (lower body) "inf" || String.eqb (lower body) "infinity"
           then Some (FInf neg)
           else if String.eqb (lower body) "nan" then Some FNan
                else None
  end.

(** [int(x)] for a float [x]: truncation towards zero; the infinities
    and NaN raise. *)
Definition int_of_float (x : PyFloat) : Outcome Z :=
  match x with
  | FFinite m e =>
      Return (if 0 <=? e then m * 2 ^ e else Z.quot m (2 ^ (- e)))
  | FInf _ => Raise (OverflowError "cannot convert float infinity to integer")
  | FNan => Raise (ValueError "cannot convert float NaN to integer")
  end.

(** *** Ordering and truth value of decimals *)

(** [bool(d)]: every decimal but a zero is true. *)
Definition decimal_truthy (d : Decimal) : bool :=
  match d with
  | DFinite _ c _ => negb (c =? 0)%N
  | _ => true
  end.

Definition scaled_to (emin : Z) (neg : bool) (c : N) (e : Z) : Z :=
  signed neg c * 10 ^ (e - emin).

(** [a < b].  The forms hold finite decimals only; an infinity is
    ordered as usual and a NaN is below nothing. *)
Definition decimal_lt (a b : Decimal) : bool :=
  match a, b with
  | DFinite na ca ea, DFinite nb cb eb =>
      let emin := Z.min ea eb in
      scaled_to emin na ca ea <? scaled_to emin nb cb eb
  | DFinite _ _ _, DInfinity nb => negb nb
  | DInfinity na, DFinite _ _ _ => na
  | DInfinity na, DInfinity nb => na && negb nb
  | _, _ => false
  end.

(** [max(a, b, c)] and [min(a, b, c)] as the builtins scan their
    arguments: the first of the greatest, the first of the least. *)
Definition max3 (a b c : Decimal) : Decimal :=
  let m := if decimal_lt a b then b else a in
  if decimal_lt m c then c else m.

Definition min3 (a b c : Decimal) : Decimal :=
  let m := if decimal_lt b a then b else a in
  if decimal_lt c m then c else m.

End PyNum.

(* ================================================================== *)
(** ** The exchange column mappings of [CSVProcessor] *)
(* ================================================================== *)

(** A column mapping is a [dict] from CSV column to database field, kept
    in insertion order. *)
Definition Mapping : Type := list (string * string).

(** The class attributes [EXCHANGE_MAPPINGS] and [SUPPORTED_EXCHANGES];
    they are shared by every instance and changed by
    [add_exchange_support]. *)
Record Registry : Type := mkRegistry {
  EXCHANGE_MAPPINGS : list (string * Mapping);
  SUPPORTED_EXCHANGES : list string
}.

Definition BSE_MAPPING : Mapping :=
  [ ("SC_CODE", "stock_symbol"); ("SC_NAME", "stock_name");
    ("SC_GROUP", "stock_group"); ("SC_TYPE", "stock_type");
    ("OPEN", "open_price"); ("HIGH", "high_price"); ("LOW", "low_price");
    ("CLOSE", "close_price"); ("LAST", "last_price");
    ("PREVCLOSE", "prev_close_price"); ("NO_TRADES", "number_of_trades");
    ("NO_OF_SHRS", "number_of_shares"); ("NET_TURNOV", "net_turnover");
    ("TDCLOINDI", "ignore") ].

Definition NSE_MAPPING : Mapping :=
  [ ("SYMBOL", "stock_symbol"); ("SERIES", "stock_group");
    ("OPEN", "open_price"); ("HIGH", "high_price"); ("LOW", "low_price");
    ("CLOSE", "close_price"); ("LAST", "last_price");
    ("PREVCLOSE", "prev_close_price"); ("TOTTRDQTY", "number_of_shares");
    ("TOTTRDVAL", "net_turnover"); ("TIMESTAMP", "timestamp");
    ("TOTALTRADES", "number_of_trades"); ("ISIN", "ignore") ].

(** The registry as the class body leaves it. *)
Definition default_registry : Registry :=
  let mappings := [("BSE", BSE_MAPPING); ("NSE", NSE_MAPPING)] in
  mkRegistry mappings (map fst mappings).

(** [d.get(k)] and [d[k] = v] on an insertion-ordered dict with string
    keys. *)
Fixpoint dict_get {V : Type} (d : list (string * V)) (k : string) : option V :=
  match d with
  | [] => None
  | (k', v) :: rest => if String.eqb k' k then Some v else dict_get rest k
  end.

Fixpoint dict_set {V : Type} (d : list (string * V)) (k : string) (v : V)
  : list (string * V) :=
  match d with
  | [] => [(k, v)]
  | (k', v') :: rest =>
      if String.eqb k' k then (k', v) :: rest else (k', v') :: dict_set rest k v
  end.

Definition dict_keys {V : Type} (d : list (string * V)) : list string := map fst d.

Definition add_exchange_support (reg : Registry) (exchange_name : string)
  (column_mapping : Mapping) : Registry :=
  let exchange_name := PyStr.upper exchange_name in
  mkRegistry
    (dict_set (EXCHANGE_MAPPINGS reg) exchange_name column_mapping)
    (if PyStr.in_list exchange_name (SUPPORTED_EXCHANGES reg)
     then SUPPORTED_EXCHANGES reg
     else SUPPORTED_EXCHANGES reg ++ [exchange_name]).

Definition get_exchange_columns (reg : Registry) (exchange : string) : list string :=
  match dict_get (EXCHANGE_MAPPINGS reg) (PyStr.upper exchange) with
  | Some m => dict_keys m
  | None => []
  end.

(* ================================================================== *)
(** ** [CSVProcessor.parse_filename] *)
(* ================================================================== *)

(** The name with every [.csv] and then every [.CSV] taken out. *)
Definition name_without_ext (filename : string) : string :=
  PyStr.replace (PyStr.replace filename ".csv" "") ".CSV" "".

(** The body of the [try]: each [raise ValueError] of the source with its
    message. *)
Definition parse_filename_body (reg : Registry) (filename : string)
  : Outcome (Date * string) :=
  let parts := PyStr.split "_" (name_without_ext filename) in
  match parts with
  | [date_str; exchange] =>
      if negb (String.length date_str =? 8) then
        Raise (ValueError ("Date part must be 8 digits (YYYYMMDD), got: " +++ date_str))
      else
        match Strptime.strptime_Ymd date_str with
        | None => Raise (ValueError ("Invalid date format in filename: " +++ date_str))
        | Some parsed_date =>
            if negb (PyStr.truthy exchange) || (10 <? String.length exchange) then
              Raise (ValueError ("Exchange name must be 1-10 characters, got: " +++ exchange))
            else
              let exchange_upper := PyStr.upper exchange in
              if negb (PyStr.in_list exchange_upper (SUPPORTED_EXCHANGES reg)) then
                Raise (ValueError
                         ("Unsupported exchange '" +++ exchange_upper
                          +++ "'. Supported exchanges: "
                          +++ PyStr.join ", " (SUPPORTED_EXCHANGES reg)))
              else Return (parsed_date, exchange_upper)
        end
  | _ =>
      Raise (ValueError
               ("Filename must follow pattern YYYYMMDD_EXCHANGE.csv, got: " +++ filename))
  end.

(** [parse_filename]: whatever the body raises is raised again as a
    [ValueError] that names the file. *)
Definition parse_filename (reg : Registry) (filename : string)
  : Outcome (Date * string) :=
  match parse_filename_body reg filename with
  | Return r => Return r
  | Raise e =>
      Raise (ValueError ("Error parsing filename '" +++ filename +++ "': " +++ exn_str e))
  end.

(** The file-name pattern of the upload forms ([forms.py]): eight digits,
    an underscore, one or more letters, a point and [csv], matched from
    the start of the name to its end (or to a final line feed) with
    [re.IGNORECASE]. *)
Definition filename_pattern (filename : string) : bool :=
  let '(date_str, r1) := PyStr.span PyStr.is_digit filename in
  (String.length date_str =? 8)
  && match r1 with
     | String "_" r2 =>
         let '(exchange, r3) := PyStr.span PyStr.is_alpha r2 in
         PyStr.truthy exchange
         && (String.eqb (PyStr.lower r3) ".csv"
             || String.eqb (PyStr.lower r3) (".csv" +++ String "010" EmptyString))
     | _ => false
     end.

(* ================================================================== *)
(** ** The tables and the processor state *)
(* ================================================================== *)

Record Stock : Type := mkStock {
  stock_id : nat;
  stock_symbol : string;
  stock_name : string;
  stock_exchange : string;
  stock_group : string
}.

Record Candlestick : Type := mkCandlestick {
  candle_id : nat;
  stock : nat;                      (* the stock_id of the owning Stock *)
  candle_date : DateTime;
  open_price : Decimal;
  high_price : Decimal;
  low_price : Decimal;
  close_price : Decimal;
  prev_close_price : Decimal;
  number_of_trades : option Z;
  number_of_shares : option Z;
  net_turnover : option Decimal
}.

(** A [CsvFile] row: the metadata kept for a processed file. *)
Record CsvFile : Type := mkCsvFile {
  csv_filename : string;
  csv_date : Date;
  csv_exchange : string;
  csv_stocks_processed : nat;
  csv_candlesticks_processed : nat
}.

Record Database : Type := mkDatabase {
  stocks : list Stock;
  candlesticks : list Candlestick;
  csv_files : list CsvFile
}.

Definition empty_database : Database := mkDatabase [] [] [].

(** The instance attributes of a [CSVProcessor]. *)
Record CSVProcessor : Type := mkCSVProcessor {
  processed_stocks : nat;
  processed_candlesticks : nat;
  errors : list string;
  warnings : list string
}.

(** [CSVProcessor()] *)
Definition CSVProcessor_init : CSVProcessor := mkCSVProcessor 0 0 [] [].

(** What a method of the processor can read and change. *)
Record World : Type := mkWorld {
  self : CSVProcessor;
  db : Database
}.

(** The state-and-exception monad of the methods: an exception leaves the
    changes made before it in place. *)
Definition Py (A : Type) : Type := World -> Outcome A * World.

Definition ret {A : Type} (a : A) : Py A := fun w => (Return a, w).

Definition raise {A : Type} (e : PyExn) : Py A := fun w => (Raise e, w).

Definition bind {A B : Type} (m : Py A) (k : A -> Py B) : Py B :=
  fun w =>
    match m w with
    | (Return a, w') => k a w'
    | (Raise e, w') => (Raise e, w')
    end.

Definition lift {A : Type} (o : Outcome A) : Py A := fun w => (o, w).

Notation "x <- m ;; k" := (bind m (fun x => k))
  (at level 100, m at next level, right associativity).
Notation "m ;;; k" := (bind m (fun _ => k))
  (at level 100, right associativity).

(** [try: body  except <classes>: handler]. *)
Definition try_except {A : Type} (body : Py A) (catches : PyExn -> bool)
  (handler : PyExn -> Py A) : Py A :=
  fun w =>
    match body w with
    | (Return a, w') => (Return a, w')
    | (Raise e, w') => if catches e then handler e w' else (Raise e, w')
    end.

Definition modify_self (f : CSVProcessor -> CSVProcessor) : Py unit :=
  fun w => (Return tt, mkWorld (f (self w)) (db w)).

(** [self.warnings.append(msg)] and [self.errors.append(msg)]. *)
Definition warnings_append (msg : string) : Py unit :=
  modify_self (fun p =>
    mkCSVProcessor (processed_stocks p) (processed_candlesticks p)
      (errors p) (warnings p ++ [msg])).

Definition errors_append (msg : string) : Py unit :=
  modify_self (fun p =>
    mkCSVProcessor (processed_stocks p) (processed_candlesticks p)
      (errors p ++ [msg]) (warnings p)).

Definition incr_processed_stocks : Py unit :=
  modify_self (fun p =>
    mkCSVProcessor (processed_stocks p + 1) (processed_candlesticks p)
      (errors p) (warnings p)).

Definition incr_processed_candlesticks : Py unit :=
  modify_self (fun p =>
    mkCSVProcessor (processed_stocks p) (processed_candlesticks p + 1)
      (errors p) (warnings p)).

(* ================================================================== *)
(** ** [validate_decimal] and [validate_integer] *)
(* ================================================================== *)

(** [Decimal(s)] and [float(s)] with the exceptions they raise. *)
Definition py_Decimal (s : string) : Outcome Decimal :=
  match PyNum.parse_decimal s with
  | Some d => Return d
  | None => Raise (InvalidOperation "[<class 'decimal.ConversionSyntax'>]")
  end.

Definition py_float (s : string) : Outcome PyFloat :=
  match PyNum.parse_float s with
  | Some x => Return x
  | None => Raise (ValueError ("could not convert string to float: '" +++ s +++ "'"))
  end.

(** [int(float(s))] *)
Definition py_int_float (s : string) : Outcome Z :=
  match py_float s with
  | Return x => PyNum.int_of_float x
  | Raise e => Raise e
  end.

(** [not value or value.strip() == ''] *)
Definition is_blank (value : string) : bool :=
  negb (PyStr.truthy value) || String.eqb (PyStr.strip value) "".

Definition validate_decimal (value field_name : string) : Py (option Decimal) :=
  if is_blank value then ret None
  else
    try_except
      (d <- lift (py_Decimal (PyStr.strip value)) ;; ret (Some d))
      (fun e => match e with InvalidOperation _ | ValueError _ => true | _ => false end)
      (fun _ =>
         warnings_append ("Invalid decimal value for " +++ field_name +++ ": '"
                          +++ value +++ "' - skipping row") ;;;
         ret None).

Definition validate_integer (value field_name : string) : Py (option Z) :=
  if is_blank value then ret None
  else
    try_except
      (n <- lift (py_int_float (PyStr.strip value)) ;; ret (Some n))
      (fun e => match e with ValueError _ | TypeError _ => true | _ => false end)
      (fun _ =>
         warnings_append ("Invalid integer value for " +++ field_name +++ ": '"
                          +++ value +++ "' - using None") ;;;
         ret None).

(* ================================================================== *)
(** ** [get_or_create] on the two tables *)
(* ================================================================== *)

(** The next value of an [AutoField]: above every key of the table. *)
Definition next_id (ids : list nat) : nat := S (fold_right Nat.max 0 ids).

Definition find_stock (d : Database) (symbol exchange : string) : option Stock :=
  find (fun s => String.eqb (stock_symbol s) symbol
                 && String.eqb (stock_exchange s) exchange) (stocks d).

Definition find_candlestick (d : Database) (owner : nat) (date : DateTime)
  : option Candlestick :=
  find (fun c => (stock c =? owner) && datetime_eqb (candle_date c) date)
       (candlesticks d).

(** [Stock.objects.get_or_create(stock_symbol=, stock_exchange=,
    defaults={stock_name, stock_group})]: the row and whether it was
    created. *)
Definition Stock_get_or_create (symbol exchange name group : string)
  : Py (Stock * bool) :=
  fun w =>
    match find_stock (db w) symbol exchange with
    | Some s => (Return (s, false), w)
    | None =>
        let s := mkStock (next_id (map stock_id (stocks (db w))))
                         symbol name exchange group in
        (Return (s, true),
         mkWorld (self w)
           (mkDatabase (stocks (db w) ++ [s]) (candlesticks (db w)) (csv_files (db w))))
    end.

(** [Candlestick.objects.get_or_create(stock=, candle_date=, defaults=...)] *)
Definition Candlestick_get_or_create (owner : Stock) (date : DateTime)
  (o h l c pc : Decimal) (trades shares : option Z) (turnover : option Decimal)
  : Py (Candlestick * bool) :=
  fun w =>
    match find_candlestick (db w) (stock_id owner) date with
    | Some k => (Return (k, false), w)
    | None =>
        let k := mkCandlestick (next_id (map candle_id (candlesticks (db w))))
                   (stock_id owner) date o h l c pc trades shares turnover in
        (Return (k, true),
         mkWorld (self w)
           (mkDatabase (stocks (db w)) (candlesticks (db w) ++ [k]) (csv_files (db w))))
    end.

(** [with transaction.atomic(): body]: the changes of a body that raises
    are rolled back in the database; the processor object keeps its own. *)
Definition transaction_atomic {A : Type} (body : Py A) : Py A :=
  fun w =>
    match body w with
    | (Return a, w') => (Return a, w')
    | (Raise e, w') => (Raise e, mkWorld (self w') (db w))
    end.

(* ================================================================== *)
(** ** [csv.DictReader] *)
(* ================================================================== *)

(** A row of the reader: every field name is a key; the value is [None]
    (the reader's [restval]) where the record was too short. *)
Definition Row : Type := list (string * option string).

(** [dict(zip(fieldnames, record))], then [restval] for the field names
    the record did not reach.  Cells beyond the field names go under the
    key [None], which no column name can be, and are left out. *)
Fixpoint make_row (fieldnames : list string) (record : list string) (d : Row) : Row :=
  match fieldnames with
  | [] => d
  | f :: fs =>
      match record with
      | c :: cs => make_row fs cs (dict_set d f (Some c))
      | [] => make_row fs [] (dict_set d f None)
      end
  end.

Definition is_empty_record (r : list string) : bool :=
  match r with [] => true | _ => false end.

(** [reader.fieldnames]: the first record, if there is one. *)
Definition reader_fieldnames (content : list (list string)) : option (list string) :=
  hd_error content.

(** [list(reader)]: the records after the first, empty ones skipped, as
    dicts. *)
Definition reader_rows (content : list (list string)) : list Row :=
  match content with
  | [] => []
  | fieldnames :: records =>
      map (fun r => make_row fieldnames r [])
          (filter (fun r => negb (is_empty_record r)) records)
  end.

(* ================================================================== *)
(** ** [CSVProcessor._process_row] *)
(* ================================================================== *)

(** The first CSV column that the mapping sends to [db_field]. *)
Definition mapped_column (csv_columns : Mapping) (db_field : string) : option string :=
  match find (fun cf => String.eqb (snd cf) db_field) csv_columns with
  | Some (csv_col, _) => Some csv_col
  | None => None
  end.

(** The local helper [get_mapped_value]:
    [row.get(csv_column, '').strip() if csv_column else '']. *)
Definition get_mapped_value (row : Row) (csv_columns : Mapping) (db_field : string)
  : Outcome string :=
  match mapped_column csv_columns db_field with
  | Some csv_column =>
      if PyStr.truthy csv_column then
        match dict_get row csv_column with
        | None => Return (PyStr.strip "")
        | Some (Some v) => Return (PyStr.strip v)
        | Some None =>
            Raise (AttributeError "'NoneType' object has no attribute 'strip'")
        end
      else Return ""
  | None => Return ""
  end.

Definition any_is_None {A : Type} (l : list (option A)) : bool :=
  existsb (fun x => match x with None => true | Some _ => false end) l.

(** The last part of [_process_row], from [# Get or create stock] on: the
    two [get_or_create] calls with the counters and the duplicate
    warning. *)
Definition _process_row_store (stock_symbol exchange stock_name stock_group : string)
  (candle_date : Date) (o h l c pc : Decimal)
  (number_of_trades number_of_shares : option Z) (net_turnover : option Decimal)
  : Py unit :=
  sc <- Stock_get_or_create stock_symbol exchange stock_name stock_group ;;
  (if snd sc then incr_processed_stocks else ret tt) ;;;
  cc <- Candlestick_get_or_create (fst sc) (midnight candle_date) o h l c pc
          number_of_trades number_of_shares net_turnover ;;
  if snd cc then incr_processed_candlesticks
  else warnings_append ("Duplicate candlestick data for " +++ stock_symbol
                        +++ " on " +++ date_str candle_date +++ " - skipped").

Definition _process_row (row : Row) (candle_date : Date) (exchange : string)
  (csv_columns : Mapping) : Py unit :=
  let get := fun f => lift (get_mapped_value row csv_columns f) in
  stock_symbol <- get "stock_symbol" ;;
  stock_group <- get "stock_group" ;;
  stock_name <- (if String.eqb exchange "NSE" then ret stock_symbol
                 else get "stock_name") ;;
  (if negb (PyStr.truthy stock_symbol) then
     let symbol_column :=
       match mapped_column csv_columns "stock_symbol" with
       | Some col => col
       | None => "SYMBOL"
       end in
     raise (ValueError (symbol_column +++ " (stock symbol) is required"))
   else ret tt) ;;;
  v <- get "open_price" ;; open_price <- validate_decimal v "OPEN" ;;
  v <- get "high_price" ;; high_price <- validate_decimal v "HIGH" ;;
  v <- get "low_price" ;; low_price <- validate_decimal v "LOW" ;;
  v <- get "close_price" ;; close_price <- validate_decimal v "CLOSE" ;;
  v <- get "prev_close_price" ;; prev_close_price <- validate_decimal v "PREVCLOSE" ;;
  match open_price, high_price, low_price, close_price, prev_close_price with
  | Some o, Some h, Some l, Some c, Some pc =>
      v <- get "number_of_trades" ;;
      number_of_trades <- validate_integer v "number_of_trades" ;;
      v <- get "number_of_shares" ;;
      number_of_shares <- validate_integer v "number_of_shares" ;;
      v <- get "net_turnover" ;;
      net_turnover <- validate_decimal v "net_turnover" ;;
      _process_row_store stock_symbol exchange stock_name stock_group candle_date
        o h l c pc number_of_trades number_of_shares net_turnover
  | _, _, _, _, _ => raise (ValueError "Missing required price data")
  end.

(* ================================================================== *)
(** ** [CSVProcessor.process_csv_file] *)
(* ================================================================== *)

(** The dict that [process_csv_file] returns: the one of the normal exit
    and the one of the [except] clause. *)
Inductive FileResult : Type :=
| FileSuccess (stocks_processed candlesticks_processed : nat)
    (errors warnings : list string) (date : Date) (exchange : string)
| FileFailure (error : string) (stocks_processed candlesticks_processed : nat)
    (errors warnings : list string).

Definition result_success (r : FileResult) : bool :=
  match r with FileSuccess _ _ _ _ _ _ => true | FileFailure _ _ _ _ _ => false end.

Definition result_stocks_processed (r : FileResult) : nat :=
  match r with FileSuccess s _ _ _ _ _ | FileFailure _ s _ _ _ => s end.

Definition result_candlesticks_processed (r : FileResult) : nat :=
  match r with FileSuccess _ c _ _ _ _ | FileFailure _ _ c _ _ => c end.

Definition result_errors (r : FileResult) : list string :=
  match r with FileSuccess _ _ e _ _ _ | FileFailure _ _ _ e _ => e end.

Definition result_warnings (r : FileResult) : list string :=
  match r with FileSuccess _ _ _ w _ _ | FileFailure _ _ _ _ w => w end.

Definition result_error (r : FileResult) : option string :=
  match r with FileSuccess _ _ _ _ _ _ => None | FileFailure e _ _ _ _ => Some e end.

(** [expected_headers - actual_headers], the set difference.  The order in
    which Python walks a set of strings is not fixed; the model keeps the
    order of the mapping. *)
Definition missing_headers (csv_columns : Mapping) (fieldnames : option (list string))
  : list string :=
  let actual := match fieldnames with Some l => l | None => [] end in
  filter (fun c => negb (PyStr.in_list c actual))
         (nodup string_dec (dict_keys csv_columns)).

(** The [for row in rows] loop with its [try]/[except Exception]/[continue];
    [row_number] is the number of the row before the first of [rows]. *)
Fixpoint row_loop (rows : list Row) (row_number : nat) (candle_date : Date)
  (exchange : string) (csv_columns : Mapping) : Py unit :=
  match rows with
  | [] => ret tt
  | row :: rest =>
      let row_number := row_number + 1 in
      try_except
        (_process_row row candle_date exchange csv_columns)
        (fun _ => true)
        (fun e =>
           errors_append ("Row " +++ PyStr.str_of_nat row_number +++ ": "
                          +++ exn_str e)) ;;;
      row_loop rest row_number candle_date exchange csv_columns
  end.

(** The body of the outer [try] of [process_csv_file], after the reset of
    the counters. *)
Definition process_csv_file_body (reg : Registry) (filename : string)
  (content : list (list string)) : Py (Date * string) :=
  de <- lift (parse_filename reg filename) ;;
  let '(candle_date, exchange) := de in
  match dict_get (EXCHANGE_MAPPINGS reg) exchange with
  | None | Some [] =>
      raise (ValueError ("No column mapping found for exchange: " +++ exchange))
  | Some csv_columns =>
      match missing_headers csv_columns (reader_fieldnames content) with
      | (_ :: _) as missing =>
          raise (ValueError ("Missing required columns for " +++ exchange
                             +++ " exchange: " +++ PyStr.join ", " missing))
      | [] =>
          transaction_atomic
            (row_loop (reader_rows content) 1 candle_date exchange csv_columns) ;;;
          ret (candle_date, exchange)
      end
  end.

(** [process_csv_file(file_path, filename)]; the file at [file_path] is
    given by the records [csv.reader] finds in it. *)
Definition process_csv_file (reg : Registry) (filename : string)
  (content : list (list string)) (w : World) : FileResult * World :=
  let w0 := mkWorld CSVProcessor_init (db w) in
  match process_csv_file_body reg filename content w0 with
  | (Return (candle_date, exchange), w') =>
      (FileSuccess (processed_stocks (self w')) (processed_candlesticks (self w'))
         (errors (self w')) (warnings (self w')) candle_date exchange, w')
  | (Raise e, w') =>
      (FileFailure (exn_str e) (processed_stocks (self w'))
         (processed_candlesticks (self w')) (errors (self w')) (warnings (self w')), w')
  end.

(* ================================================================== *)
(** ** [BulkCSVProcessor] *)
(* ================================================================== *)

Module Bulk.

(** An entry of [processed_files] and one of [failed_files]. *)
Record ProcessedFile : Type := mkProcessedFile {
  pf_filename : string;
  pf_date : Date;
  pf_exchange : string;
  pf_stocks_processed : nat;
  pf_candlesticks_processed : nat;
  pf_warnings : list string
}.

Record FailedFile : Type := mkFailedFile {
  ff_filename : string;
  ff_error : string;
  ff_stocks_processed : nat;
  ff_candlesticks_processed : nat
}.

(** The instance attributes of a [BulkCSVProcessor]. *)
Record BulkCSVProcessor : Type := mkBulk {
  processed_files : list ProcessedFile;
  failed_files : list FailedFile;
  total_stocks : nat;
  total_candlesticks : nat;
  total_files_processed : nat;
  warnings : list string;
  errors : list string
}.

Definition init : BulkCSVProcessor := mkBulk [] [] 0 0 0 [] [].

(** The dict that [process_zip_file] returns.  The early return for an
    archive without CSV files has no [total_files_failed] key, the other
    two returns have no more keys than these. *)
Record ZipResult : Type := mkZipResult {
  success : bool;
  error : option string;
  r_processed_files : list ProcessedFile;
  r_failed_files : list FailedFile;
  r_total_files_processed : nat;
  r_total_files_failed : option nat;
  r_total_stocks : nat;
  r_total_candlesticks : nat;
  r_warnings : list string;
  r_errors : list string
}.

(** A file of the extracted archive: its base name and the records
    [csv.reader] finds in it. *)
Record ExtractedFile : Type := mkExtractedFile {
  file_name : string;
  file_content : list (list string)
}.

(** The uploaded archive: its name and either the exception that
    [zipfile.ZipFile] or [extractall] raises on it, or the files that
    [os.walk] meets in the extracted tree, in the order of the walk. *)
Record ZipUpload : Type := mkZipUpload {
  zip_name : string;
  zip_extract : Outcome (list ExtractedFile)
}.

(** What [process_zip_file] can read and change: itself, the
    [CSVProcessor] it creates, the database. *)
Record BulkWorld : Type := mkBulkWorld {
  bulk : BulkCSVProcessor;
  world : World
}.

Definition is_csv_file (file : string) : bool :=
  PyStr.endswith (PyStr.lower file) ".csv" && negb (PyStr.startswith file ".").

Definition CsvFile_objects_create (f : CsvFile) (d : Database) : Database :=
  mkDatabase (stocks d) (candlesticks d) (csv_files d ++ [f]).

(** [_process_single_file(processor, file_path, filename, ...)].  The
    outer [try] re-raises what it catches. *)
Definition _process_single_file (reg : Registry) (file : ExtractedFile)
  (bw : BulkWorld)
  : Outcome unit * BulkWorld :=
  let filename := file_name file in
  let b := bulk bw in
  let '(result, w) := process_csv_file reg filename (file_content file) (world bw) in
  match result with
  | FileSuccess sp cp _ ws date exchange =>
      let w' := mkWorld (self w)
                  (CsvFile_objects_create (mkCsvFile filename date exchange sp cp) (db w)) in
      (Return tt,
       mkBulkWorld
         (mkBulk
            (processed_files b ++ [mkProcessedFile filename date exchange sp cp ws])
            (failed_files b)
            (total_stocks b + sp)
            (total_candlesticks b + cp)
            (total_files_processed b + 1)
            (warnings b ++ map (fun x => filename +++ ": " +++ x) (firstn 3 ws))
            (errors b))
         w')
  | FileFailure err sp cp es _ =>
      (Return tt,
       mkBulkWorld
         (mkBulk
            (processed_files b)
            (failed_files b ++ [mkFailedFile filename err sp cp])
            (total_stocks b)
            (total_candlesticks b)
            (total_files_processed b)
            (warnings b)
            ((errors b ++ [filename +++ ": " +++ err])
             ++ map (fun x => filename +++ ": " +++ x) (firstn 3 es)))
         w)
  end.

(** The [for csv_file_path in csv_files] loop with its [try]/[except]. *)
Fixpoint file_loop (reg : Registry) (csv_files : list ExtractedFile)
  (bw : BulkWorld) : BulkWorld :=
  match csv_files with
  | [] => bw
  | file :: rest =>
      match _process_single_file reg file bw with
      | (Return _, bw') => file_loop reg rest bw'
      | (Raise e, bw') =>
          let b := bulk bw' in
          file_loop reg rest
            (mkBulkWorld
               (mkBulk (processed_files b)
                  (failed_files b ++ [mkFailedFile (file_name file) (exn_str e) 0 0])
                  (total_stocks b) (total_candlesticks b) (total_files_processed b)
                  (warnings b)
                  (errors b ++ ["Failed to process " +++ file_name file +++ ": "
                                +++ exn_str e]))
               (world bw'))
      end
  end.

Definition summary (ok : bool) (err : option string) (b : BulkCSVProcessor)
  (extra_errors : list string) : ZipResult :=
  mkZipResult ok err (processed_files b) (failed_files b)
    (total_files_processed b) (Some (List.length (failed_files b)))
    (total_stocks b) (total_candlesticks b) (warnings b)
    (errors b ++ extra_errors).

(** [process_zip_file(zip_file)] *)
Definition process_zip_file (reg : Registry) (zip_file : ZipUpload)
  (bw : BulkWorld)
  : ZipResult * BulkWorld :=
  let zip_filename := zip_name zip_file in
  let bw0 := mkBulkWorld init (world bw) in
  match zip_extract zip_file with
  | Raise e =>
      (summary false
         (Some ("Failed to process ZIP file " +++ zip_filename +++ ": " +++ exn_str e))
         (bulk bw0) ["ZIP processing error: " +++ exn_str e],
       bw0)
  | Return files =>
      let csv_files := filter (fun f => is_csv_file (file_name f)) files in
      match csv_files with
      | [] =>
          (mkZipResult false
             (Some ("No CSV files found in ZIP archive: " +++ zip_filename))
             [] [] 0 None 0 0 [] ["No CSV files found in ZIP archive"],
           bw0)
      | _ :: _ =>
          let bw1 := mkBulkWorld (bulk bw0)
                       (mkWorld CSVProcessor_init (db (world bw0))) in
          let bw2 := file_loop reg csv_files bw1 in
          (summary true None (bulk bw2) [], bw2)
      end
  end.

End Bulk.

(* ================================================================== *)
(** ** [CandlestickForm.clean] (manual entry) *)
(* ================================================================== *)

Module CandlestickForm.

(** The entries of [cleaned_data] that [clean] reads; a field that failed
    its own validation is absent, and [.get] gives [None] for it. *)
Record CleanedData : Type := mkCleanedData {
  cd_stock : option Stock;
  cd_candle_date : option DateTime;
  cd_open_price : option Decimal;
  cd_high_price : option Decimal;
  cd_low_price : option Decimal;
  cd_close_price : option Decimal
}.

(** Truth value of a price taken from [cleaned_data]: [None] and a zero
    are false. *)
Definition price_truthy (p : option Decimal) : bool :=
  match p with
  | Some d => PyNum.decimal_truthy d
  | None => false
  end.

(** The first part of [clean]: the relations between the prices. *)
Definition clean_prices (cd : CleanedData) : Outcome unit :=
  if forallb price_truthy
       [cd_open_price cd; cd_high_price cd; cd_low_price cd; cd_close_price cd]
  then
    match cd_open_price cd, cd_high_price cd, cd_low_price cd, cd_close_price cd with
    | Some open_price, Some high_price, Some low_price, Some close_price =>
        if PyNum.decimal_lt high_price (PyNum.max3 open_price low_price close_price)
        then Raise (ValidationError
                      "High price must be greater than or equal to all other prices.")
        else if PyNum.decimal_lt (PyNum.min3 open_price high_price close_price) low_price
        then Raise (ValidationError
                      "Low price must be less than or equal to all other prices.")
        else Return tt
    | _, _, _, _ => Return tt
    end
  else Return tt.

(** The second part: a candlestick of the same stock and date, other than
    the instance being edited, must not exist. *)
Definition clean_duplicate (instance_pk : option nat) (cd : CleanedData)
  (d : Database) : Outcome unit :=
  match cd_stock cd, cd_candle_date cd with
  | Some s, Some when =>
      let existing :=
        filter (fun c => (stock c =? stock_id s)
                         && datetime_eqb (candle_date c) when)
               (candlesticks d) in
      let existing :=
        match instance_pk with
        | Some pk => filter (fun c => negb (candle_id c =? pk)) existing
        | None => existing
        end in
      match existing with
      | _ :: _ =>
          Raise (ValidationError
                   ("Candlestick data for " +++ stock_symbol s +++ " on "
                    +++ date_str (dt_date when) +++ " already exists."))
      | [] => Return tt
      end
  | _, _ => Return tt
  end.

Definition clean (instance_pk : option nat) (cd : CleanedData) (d : Database)
  : Outcome CleanedData :=
  match clean_prices cd with
  | Raise e => Raise e
  | Return _ =>
      match clean_duplicate instance_pk cd d with
      | Raise e => Raise e
      | Return _ => Return cd
      end
  end.

End CandlestickForm.

(* ================================================================== *)
(** ** [StockForm] (manual entry of a stock) *)
(* ================================================================== *)

Module StockForm.

(** [s.isalnum()] on ASCII text: at least one character, and letters and
    digits only. *)
Definition isalnum (s : string) : bool :=
  PyStr.truthy s
  && PyStr.forall_str (fun c => PyStr.is_alpha c || PyStr.is_digit c) s.

(** [clean_stock_symbol]; [cleaned_data.get('stock_symbol')] is [None]
    when the field is absent. *)
Definition clean_stock_symbol (symbol : option string) : Outcome (option string) :=
  match symbol with
  | Some s =>
      if PyStr.truthy s then
        let s := PyStr.strip (PyStr.upper s) in
        if negb (isalnum
                   (PyStr.replace (PyStr.replace (PyStr.replace s "&" "") "-" "") "." ""))
        then Raise (ValidationError
                      "Stock symbol can only contain letters, numbers, &, -, and .")
        else Return (Some s)
      else Return symbol
  | None => Return None
  end.

(** [clean_stock_exchange] and [clean_stock_group] have the same body. *)
Definition clean_stock_exchange (exchange : option string) : option string :=
  match exchange with
  | Some s => if PyStr.truthy s then Some (PyStr.strip (PyStr.upper s)) else exchange
  | None => None
  end.

Definition clean_stock_group (group : option string) : option string :=
  match group with
  | Some s => if PyStr.truthy s then Some (PyStr.strip (PyStr.upper s)) else group
  | None => None
  end.

(** The entries of [cleaned_data] that [clean] reads. *)
Record CleanedData : Type := mkCleanedData {
  cd_stock_symbol : option string;
  cd_stock_exchange : option string
}.

Definition option_truthy (x : option string) : bool :=
  match x with Some s => PyStr.truthy s | None => false end.

(** [clean]: a stock with the same symbol and exchange, other than the
    instance being edited, must not exist.  [instance_pk] is
    [self.instance.pk]: [None] for a new stock, and a key that is zero is
    as good as none. *)
Definition clean (instance_pk : option nat) (cd : CleanedData) (d : Database)
  : Outcome CleanedData :=
  match cd_stock_symbol cd, cd_stock_exchange cd with
  | Some symbol, Some exchange =>
      if PyStr.truthy symbol && PyStr.truthy exchange then
        let existing :=
          filter (fun s => String.eqb (stock_symbol s) symbol
                           && String.eqb (stock_exchange s) exchange)
                 (stocks d) in
        let existing :=
          match instance_pk with
          | Some (S pk) => filter (fun s => negb (stock_id s =? S pk)) existing
          | _ => existing
          end in
        match existing with
        | _ :: _ =>
            Raise (ValidationError
                     ("Stock " +++ symbol +++ " already exists on " +++ exchange
                      +++ " exchange."))
        | [] => Return cd
        end
      else Return cd
  | _, _ => Return cd
  end.

End StockForm.

(* ================================================================== *)
(** ** The upload forms ([forms.py]) *)
(* ================================================================== *)

Module UploadForm.


(** [re.match(r'^(\d{8})_([A-Z]+)\.csv$', name, re.IGNORECASE)]: the two
    groups of a match. *)
Definition filename_match (filename : string) : option (string * string) :=
  let '(date_str, r1) := PyStr.span PyStr.is_digit filename in
  if String.length date_str =? 8 then
    match r1 with
    | String "_" r2 =>
        let '(exchange, r3) := PyStr.span PyStr.is_alpha r2 in
        if PyStr.truthy exchange
           && (String.eqb (PyStr.lower r3) ".csv"
               || String.eqb (PyStr.lower r3) (".csv" +++ String "010" EmptyString))
        then Some (date_str, exchange)
        else None
    | _ => None
    end
  else None.




(** [csv_files] and [invalid_files] of [clean_folder_zip], from the names
    of the archive ([zf.namelist()]). *)
Definition csv_files (file_list : list string) : list string :=
  filter (fun f => PyStr.endswith (PyStr.lower f) ".csv"
                   && negb (PyStr.startswith f "__MACOSX/")) file_list.


End UploadForm.

(* ================================================================== *)
(** ** The other methods of the registry *)
(* ================================================================== *)

(** [get_supported_exchanges]: a copy of the list. *)
Definition get_supported_exchanges (reg : Registry) : list string :=
  SUPPORTED_EXCHANGES reg.

(* ================================================================== *)
(** ** Vocabulary of the properties *)
(* ================================================================== *)

(** The world with more warnings on the processor. *)
Definition add_warnings (ws : list string) (w : World) : World :=
  mkWorld
    (mkCSVProcessor (processed_stocks (self w)) (processed_candlesticks (self w))
       (errors (self w)) (warnings (self w) ++ ws))
    (db w).

(** What [validate_decimal] gives back for a cell, and what
    [int(float(...))] makes of one. *)
Definition decimal_value (value : string) : option Decimal :=
  if is_blank value then None else PyNum.parse_decimal (PyStr.strip value).

Definition decimal_warnings (value field_name : string) : list string :=
  if is_blank value then []
  else match PyNum.parse_decimal (PyStr.strip value) with
       | Some _ => []
       | None => ["Invalid decimal value for " +++ field_name +++ ": '"
                  +++ value +++ "' - skipping row"]
       end.

Definition integer_value (value : string) : option Z :=
  if is_blank value then None
  else match py_int_float (PyStr.strip value) with
       | Return n => Some n
       | Raise _ => None
       end.

(** The cell is not blank and its float is an infinity, so that [int]
    raises [OverflowError]. *)
Definition integer_overflows (value : string) : bool :=
  negb (is_blank value)
  && match py_int_float (PyStr.strip value) with
     | Raise (OverflowError _) => true
     | _ => false
     end.

Definition integer_warnings (value field_name : string) : list string :=
  if is_blank value then []
  else match py_int_float (PyStr.strip value) with
       | Raise (ValueError _) =>
           ["Invalid integer value for " +++ field_name +++ ": '"
            +++ value +++ "' - using None"]
       | _ => []
       end.

(** The raw cell of a row under a column: the empty string when the
    column or the cell is missing. *)
Definition raw_cell (row : Row) (column : string) : string :=
  match dict_get row column with
  | Some (Some v) => v
  | _ => ""
  end.

(** A database field of a row can be read, and the text that is read. *)
Definition cell_present (row : Row) (csv_columns : Mapping) (db_field : string) : bool :=
  is_return (get_mapped_value row csv_columns db_field).

Definition cell_text (row : Row) (csv_columns : Mapping) (db_field : string) : string :=
  match get_mapped_value row csv_columns db_field with
  | Return v => v
  | Raise _ => ""
  end.

Definition price_fields : list string :=
  ["open_price"; "high_price"; "low_price"; "close_price"; "prev_close_price"].

(** The database fields that [_process_row] reads from a row. *)
Definition fields_read (exchange : string) : list string :=
  ["stock_symbol"; "stock_group"]
  ++ (if String.eqb exchange "NSE" then [] else ["stock_name"])
  ++ price_fields
  ++ ["number_of_trades"; "number_of_shares"; "net_turnover"].

Definition is_some {A : Type} (x : option A) : bool :=
  match x with Some _ => true | None => false end.

(** The stock symbol of the row is present. *)
Definition symbol_present (row : Row) (csv_columns : Mapping) : bool :=
  PyStr.truthy (cell_text row csv_columns "stock_symbol").

(** All five price fields of the row parse. *)
Definition prices_parse (row : Row) (csv_columns : Mapping) : bool :=
  forallb (fun f => is_some (decimal_value (cell_text row csv_columns f))) price_fields.

(** The valid rows as the row-isolation property words them. *)
Definition claimed_valid (row : Row) (csv_columns : Mapping) : bool :=
  symbol_present row csv_columns && prices_parse row csv_columns.

(** No cell that is read is missing from the row (the record was not cut
    short before a column the mapping uses). *)
Definition row_complete (row : Row) (exchange : string) (csv_columns : Mapping) : bool :=
  forallb (cell_present row csv_columns) (fields_read exchange).

(** The valid rows: complete, with a symbol and five prices. *)
Definition row_ok (row : Row) (exchange : string) (csv_columns : Mapping) : bool :=
  row_complete row exchange csv_columns && claimed_valid row csv_columns.

(** Neither count of the row is an infinite float. *)
Definition counts_finite (row : Row) (csv_columns : Mapping) : bool :=
  negb (integer_overflows (cell_text row csv_columns "number_of_trades"))
  && negb (integer_overflows (cell_text row csv_columns "number_of_shares")).

(** The numbers of the rows that satisfy [bad], the first row of [rows]
    being row [row_number + 1]. *)
Fixpoint row_numbers_where (bad : Row -> bool) (rows : list Row) (row_number : nat)
  : list nat :=
  match rows with
  | [] => []
  | row :: rest =>
      (if bad row then [row_number + 1] else [])
      ++ row_numbers_where bad rest (row_number + 1)
  end.

Definition row_error_line (n : nat) (message : string) : string :=
  "Row " +++ PyStr.str_of_nat n +++ ": " +++ message.

(** The error lines of the rows with the given numbers and messages. *)
Definition row_error_lines (numbers : list nat) (messages : list string) : list string :=
  map (fun nm => row_error_line (fst nm) (snd nm)) (combine numbers messages).


Definition is_duplicate_warning (w : string) : bool :=
  prefix "Duplicate candlestick data for " w.

Definition count_if {A : Type} (p : A -> bool) (l : list A) : nat :=
  List.length (filter p l).

(** The header names of a file. *)
Definition header_names (content : list (list string)) : list string :=
  match reader_fieldnames content with Some l => l | None => [] end.

(** A file name is malformed for [parse_filename]: not exactly two
    parts around one underscore once the extension is stripped, a date part
    that is not eight characters or not a calendar date, an exchange that
    is empty or longer than ten characters, or one that is not
    registered. *)
Definition malformed (reg : Registry) (filename : string) : bool :=
  match PyStr.split "_" (name_without_ext filename) with
  | [date_str; exchange] =>
      negb (String.length date_str =? 8)
      || negb (is_some (Strptime.strptime_Ymd date_str))
      || String.eqb exchange "" || (10 <? String.length exchange)
      || negb (PyStr.in_list (PyStr.upper exchange) (SUPPORTED_EXCHANGES reg))
  | _ => true
  end.

(** A name made of pieces without a point, each followed by one of the
    two extensions that are stripped, and a last piece. *)
Fixpoint weave (pieces : list (string * string)) (last : string) : string :=
  match pieces with
  | [] => last
  | (piece, ext) :: rest => piece +++ ext +++ weave rest last
  end.

Definition no_point (s : string) : bool := negb (PyStr.contains_char "." s).

(** The pieces of such a name without the extensions between them. *)
Fixpoint pieces_text (pieces : list (string * string)) (last : string) : string :=
  match pieces with
  | [] => last
  | (piece, _) :: rest => piece +++ pieces_text rest last
  end.

Definition stripped_extension (ext : string) : Prop := ext = ".csv" \/ ext = ".CSV".

Definition outcome_value {A : Type} (o : Outcome A) : option A :=
  match o with Return a => Some a | Raise _ => None end.

(** A counter after a [get_or_create]: one more when a row was created. *)
Definition bump (created : bool) (n : nat) : nat := if created then n + 1 else n.

Definition duplicate_warning (symbol : string) (candle_date : Date) : string :=
  "Duplicate candlestick data for " +++ symbol +++ " on " +++ date_str candle_date
  +++ " - skipped".

(** The database holds the stock and, for it, the candlestick of the
    date. *)
Definition seen (d : Database) (symbol exchange : string) (candle_date : Date) : Prop :=
  exists s k,
    find_stock d symbol exchange = Some s
    /\ find_candlestick d (stock_id s) (midnight candle_date) = Some k.

(** [_process_row] raises on the row: the row is not valid, or one of its
    counts is an infinite float. *)
Definition row_raises (row : Row) (exchange : string) (csv_columns : Mapping) : bool :=
  negb (row_ok row exchange csv_columns && counts_finite row csv_columns).


(** The NSE name derivation in the words of the specification: the stock
    created for a row has the raw SYMBOL cell as its name and the raw
    SERIES cell as its group. *)
Definition nse_name_as_claimed (row : Row) (s : Stock) : Prop :=
  stock_name s = raw_cell row "SYMBOL" /\ stock_group s = raw_cell row "SERIES".

(** The price relations that the manual-entry form is to refuse. *)
Definition price_relation_broken (o h l c : Decimal) : bool :=
  PyNum.decimal_lt h (PyNum.max3 o l c) || PyNum.decimal_lt (PyNum.min3 o h c) l.

(** *** Sample files *)

Definition fresh_world : World := mkWorld CSVProcessor_init empty_database.

Definition BSE_HEADER : list string :=
  ["SC_CODE"; "SC_NAME"; "SC_GROUP"; "SC_TYPE"; "OPEN"; "HIGH"; "LOW"; "CLOSE";
   "LAST"; "PREVCLOSE"; "NO_TRADES"; "NO_OF_SHRS"; "NET_TURNOV"; "TDCLOINDI"].

Definition NSE_HEADER : list string :=
  ["SYMBOL"; "SERIES"; "OPEN"; "HIGH"; "LOW"; "CLOSE"; "LAST"; "PREVCLOSE";
   "TOTTRDQTY"; "TOTTRDVAL"; "TIMESTAMP"; "TOTALTRADES"; "ISIN"].

(** The two rows of the repository's BSE test file, and a third row whose
    opening price does not parse. *)
Definition sample_bse_file : list (list string) :=
  [ BSE_HEADER;
    ["500325"; "RELIANCE"; "A"; "EQ"; "2450.00"; "2475.50"; "2440.00"; "2465.75";
     "2465.75"; "2450.00"; "15000"; "1000000"; "2465750000"; "N"];
    ["500034"; "BAJFINANCE"; "A"; "EQ"; "6800.00"; "6850.00"; "6780.00"; "6825.50";
     "6825.50"; "6800.00"; "8500"; "500000"; "3412750000"; "N"];
    ["500999"; "BROKEN"; "A"; "EQ"; "INVALID"; "10.00"; "9.00"; "9.50";
     "9.50"; "9.40"; "10"; "100"; "950"; "N"] ].


(** An NSE file whose symbol cell has a space before the symbol. *)
Definition padded_nse_file : list (list string) :=
  [ NSE_HEADER;
    [" TCS"; "EQ"; "3450.00"; "3475.50"; "3440.00"; "3465.75"; "3465.75"; "3450.00";
     "750000"; "2599312500"; "01-JAN-2025"; "12000"; "INE467B01029"] ].

(** A file with the headers of another exchange. *)
Definition wrong_header_file : list (list string) :=
  [ ["SYMBOL"; "SERIES"; "OPEN"; "HIGH"; "LOW"];
    ["INCOMPLETETEST"; "EQ"; "1000.00"; "1010.00"; "990.00"] ].

(** A file whose only row has the trade count [inf]. *)
Definition infinite_count_file : list (list string) :=
  [ BSE_HEADER;
    ["500325"; "RELIANCE"; "A"; "EQ"; "2450.00"; "2475.50"; "2440.00"; "2465.75";
     "2465.75"; "2450.00"; "inf"; "1000000"; "2465750000"; "N"] ].

(** A file whose only row has a high price below its low price. *)
Definition inverted_prices_file : list (list string) :=
  [ BSE_HEADER;
    ["500325"; "RELIANCE"; "A"; "EQ"; "7.00"; "5.00"; "10.00"; "7.00";
     "7.00"; "7.00"; "15000"; "1000000"; "2465750000"; "N"] ].

(** The prices 5 for the high, 10 for the low and 7 for the close, with
    the given opening price, as the manual-entry form receives them. *)
Definition form_prices (open_price : N) : CandlestickForm.CleanedData :=
  CandlestickForm.mkCleanedData None None
    (Some (DFinite false open_price 0)) (Some (DFinite false 5 0))
    (Some (DFinite false 10 0)) (Some (DFinite false 7 0)).

(* ================================================================== *)
(** ** Vocabulary of the properties of the tables *)
(* ================================================================== *)

(** The keys that [models.py] declares unique: [(stock_symbol,
    stock_exchange)] for a stock, [(stock, candle_date)] for a
    candlestick. *)
Definition stock_key (s : Stock) : string * string :=
  (stock_symbol s, stock_exchange s).

Definition candle_key (k : Candlestick) : nat * DateTime :=
  (stock k, candle_date k).

(** The tables respect their constraints: no two rows under one unique
    key, no two rows with one primary key, and every candlestick owned by
    a stock of the table. *)
Definition consistent (d : Database) : Prop :=
  NoDup (map stock_key (stocks d))
  /\ NoDup (map candle_key (candlesticks d))
  /\ NoDup (map stock_id (stocks d))
  /\ NoDup (map candle_id (candlesticks d))
  /\ (forall k, In k (candlesticks d) ->
                exists s, In s (stocks d) /\ stock_id s = stock k).

(** [inserted d d' ns nc nf]: the database [d'] is [d] after [ns] stocks
    and [nc] candlesticks were created by [get_or_create], each under a
    key that was free and with the next primary key, a candlestick for a
    stock of the table, and after [nf] upload records were created. *)
Inductive inserted (d : Database) : Database -> nat -> nat -> nat -> Prop :=
| inserted_none : inserted d d 0 0 0
| inserted_stock (d' : Database) (ns nc nf : nat) (s : Stock) :
    inserted d d' ns nc nf ->
    find_stock d' (stock_symbol s) (stock_exchange s) = None ->
    stock_id s = next_id (map stock_id (stocks d')) ->
    inserted d
      (mkDatabase (stocks d' ++ [s]) (candlesticks d') (csv_files d')) (S ns) nc nf
| inserted_candle (d' : Database) (ns nc nf : nat) (k : Candlestick) :
    inserted d d' ns nc nf ->
    find_candlestick d' (stock k) (candle_date k) = None ->
    candle_id k = next_id (map candle_id (candlesticks d')) ->
    (exists s, In s (stocks d') /\ stock_id s = stock k) ->
    inserted d
      (mkDatabase (stocks d') (candlesticks d' ++ [k]) (csv_files d')) ns (S nc) nf
| inserted_record (d' : Database) (ns nc nf : nat) (f : CsvFile) :
    inserted d d' ns nc nf ->
    inserted d
      (mkDatabase (stocks d') (candlesticks d') (csv_files d' ++ [f])) ns nc (S nf).

(** The upload record that the archive loop creates for a processed
    file, the warning lines it keeps of the file, and the error line of a
    failed file. *)
Definition file_record (pf : Bulk.ProcessedFile) : CsvFile :=
  mkCsvFile (Bulk.pf_filename pf) (Bulk.pf_date pf) (Bulk.pf_exchange pf)
    (Bulk.pf_stocks_processed pf) (Bulk.pf_candlesticks_processed pf).

Definition warning_lines (pf : Bulk.ProcessedFile) : list string :=
  map (fun x => Bulk.pf_filename pf +++ ": " +++ x) (firstn 3 (Bulk.pf_warnings pf)).

Definition error_line (ff : Bulk.FailedFile) : string :=
  Bulk.ff_filename ff +++ ": " +++ Bulk.ff_error ff.

(** The characters that [clean_stock_symbol] lets through: letters,
    digits and the three signs it removes before the test. *)
Definition symbol_char (c : ascii) : bool :=
  PyStr.is_alpha c || PyStr.is_digit c
  || Ascii.eqb c "&" || Ascii.eqb c "-" || Ascii.eqb c ".".

Definition alnum_char (c : ascii) : bool := PyStr.is_alpha c || PyStr.is_digit c.

(** When the file passes its checks, every row of it that [_process_row]
    stores, under the date and exchange of the file name, has its stock
    and candlestick in the database. *)
Definition rows_seen (reg : Registry) (d : Database) (file : Bulk.ExtractedFile) : Prop :=
  forall candle_date exchange csv_columns row,
    parse_filename reg (Bulk.file_name file) = Return (candle_date, exchange) ->
    dict_get (EXCHANGE_MAPPINGS reg) exchange = Some csv_columns ->
    missing_headers csv_columns (reader_fieldnames (Bulk.file_content file)) = [] ->
    In row (reader_rows (Bulk.file_content file)) ->
    row_raises row exchange csv_columns = false ->
    seen d (cell_text row csv_columns "stock_symbol") exchange candle_date.

(** What a file of an archive comes to, as far as it can be told without
    the database: whether [process_csv_file] succeeds on it, and the entry
    of [failed_files] when it does not. *)
Definition file_succeeds (reg : Registry) (file : Bulk.ExtractedFile) : bool :=
  result_success
    (fst (process_csv_file reg (Bulk.file_name file) (Bulk.file_content file)
            fresh_world)).

Definition failed_entries (reg : Registry) (files : list Bulk.ExtractedFile)
  : list Bulk.FailedFile :=
  flat_map
    (fun file =>
       match fst (process_csv_file reg (Bulk.file_name file) (Bulk.file_content file)
                    fresh_world) with
       | FileFailure err sp cp _ _ => [Bulk.mkFailedFile (Bulk.file_name file) err sp cp]
       | FileSuccess _ _ _ _ _ _ => []
       end)
    files.

(* ================================================================== *)
(** * Properties *)
(* ================================================================== *)

(** ** Strings *)

Section StringFacts.
Import PyStr.

Lemma append_assoc (a b c : string) : (a +++ b) +++ c = a +++ b +++ c.
Proof. induction a as [|x a IH]; simpl; [reflexivity | now rewrite IH]. Qed.

Lemma append_nil_r (a : string) : a +++ "" = a.
Proof. induction a as [|x a IH]; simpl; [reflexivity | now rewrite IH]. Qed.

Lemma length_append (a b : string) :
  String.length (a +++ b) = String.length a + String.length b.
Proof. induction a as [|x a IH]; simpl; [reflexivity | now rewrite IH]. Qed.

(** A scan for a pattern that starts with a point passes over text
    without a point. *)
Lemma replace_from_no_point (o new a b : string) :
  no_point a = true ->
  replace_from (String "." o) new 0 (a +++ b)
  = a +++ replace_from (String "." o) new 0 b.
Proof.
  unfold no_point, contains_char.
  induction a as [|x a IH]; intros H; [reflexivity|].
  cbn [exists_str] in H. rewrite negb_orb in H. apply andb_prop in H as [Hx Ha].
  change (String x a +++ b) with (String x (a +++ b)).
  cbn [replace_from prefix].
  destruct (ascii_dec "." x) as [E|E].
  - subst x. now rewrite Ascii.eqb_refl in Hx.
  - rewrite IH by exact Ha. reflexivity.
Qed.

Lemma replace_no_point (o new a : string) :
  no_point a = true -> replace a (String "." o) new = a.
Proof.
  intros H. unfold replace.
  rewrite <- (append_nil_r a) at 1.
  rewrite replace_from_no_point by exact H.
  simpl. apply append_nil_r.
Qed.

Lemma split_no_sep (sep : ascii) (a : string) :
  contains_char sep a = false -> split sep a = [a].
Proof.
  unfold contains_char.
  induction a as [|x a IH]; intros H; [reflexivity|].
  cbn [exists_str] in H. apply orb_false_elim in H as [Hx Ha].
  cbn [split]. rewrite Ascii.eqb_sym, Hx, (IH Ha). reflexivity.
Qed.

Lemma split_at_sep (sep : ascii) (a b : string) :
  contains_char sep a = false ->
  split sep (a +++ String sep b) = a :: split sep b.
Proof.
  unfold contains_char.
  induction a as [|x a IH]; intros H.
  - cbn [split append]. now rewrite Ascii.eqb_refl.
  - cbn [exists_str] in H. apply orb_false_elim in H as [Hx Ha].
    cbn [split append]. rewrite Ascii.eqb_sym, Hx, (IH Ha). reflexivity.
Qed.

End StringFacts.

(** ** Dates *)

Section DateFacts.
Import PyStr Strptime.

Lemma digit_char_is_digit (n : nat) : n < 10 -> is_digit (digit_char n) = true.
Proof. intros H. do 10 (destruct n as [|n]; [reflexivity|]). lia. Qed.

Lemma digit_val_digit_char (n : nat) : n < 10 -> digit_val (digit_char n) = n.
Proof. intros H. do 10 (destruct n as [|n]; [reflexivity|]). lia. Qed.

Lemma mod10_lt (n : nat) : n mod 10 < 10.
Proof. apply Nat.mod_upper_bound. discriminate. Qed.

Lemma maxyear_eq : 9999 = 9 * 1000 + 999.
Proof. reflexivity. Qed.

Lemma decimal_expansion4 (y : nat) :
  y <= 9999 ->
  1000 * (y / 1000 mod 10) + 100 * (y / 100 mod 10) + 10 * (y / 10 mod 10) + y mod 10 = y.
Proof.
  intros H. rewrite maxyear_eq in H.
  assert (H1 : y / 1000 < 10) by (apply Nat.Div0.div_lt_upper_bound; lia).
  rewrite (Nat.mod_small (y / 1000) 10) by exact H1.
  pose proof (Nat.div_mod_eq y 10) as E0.
  pose proof (Nat.div_mod_eq (y / 10) 10) as E1.
  pose proof (Nat.div_mod_eq (y / 100) 10) as E2.
  rewrite (Nat.Div0.div_div y 10 10) in E1.
  rewrite (Nat.Div0.div_div y 100 10) in E2.
  change (10 * 10) with 100 in E1. change (100 * 10) with 1000 in E2.
  lia.
Qed.

Lemma re_Y_fmt4 (y : nat) (r : string) :
  y <= 9999 -> re_Y (fmt4 y +++ r) = [(y, r)].
Proof.
  intros H. unfold fmt4, fmt2.
  cbn [append re_Y].
  rewrite !digit_char_is_digit by apply mod10_lt.
  rewrite !digit_val_digit_char by apply mod10_lt.
  cbn [andb]. now rewrite decimal_expansion4.
Qed.

Lemma re_m_fmt2 (m : nat) (r : string) :
  1 <= m <= 12 -> exists tl, re_m (fmt2 m +++ r) = (m, r) :: tl.
Proof.
  intros [H1 H2].
  destruct m as [|m]; [lia|].
  do 12 (destruct m as [|m]; [eexists; reflexivity|]). lia.
Qed.

Lemma re_d_fmt2 (d : nat) :
  1 <= d <= 31 -> exists tl, re_d (fmt2 d) = (d, "") :: tl.
Proof.
  intros [H1 H2].
  destruct d as [|d]; [lia|].
  do 31 (destruct d as [|d]; [eexists; reflexivity|]). lia.
Qed.

Lemma days_in_month_le (y m : nat) : days_in_month y m <= 31.
Proof.
  unfold days_in_month.
  do 13 (destruct m as [|m]; [try lia; destruct (is_leap y); lia|]). lia.
Qed.

Lemma valid_date_bounds (y m d : nat) :
  valid_date y m d = true ->
  1 <= y <= 9999 /\ 1 <= m <= 12 /\ 1 <= d <= 31.
Proof.
  unfold valid_date. rewrite !andb_true_iff, !Nat.leb_le.
  pose proof (days_in_month_le y m). rewrite maxyear_eq. lia.
Qed.

(** The eight digits of a calendar date are read back as that date. *)
Lemma strptime_Ymd_fmt (y m d : nat) :
  valid_date y m d = true ->
  strptime_Ymd (fmt4 y +++ fmt2 m +++ fmt2 d) = Some (mkDate y m d).
Proof.
  intros Hv. destruct (valid_date_bounds _ _ _ Hv) as (Hy & Hm & Hd).
  unfold strptime_Ymd, re_match.
  rewrite re_Y_fmt4 by apply Hy.
  destruct (re_m_fmt2 m (fmt2 d) Hm) as [tl1 E1].
  destruct (re_d_fmt2 d Hd) as [tl2 E2].
  cbn [flat_map app]. rewrite E1. cbn [flat_map app]. rewrite E2.
  cbn [map app hd_error]. now rewrite Hv.
Qed.

Lemma digits_have_no (c : ascii) (s : string) :
  is_digit c = false -> forall_str is_digit s = true -> contains_char c s = false.
Proof.
  intros Hc. unfold contains_char.
  induction s as [|x s IH]; intros H; [reflexivity|].
  cbn [forall_str] in H. apply andb_prop in H as [Hx Hs].
  cbn [exists_str]. rewrite (IH Hs), orb_false_r.
  destruct (Ascii.eqb_spec c x) as [->|]; [congruence | reflexivity].
Qed.

Lemma date_digits (y m d : nat) :
  forall_str is_digit (fmt4 y +++ fmt2 m +++ fmt2 d) = true.
Proof.
  unfold fmt4, fmt2. cbn [append forall_str].
  now rewrite !digit_char_is_digit by apply mod10_lt.
Qed.

Lemma date_length (y m d : nat) :
  String.length (fmt4 y +++ fmt2 m +++ fmt2 d) = 8.
Proof. reflexivity. Qed.

End DateFacts.

(** ** File names *)

Section FilenameFacts.
Import PyStr Strptime.

Lemma in_list_In (s : string) (l : list string) : in_list s l = true <-> In s l.
Proof.
  unfold in_list. rewrite existsb_exists. split.
  - intros (x & Hx & E). apply String.eqb_eq in E. now subst.
  - intros H. exists s. split; [exact H | apply String.eqb_refl].
Qed.

Lemma truthy_length (s : string) : truthy s = true <-> 1 <= String.length s.
Proof. destruct s; simpl; split; intros; try discriminate; try lia; reflexivity. Qed.

(** Taking the extension out of a name that ends in [.csv] and has no
    other point leaves the name before it. *)
Lemma name_without_ext_plain (a : string) :
  no_point a = true -> name_without_ext (a +++ ".csv") = a.
Proof.
  intros H. unfold name_without_ext.
  unfold replace at 2. rewrite replace_from_no_point by exact H.
  cbn [replace_from prefix String.length Nat.sub append].
  change (match ascii_dec "." "." with left _ => _ | right _ => _ end)
    with true at 1.
  cbn [replace_from append]. rewrite append_nil_r.
  now apply replace_no_point.
Qed.

Lemma no_point_append (a b : string) :
  no_point (a +++ b) = no_point a && no_point b.
Proof.
  unfold no_point, contains_char.
  induction a as [|x a IH]; [reflexivity|].
  cbn [append exists_str]. rewrite !negb_orb, <- andb_assoc. now rewrite <- IH.
Qed.

(** The first half of the contract: a well-shaped name gives its date and
    its exchange in upper case. *)
Lemma parse_filename_well_formed (reg : Registry) (y m d : nat) (ex : string) :
  valid_date y m d = true ->
  contains_char "_" ex = false ->
  no_point ex = true ->
  1 <= String.length ex <= 10 ->
  In (upper ex) (SUPPORTED_EXCHANGES reg) ->
  parse_filename reg (fmt4 y +++ fmt2 m +++ fmt2 d +++ "_" +++ ex +++ ".csv")
  = Return (mkDate y m d, upper ex).
Proof.
  intros Hv Hu Hp [Hl1 Hl2] Hin.
  set (D := fmt4 y +++ fmt2 m +++ fmt2 d).
  assert (HD : forall_str is_digit D = true) by apply date_digits.
  assert (E : fmt4 y +++ fmt2 m +++ fmt2 d +++ "_" +++ ex +++ ".csv"
              = (D +++ String "_" ex) +++ ".csv").
  { unfold D. now rewrite !append_assoc. }
  rewrite E. unfold parse_filename, parse_filename_body.
  rewrite name_without_ext_plain.
  2:{ rewrite no_point_append. apply andb_true_intro. split.
      - unfold no_point. now rewrite (digits_have_no "." D).
      - unfold no_point in *. cbn [contains_char exists_str] in *.
        unfold contains_char in Hp. now rewrite orb_false_l. }
  rewrite split_at_sep by (now apply digits_have_no).
  rewrite split_no_sep by exact Hu.
  unfold D at 1. rewrite date_length. cbn [Nat.eqb negb].
  unfold D. rewrite strptime_Ymd_fmt by exact Hv.
  apply truthy_length in Hl1. rewrite Hl1. cbn [negb orb].
  replace (10 <? String.length ex) with false by (symmetry; apply Nat.ltb_ge; lia).
  apply in_list_In in Hin. rewrite Hin. reflexivity.
Qed.

(** The second half: a malformed name raises. *)
Lemma parse_filename_malformed (reg : Registry) (filename : string) :
  malformed reg filename = true ->
  exists msg, parse_filename reg filename = Raise (ValueError msg).
Proof.
  unfold malformed, parse_filename, parse_filename_body.
  destruct (split "_" (name_without_ext filename)) as [|ds [|ex [|x l]]];
    try (intros _; eexists; reflexivity).
  intros H.
  destruct (negb (String.length ds =? 8)); [eexists; reflexivity|].
  destruct (strptime_Ymd ds) as [pd|]; [|eexists; reflexivity].
  cbn [is_some negb orb] in H.
  destruct ex as [|c ex]; [eexists; reflexivity|].
  cbn [truthy negb orb String.eqb] in *.
  destruct (10 <? String.length (String c ex)); [eexists; reflexivity|].
  cbn [orb] in H. rewrite H. eexists; reflexivity.
Qed.

(** A result is never partial: when one is returned the name was
    well-formed, and the result is the date read from its first part with
    the second part in upper case. *)
Lemma parse_filename_returns (reg : Registry) (filename : string) (d : Date) (e : string) :
  parse_filename reg filename = Return (d, e) ->
  malformed reg filename = false
  /\ exists date_str exchange,
       split "_" (name_without_ext filename) = [date_str; exchange]
       /\ String.length date_str = 8
       /\ strptime_Ymd date_str = Some d
       /\ 1 <= String.length exchange <= 10
       /\ e = upper exchange
       /\ In e (SUPPORTED_EXCHANGES reg).
Proof.
  unfold malformed, parse_filename, parse_filename_body.
  destruct (split "_" (name_without_ext filename)) as [|ds [|ex [|x l]]];
    try discriminate.
  destruct (String.length ds =? 8) eqn:E8; [|discriminate].
  cbn [negb]. destruct (strptime_Ymd ds) as [pd|] eqn:Ed; [|discriminate].
  destruct ex as [|c ex]; [discriminate|].
  cbn [truthy negb orb String.eqb is_some].
  destruct (10 <? String.length (String c ex)) eqn:E10; [discriminate|].
  destruct (in_list (upper (String c ex)) (SUPPORTED_EXCHANGES reg)) eqn:Ein;
    [|discriminate].
  cbn [negb]. intros H. injection H as -> <-. split; [reflexivity|].
  exists ds, (String c ex). repeat split.
  - now apply Nat.eqb_eq.
  - exact Ed.
  - cbn [String.length]. lia.
  - now apply Nat.ltb_ge.
  - now apply in_list_In.
Qed.

End FilenameFacts.
Section ExtensionFacts.
Import PyStr.

Lemma name_without_ext_no_point (a : string) :
  no_point a = true -> name_without_ext a = a.
Proof.
  intros H. unfold name_without_ext.
  now rewrite !replace_no_point by (try rewrite replace_no_point; exact H).
Qed.

Lemma strip_csv_here (b : string) :
  replace_from ".csv" "" 0 (".csv" +++ b) = replace_from ".csv" "" 0 b.
Proof. destruct b; reflexivity. Qed.

Lemma keep_CSV_here (b : string) :
  replace_from ".csv" "" 0 (".CSV" +++ b) = ".CSV" +++ replace_from ".csv" "" 0 b.
Proof. destruct b; reflexivity. Qed.

Lemma strip_CSV_here (b : string) :
  replace_from ".CSV" "" 0 (".CSV" +++ b) = replace_from ".CSV" "" 0 b.
Proof. destruct b; reflexivity. Qed.

(** One stripped extension after a piece without a point: the piece stays,
    the extension goes, the scan goes on. *)
Lemma name_without_ext_step (a ext rest : string) :
  no_point a = true -> stripped_extension ext ->
  name_without_ext (a +++ ext +++ rest) = a +++ name_without_ext rest.
Proof.
  intros H [-> | ->]; unfold name_without_ext, replace.
  - rewrite replace_from_no_point by exact H.
    rewrite strip_csv_here.
    now rewrite replace_from_no_point by exact H.
  - rewrite replace_from_no_point by exact H.
    rewrite keep_CSV_here.
    rewrite replace_from_no_point by exact H.
    now rewrite strip_CSV_here.
Qed.

Lemma name_without_ext_weave (pieces : list (string * string)) (last : string) :
  Forall (fun pe => no_point (fst pe) = true /\ stripped_extension (snd pe)) pieces ->
  no_point last = true ->
  name_without_ext (weave pieces last) = pieces_text pieces last.
Proof.
  intros HF Hl. induction HF as [|[a ext] pieces [Ha He] _ IH].
  - now apply name_without_ext_no_point.
  - cbn [weave pieces_text]. cbn [fst snd] in Ha, He.
    now rewrite name_without_ext_step, IH.
Qed.

(** Whether [parse_filename] returns, and what, is decided by the name
    without its extensions. *)
Lemma parse_filename_by_stem (reg : Registry) (f1 f2 : string) :
  name_without_ext f1 = name_without_ext f2 ->
  outcome_value (parse_filename reg f1) = outcome_value (parse_filename reg f2).
Proof.
  intros E. unfold parse_filename, parse_filename_body. rewrite E.
  destruct (split "_" (name_without_ext f2)) as [|ds [|ex [|x l]]];
    try reflexivity.
  destruct (negb (String.length ds =? 8)); [reflexivity|].
  destruct (Strptime.strptime_Ymd ds); [|reflexivity].
  destruct (negb (truthy ex) || (10 <? String.length ex)); [reflexivity|].
  destruct (negb (in_list (upper ex) (SUPPORTED_EXCHANGES reg))); reflexivity.
Qed.

End ExtensionFacts.

Section UpperFacts.
Import PyStr.

Lemma upper_char_cases (x : ascii) :
  upper_char x = x \/ (is_lower x = true /\ is_upper (upper_char x) = true).
Proof.
  destruct x as [[|] [|] [|] [|] [|] [|] [|] [|]]; vm_compute; auto.
Qed.

Lemma length_upper (s : string) : String.length (upper s) = String.length s.
Proof.
  induction s as [|x s IH]; [reflexivity|].
  cbn [upper map_str String.length]. fold (upper s). now rewrite IH.
Qed.

(** Upper-casing neither makes nor removes a character that is not a
    letter. *)
Lemma contains_char_upper (c : ascii) (s : string) :
  is_upper c = false -> is_lower c = false ->
  contains_char c (upper s) = contains_char c s.
Proof.
  intros Hu Hl. unfold contains_char.
  induction s as [|x s IH]; [reflexivity|].
  cbn [upper map_str exists_str]. fold (upper s). rewrite IH. f_equal.
  destruct (upper_char_cases x) as [-> | [Hx Hux]]; [reflexivity|].
  destruct (Ascii.eqb_spec c (upper_char x)) as [E|_];
    [rewrite <- E in Hux; congruence|].
  destruct (Ascii.eqb_spec c x) as [E|_]; [rewrite <- E in Hx; congruence|].
  reflexivity.
Qed.

(** With the registry as shipped, a registered exchange part has three
    characters, no underscore and no point. *)
Lemma shipped_exchange_shape (ex : string) :
  In (upper ex) (SUPPORTED_EXCHANGES default_registry) ->
  contains_char "_" ex = false /\ no_point ex = true
  /\ 1 <= String.length ex <= 10.
Proof.
  intros Hin.
  assert (H : contains_char "_" (upper ex) = false
              /\ contains_char "." (upper ex) = false
              /\ String.length (upper ex) = 3).
  { cbn in Hin. destruct Hin as [<- | [<- | []]]; repeat split. }
  destruct H as (H1 & H2 & H3).
  rewrite contains_char_upper in H1, H2 by reflexivity.
  rewrite length_upper in H3. unfold no_point. rewrite H1, H2, H3.
  repeat split; lia.
Qed.

(** The length guard comes before the registry: a registered code of more
    than ten characters, such as the one the extensibility test adds, is
    refused. *)
Lemma long_exchange_refused :
  let reg := add_exchange_support default_registry "NEWEXCHANGE"
               [("TICKER", "stock_symbol")] in
  In "NEWEXCHANGE" (SUPPORTED_EXCHANGES reg)
  /\ parse_filename reg "20250101_NEWEXCHANGE.csv"
     = Raise (ValueError
                ("Error parsing filename '20250101_NEWEXCHANGE.csv': "
                 +++ "Exchange name must be 1-10 characters, got: NEWEXCHANGE")).
Proof. intros reg. split; [vm_compute; tauto | reflexivity]. Qed.

End UpperFacts.

(** C3.  The contract of [parse_filename].  With the registry as shipped,
    a name [YYYYMMDD_EXCHANGE.csv] whose eight digits are a calendar date
    and whose exchange is registered once in upper case gives exactly that
    date and the exchange in upper case.  With any registry the same holds
    when the exchange part has one to ten characters and neither an
    underscore nor a point; every malformed name raises an error; and a
    result that is returned is never partial: it is the date read from the
    first part with the second part in upper case, of a name that is not
    malformed. *)
Theorem parse_filename_contract :
  (forall (y m d : nat) (ex : string),
      valid_date y m d = true ->
      In (PyStr.upper ex) (SUPPORTED_EXCHANGES default_registry) ->
      parse_filename default_registry
        (PyStr.fmt4 y +++ PyStr.fmt2 m +++ PyStr.fmt2 d +++ "_" +++ ex +++ ".csv")
      = Return (mkDate y m d, PyStr.upper ex))
  /\ (forall (reg : Registry) (y m d : nat) (ex : string),
         valid_date y m d = true ->
         PyStr.contains_char "_" ex = false ->
         no_point ex = true ->
         1 <= String.length ex <= 10 ->
         In (PyStr.upper ex) (SUPPORTED_EXCHANGES reg) ->
         parse_filename reg
           (PyStr.fmt4 y +++ PyStr.fmt2 m +++ PyStr.fmt2 d +++ "_" +++ ex +++ ".csv")
         = Return (mkDate y m d, PyStr.upper ex))
  /\ (forall (reg : Registry) (filename : string),
         malformed reg filename = true ->
         exists msg, parse_filename reg filename = Raise (ValueError msg))
  /\ (forall (reg : Registry) (filename : string) (d : Date) (e : string),
         parse_filename reg filename = Return (d, e) ->
         malformed reg filename = false
         /\ exists date_str exchange,
              PyStr.split "_" (name_without_ext filename) = [date_str; exchange]
              /\ String.length date_str = 8
              /\ Strptime.strptime_Ymd date_str = Some d
              /\ 1 <= String.length exchange <= 10
              /\ e = PyStr.upper exchange
              /\ In e (SUPPORTED_EXCHANGES reg)).
Proof.
  split; [|split; [|split]].
  - intros y m d ex Hv Hin.
    destruct (shipped_exchange_shape ex Hin) as (Hu & Hp & Hl).
    now apply parse_filename_well_formed.
  - exact parse_filename_well_formed.
  - exact parse_filename_malformed.
  - exact parse_filename_returns.
Qed.

Lemma parse_filename_contract_witness :
  (valid_date 2025 1 1 = true
   /\ In (PyStr.upper "bse") (SUPPORTED_EXCHANGES default_registry)
   /\ parse_filename default_registry "20250101_bse.csv"
      = Return (mkDate 2025 1 1, "BSE"))
  /\ (PyStr.contains_char "_" "Nse" = false
      /\ no_point "Nse" = true
      /\ 1 <= String.length "Nse" <= 10
      /\ parse_filename default_registry "20241231_Nse.csv"
         = Return (mkDate 2024 12 31, "NSE"))
  /\ (malformed default_registry "invalid_format.csv" = true
      /\ exists msg,
           parse_filename default_registry "invalid_format.csv"
           = Raise (ValueError msg))
  /\ (parse_filename default_registry "20250101_NSE.CSV"
      = Return (mkDate 2025 1 1, "NSE")
      /\ malformed default_registry "20250101_NSE.CSV" = false).
Proof.
  split; [|split; [|split]].
  - assert (Hv : valid_date 2025 1 1 = true) by reflexivity.
    assert (Hi : In (PyStr.upper "bse") (SUPPORTED_EXCHANGES default_registry))
      by (simpl; auto).
    repeat (split; [assumption|]).
    exact (proj1 parse_filename_contract 2025 1 1 "bse" Hv Hi).
  - assert (Hv : valid_date 2024 12 31 = true) by reflexivity.
    assert (Hu : PyStr.contains_char "_" "Nse" = false) by reflexivity.
    assert (Hp : no_point "Nse" = true) by reflexivity.
    assert (Hl : 1 <= String.length "Nse" <= 10) by (simpl; lia).
    assert (Hi : In (PyStr.upper "Nse") (SUPPORTED_EXCHANGES default_registry))
      by (simpl; auto).
    repeat (split; [assumption|]).
    exact (proj1 (proj2 parse_filename_contract) default_registry 2024 12 31 "Nse"
             Hv Hu Hp Hl Hi).
  - assert (Hm : malformed default_registry "invalid_format.csv" = true) by reflexivity.
    split; [exact Hm|].
    exact (proj1 (proj2 (proj2 parse_filename_contract)) default_registry _ Hm).
  - assert (Hr : parse_filename default_registry "20250101_NSE.CSV"
                 = Return (mkDate 2025 1 1, "NSE")) by reflexivity.
    split; [exact Hr|].
    exact (proj1 (proj2 (proj2 (proj2 parse_filename_contract)) default_registry _ _ _ Hr)).
Defined.

(** C9.  The extension in mixed case.  [parse_filename] takes [.csv] and
    [.CSV] out of the name and nothing else: the name
    [20250101_BSE.Csv], which the upload form's pattern and the archive
    walk both accept as a CSV file, is refused, while the same name with
    [.csv] or [.CSV] gives the date and the exchange. *)
Theorem parse_filename_mixed_case_extension :
  parse_filename default_registry "20250101_BSE.Csv"
  = Raise (ValueError
             ("Error parsing filename '20250101_BSE.Csv': "
              +++ "Unsupported exchange 'BSE.CSV'. Supported exchanges: BSE, NSE"))
  /\ filename_pattern "20250101_BSE.Csv" = true
  /\ Bulk.is_csv_file "20250101_BSE.Csv" = true
  /\ parse_filename default_registry "20250101_BSE.csv"
     = Return (mkDate 2025 1 1, "BSE")
  /\ parse_filename default_registry "20250101_BSE.CSV"
     = Return (mkDate 2025 1 1, "BSE").
Proof. repeat split; reflexivity. Qed.

(** C10.  The extension is stripped anywhere in the name.  In a name made
    of pieces without a point, each followed by [.csv] or [.CSV], every one
    of these extensions is taken out, wherever it stands, and
    [parse_filename] decides on what is left; so names that the pattern
    [YYYYMMDD_EXCHANGE.csv] does not match, such as the doubled extension
    [20250101_BSE.csv.csv], an extension in the middle of the date and a
    name that ends in no extension at all, are parsed with success. *)
Theorem extension_stripped_anywhere :
  (forall (pieces : list (string * string)) (last : string),
      Forall (fun pe => no_point (fst pe) = true /\ stripped_extension (snd pe)) pieces ->
      no_point last = true ->
      name_without_ext (weave pieces last) = pieces_text pieces last)
  /\ (forall (reg : Registry) (pieces : list (string * string)) (last : string),
         Forall (fun pe => no_point (fst pe) = true /\ stripped_extension (snd pe)) pieces ->
         no_point last = true ->
         outcome_value (parse_filename reg (weave pieces last))
         = outcome_value (parse_filename reg (pieces_text pieces last)))
  /\ (filename_pattern "20250101_BSE.csv.csv" = false
      /\ parse_filename default_registry "20250101_BSE.csv.csv"
         = Return (mkDate 2025 1 1, "BSE"))
  /\ (filename_pattern "2025.csv0101_BSE.csv" = false
      /\ parse_filename default_registry "2025.csv0101_BSE.csv"
         = Return (mkDate 2025 1 1, "BSE"))
  /\ (filename_pattern "20250101.CSV_BSE" = false
      /\ parse_filename default_registry "20250101.CSV_BSE"
         = Return (mkDate 2025 1 1, "BSE")).
Proof.
  split; [exact name_without_ext_weave|].
  split.
  - intros reg pieces last HF Hl. apply parse_filename_by_stem.
    rewrite name_without_ext_weave by assumption.
    symmetry. apply name_without_ext_no_point.
    clear reg. induction HF as [|[a ext] pieces [Ha _] _ IH]; [exact Hl|].
    cbn [pieces_text]. rewrite no_point_append. cbn [fst] in Ha. now rewrite Ha, IH.
  - repeat split; reflexivity.
Qed.

Lemma extension_stripped_anywhere_witness :
  name_without_ext "2025.csv0101_BSE.CSV.csv" = "20250101_BSE"
  /\ outcome_value (parse_filename default_registry "2025.csv0101_BSE.CSV.csv")
     = outcome_value (parse_filename default_registry "20250101_BSE").
Proof.
  assert (HF : Forall (fun pe => no_point (fst pe) = true /\ stripped_extension (snd pe))
                 [("2025", ".csv"); ("0101_BSE", ".CSV"); ("", ".csv")]).
  { constructor; [split; [reflexivity | left; reflexivity]|].
    constructor; [split; [reflexivity | right; reflexivity]|].
    constructor; [split; [reflexivity | left; reflexivity]|].
    constructor. }
  assert (Hl : no_point "" = true) by reflexivity.
  split.
  - exact (proj1 extension_stripped_anywhere _ "" HF Hl).
  - exact (proj1 (proj2 extension_stripped_anywhere) default_registry _ "" HF Hl).
Defined.
(** ** The monad and the validators *)

Section MonadFacts.

Lemma add_warnings_nil (w : World) : add_warnings [] w = w.
Proof.
  destruct w as [[ps pc es ws] d]. unfold add_warnings. cbn.
  now rewrite app_nil_r.
Qed.

Lemma add_warnings_app (a b : list string) (w : World) :
  add_warnings b (add_warnings a w) = add_warnings (a ++ b) w.
Proof. unfold add_warnings. cbn. now rewrite app_assoc. Qed.

Lemma bind_ret {A B : Type} (a : A) (k : A -> Py B) (w : World) :
  bind (ret a) k w = k a w.
Proof. reflexivity. Qed.

Lemma bind_raise {A B : Type} (e : PyExn) (k : A -> Py B) (w : World) :
  bind (raise e) k w = (Raise e, w).
Proof. reflexivity. Qed.

Lemma bind_lift_Return {A B : Type} (o : Outcome A) (a : A) (k : A -> Py B) (w : World) :
  o = Return a -> bind (lift o) k w = k a w.
Proof. now intros ->. Qed.

Lemma bind_lift_Raise {A B : Type} (o : Outcome A) (e : PyExn) (k : A -> Py B) (w : World) :
  o = Raise e -> bind (lift o) k w = (Raise e, w).
Proof. now intros ->. Qed.

(** [validate_decimal] never raises: it returns the decimal of the cell
    when there is one, with a warning when the cell is unparseable. *)
Lemma validate_decimal_run (value field_name : string) (w : World) :
  validate_decimal value field_name w
  = (Return (decimal_value value),
     add_warnings (decimal_warnings value field_name) w).
Proof.
  unfold validate_decimal, decimal_value, decimal_warnings.
  destruct (is_blank value).
  - unfold ret. now rewrite add_warnings_nil.
  - unfold try_except, bind, lift, py_Decimal.
    destruct (PyNum.parse_decimal (PyStr.strip value)).
    + unfold ret. now rewrite add_warnings_nil.
    + reflexivity.
Qed.

Lemma int_of_float_exn (x : PyFloat) (e : PyExn) :
  PyNum.int_of_float x = Raise e ->
  (exists m, e = ValueError m)
  \/ e = OverflowError "cannot convert float infinity to integer".
Proof.
  destruct x; cbn; intros H; try discriminate; injection H as <-; eauto.
Qed.

Lemma py_int_float_exn (s : string) (e : PyExn) :
  py_int_float s = Raise e ->
  (exists m, e = ValueError m)
  \/ e = OverflowError "cannot convert float infinity to integer".
Proof.
  unfold py_int_float, py_float.
  destruct (PyNum.parse_float s).
  - apply int_of_float_exn.
  - intros H. injection H as <-. eauto.
Qed.

(** [validate_integer] lets the [OverflowError] of an infinite float
    through; in every other case it returns as [validate_decimal] does. *)
Lemma validate_integer_run (value field_name : string) (w : World) :
  validate_integer value field_name w
  = if integer_overflows value
    then (Raise (OverflowError "cannot convert float infinity to integer"), w)
    else (Return (integer_value value),
          add_warnings (integer_warnings value field_name) w).
Proof.
  unfold validate_integer, integer_value, integer_warnings, integer_overflows.
  destruct (is_blank value).
  - cbn. unfold ret. now rewrite add_warnings_nil.
  - cbn [negb andb]. unfold try_except, bind, lift.
    destruct (py_int_float (PyStr.strip value)) as [n|e] eqn:E.
    + unfold ret. now rewrite add_warnings_nil.
    + destruct (py_int_float_exn _ _ E) as [[m ->] | ->]; reflexivity.
Qed.

Lemma bind_validate_decimal {B : Type} (value field_name : string)
  (k : option Decimal -> Py B) (w : World) :
  bind (validate_decimal value field_name) k w
  = k (decimal_value value) (add_warnings (decimal_warnings value field_name) w).
Proof. unfold bind. now rewrite validate_decimal_run. Qed.

Lemma bind_validate_integer {B : Type} (value field_name : string)
  (k : option Z -> Py B) (w : World) :
  bind (validate_integer value field_name) k w
  = if integer_overflows value
    then (Raise (OverflowError "cannot convert float infinity to integer"), w)
    else k (integer_value value) (add_warnings (integer_warnings value field_name) w).
Proof.
  unfold bind. rewrite validate_integer_run.
  now destruct (integer_overflows value).
Qed.

End MonadFacts.

(** ** One row *)

Section RowFacts.

Variables (row : Row) (exchange : string) (csv_columns : Mapping).

Lemma cell_of_Return (f v : string) :
  get_mapped_value row csv_columns f = Return v ->
  cell_text row csv_columns f = v /\ cell_present row csv_columns f = true.
Proof. unfold cell_text, cell_present. now intros ->. Qed.

Lemma cell_of_Raise (f : string) (e : PyExn) :
  get_mapped_value row csv_columns f = Raise e ->
  cell_present row csv_columns f = false.
Proof. unfold cell_present. now intros ->. Qed.

Lemma forallb_false_in {A : Type} (p : A -> bool) (l : list A) (x : A) :
  In x l -> p x = false -> forallb p l = false.
Proof.
  intros Hin Hp. destruct (forallb p l) eqn:E; [|reflexivity].
  rewrite forallb_forall in E. rewrite (E x Hin) in Hp. discriminate.
Qed.

Lemma not_ok_missing (f : string) :
  In f (fields_read exchange) ->
  cell_present row csv_columns f = false ->
  row_ok row exchange csv_columns = false.
Proof.
  intros Hin Hp. unfold row_ok, row_complete.
  now rewrite (forallb_false_in _ _ f Hin Hp).
Qed.

Lemma not_ok_symbol :
  symbol_present row csv_columns = false ->
  row_ok row exchange csv_columns = false.
Proof.
  intros H. unfold row_ok, claimed_valid. rewrite H.
  now rewrite andb_false_r.
Qed.

Lemma not_ok_price (f : string) :
  In f price_fields ->
  decimal_value (cell_text row csv_columns f) = None ->
  row_ok row exchange csv_columns = false.
Proof.
  intros Hin Hp. unfold row_ok, claimed_valid, prices_parse.
  rewrite (forallb_false_in _ _ f Hin) by now rewrite Hp.
  now rewrite !andb_false_r.
Qed.

Lemma fields_read_always (f : string) :
  In f (["stock_symbol"; "stock_group"] ++ price_fields
        ++ ["number_of_trades"; "number_of_shares"; "net_turnover"]) ->
  In f (fields_read exchange).
Proof.
  unfold fields_read. rewrite !in_app_iff. tauto.
Qed.

Lemma fields_read_name :
  String.eqb exchange "NSE" = false -> In "stock_name" (fields_read exchange).
Proof.
  intros E. unfold fields_read. rewrite E. rewrite !in_app_iff. cbn. tauto.
Qed.

End RowFacts.
Section RowCases.

Lemma decimal_warnings_not_duplicate (value field_name : string) :
  Forall (fun x => is_duplicate_warning x = false) (decimal_warnings value field_name).
Proof.
  unfold decimal_warnings.
  destruct (is_blank value); [constructor|].
  destruct (PyNum.parse_decimal (PyStr.strip value)); repeat constructor.
Qed.

Lemma integer_warnings_not_duplicate (value field_name : string) :
  Forall (fun x => is_duplicate_warning x = false) (integer_warnings value field_name).
Proof.
  unfold integer_warnings.
  destruct (is_blank value); [constructor|].
  destruct (py_int_float (PyStr.strip value)) as [n|[m|m|m|m|m|m]]; repeat constructor.
Qed.

Variables (row : Row) (exchange : string) (csv_columns : Mapping).

Local Abbreviation txt := (cell_text row csv_columns).
Local Abbreviation get := (get_mapped_value row csv_columns).

Ltac use_fact :=
  match goal with
  | H : String.eqb exchange _ = _ |- context [String.eqb exchange _] => rewrite H
  | H : PyStr.truthy ?s = _ |- context [PyStr.truthy ?s] => rewrite H
  | H : decimal_value ?s = _ |- context [decimal_value ?s] => rewrite H
  | H : integer_overflows ?s = _ |- context [integer_overflows ?s] => rewrite H
  end; cbn [negb]; cbv iota.

Ltac run_row :=
  repeat first
    [ rewrite bind_ret
    | rewrite bind_raise
    | erewrite bind_lift_Return by eassumption
    | erewrite bind_lift_Raise by eassumption
    | rewrite bind_validate_decimal
    | rewrite bind_validate_integer
    | match goal with
      | H : forall (B : Type) (k : string -> Py B) (w : World), bind _ k w = _ |- _ =>
          rewrite H
      end
    | rewrite add_warnings_app
    | use_fact ].

Ltac no_duplicates :=
  repeat (apply Forall_app; split);
  first [ apply decimal_warnings_not_duplicate
        | apply integer_warnings_not_duplicate
        | apply Forall_nil ].

Ltac raise_leaf :=
  eexists; split; [left; eexists; split | ];
  [ | intros candle_date w; unfold _process_row; cbv zeta; run_row;
      first [ reflexivity
            | apply f_equal2; [reflexivity | symmetry; apply add_warnings_nil] ]
    | no_duplicates ].

Ltac missing f G :=
  raise_leaf; left; apply (not_ok_missing _ _ _ f);
  [ first [ apply fields_read_always; cbn; tauto | now apply fields_read_name ]
  | now apply (cell_of_Raise _ _ _ _ G) ].

Ltac read f v G T P :=
  let e := fresh "e" in
  destruct (get f) as [v|e] eqn:G; [|missing f G];
  destruct (cell_of_Return row csv_columns _ _ G) as [T P].

Ltac price f v o T V :=
  destruct (decimal_value v) as [o|] eqn:V;
  [| raise_leaf; left; apply (not_ok_price _ _ _ f); [cbn; tauto | now rewrite T] ].

(** What [_process_row] does with a row, whatever the state it starts
    from: it raises, and then the row is not valid or one of its counts
    is infinite; or it goes on to store the values it has read, and then
    the row is valid.  On the way only warnings are added. *)
Lemma process_row_cases :
  exists ws,
    ((exists e,
        (row_ok row exchange csv_columns = false
         \/ counts_finite row csv_columns = false)
        /\ forall candle_date w,
            _process_row row candle_date exchange csv_columns w
            = (Raise e, add_warnings ws w))
    \/ (row_ok row exchange csv_columns = true
        /\ counts_finite row csv_columns = true
        /\ exists o h l c pc,
            decimal_value (txt "open_price") = Some o
            /\ decimal_value (txt "high_price") = Some h
            /\ decimal_value (txt "low_price") = Some l
            /\ decimal_value (txt "close_price") = Some c
            /\ decimal_value (txt "prev_close_price") = Some pc
            /\ forall candle_date w,
                _process_row row candle_date exchange csv_columns w
                = _process_row_store (txt "stock_symbol") exchange
                    (if String.eqb exchange "NSE" then txt "stock_symbol"
                     else txt "stock_name")
                    (txt "stock_group") candle_date o h l c pc
                    (integer_value (txt "number_of_trades"))
                    (integer_value (txt "number_of_shares"))
                    (decimal_value (txt "net_turnover"))
                    (add_warnings ws w)))
    /\ Forall (fun x => is_duplicate_warning x = false) ws.
Proof.
  read "stock_symbol" symb G1 T1 P1.
  read "stock_group" grp G2 T2 P2.
  assert (Hname :
            (exists name,
                (if String.eqb exchange "NSE" then txt "stock_symbol"
                 else txt "stock_name") = name
                /\ forallb (cell_present row csv_columns)
                     (if String.eqb exchange "NSE" then [] else ["stock_name"]) = true
                /\ forall (B : Type) (k : string -> Py B) (w : World),
                     bind (if String.eqb exchange "NSE" then ret symb
                           else lift (get "stock_name")) k w = k name w)
            \/ (String.eqb exchange "NSE" = false
                /\ exists e, get "stock_name" = Raise e)).
  { destruct (String.eqb exchange "NSE") eqn:ENSE.
    - left. exists symb. repeat split; [exact T1].
    - destruct (get "stock_name") as [name|e] eqn:G3.
      + left. exists name.
        destruct (cell_of_Return row csv_columns _ _ G3) as [T3 P3].
        repeat split; [exact T3 | cbn; now rewrite P3].
      + right. split; [reflexivity | now exists e]. }
  destruct Hname as [(name & Tn & Fn & Bn) | [ENSE [e G3]]];
    [|missing "stock_name" G3].
  destruct (PyStr.truthy symb) eqn:TS.
  2:{ raise_leaf. left. apply not_ok_symbol. unfold symbol_present.
      now rewrite T1. }
  read "open_price" vo G4 T4 P4.
  read "high_price" vh G5 T5 P5.
  read "low_price" vl G6 T6 P6.
  read "close_price" vc G7 T7 P7.
  read "prev_close_price" vp G8 T8 P8.
  price "open_price" vo o T4 V4.
  price "high_price" vh h T5 V5.
  price "low_price" vl l T6 V6.
  price "close_price" vc c T7 V7.
  price "prev_close_price" vp pc T8 V8.
  read "number_of_trades" vt G9 T9 P9.
  destruct (integer_overflows vt) eqn:O9.
  { raise_leaf. right. unfold counts_finite. now rewrite T9, O9. }
  read "number_of_shares" vs G10 T10 P10.
  destruct (integer_overflows vs) eqn:O10.
  { raise_leaf. right. unfold counts_finite. rewrite T10, O10.
    now rewrite andb_false_r. }
  read "net_turnover" vn G11 T11 P11.
  eexists. split; [right | ]; [split; [|split] | ].
  - unfold row_ok, row_complete, claimed_valid, symbol_present, prices_parse,
      fields_read, price_fields.
    rewrite !forallb_app, Fn. cbn [forallb].
    rewrite P1, P2, P4, P5, P6, P7, P8, P9, P10, P11,
      T1, T4, T5, T6, T7, T8, TS, V4, V5, V6, V7, V8.
    reflexivity.
  - unfold counts_finite. now rewrite T9, T10, O9, O10.
  - exists o, h, l, c, pc.
    rewrite Tn, T4, T5, T6, T7, T8, T9, T10, T11, T2, T1.
    repeat (split; [assumption|]).
    intros candle_date w. unfold _process_row. cbv zeta.
    run_row. reflexivity.
  - no_duplicates.
Qed.

End RowCases.
(** ** The two [get_or_create] calls *)

Section StoreFacts.

Lemma find_app_some {A : Type} (p : A -> bool) (l l' : list A) (x : A) :
  find p l = Some x -> find p (l ++ l') = Some x.
Proof.
  induction l as [|a l IH]; [discriminate|].
  cbn. destruct (p a); [trivial | exact IH].
Qed.

Lemma find_app_none {A : Type} (p : A -> bool) (l l' : list A) :
  find p l = None -> find p (l ++ l') = find p l'.
Proof.
  induction l as [|a l IH]; [reflexivity|].
  cbn. destruct (p a); [discriminate | exact IH].
Qed.

Lemma date_eqb_refl (d : Date) : date_eqb d d = true.
Proof. unfold date_eqb. now rewrite !Nat.eqb_refl. Qed.

Lemma datetime_eqb_refl (t : DateTime) : datetime_eqb t t = true.
Proof. unfold datetime_eqb. now rewrite date_eqb_refl, !Nat.eqb_refl. Qed.

Variables (symbol exchange name group : string) (the_date : Date).
Variables (o h l c pc : Decimal) (trades shares : option Z) (turnover : option Decimal).

Local Abbreviation store :=
  (_process_row_store symbol exchange name group the_date o h l c pc
     trades shares turnover).

(** The stock and the candlestick that the store creates when there is
    none. *)
Local Abbreviation new_stock d :=
  (mkStock (next_id (map stock_id (stocks d))) symbol name exchange group).

Local Abbreviation new_candle d owner :=
  (mkCandlestick (next_id (map candle_id (candlesticks d))) owner
     (midnight the_date) o h l c pc trades shares turnover).

(** The store never raises.  Which rows it creates depends on the
    database alone; the counters go up by what was created, the errors are
    left alone, and a candlestick that was already there is reported by one
    warning.  Afterwards the stock and its candlestick of the date are in
    the database, nothing that was there has changed, and when they were
    there before, the database is the same. *)
Lemma store_run (d : Database) :
  exists cs cc d',
    (forall p,
        store (mkWorld p d)
        = (Return tt,
           mkWorld
             (mkCSVProcessor (bump cs (processed_stocks p))
                (bump cc (processed_candlesticks p)) (errors p)
                (if cc then warnings p
                 else warnings p ++ [duplicate_warning symbol the_date]))
             d'))
    /\ seen d' symbol exchange the_date
    /\ (forall s e dt, seen d s e dt -> seen d' s e dt)
    /\ (seen d symbol exchange the_date -> cs = false /\ cc = false /\ d' = d)
    /\ (stocks d' = stocks d \/ stocks d' = stocks d ++ [new_stock d])
    /\ (candlesticks d' = candlesticks d
        \/ exists owner, candlesticks d' = candlesticks d ++ [new_candle d owner])
    /\ csv_files d' = csv_files d.
Proof.
  destruct d as [ss ks fs].
  destruct (find_stock (mkDatabase ss ks fs) symbol exchange) as [s|] eqn:Fs.
  - destruct (find_candlestick (mkDatabase ss ks fs) (stock_id s) (midnight the_date))
      as [k|] eqn:Fk.
    + exists false, false, (mkDatabase ss ks fs). refine (conj _ (conj _ (conj _ (conj _ (conj _ (conj _ _)))))).
      * intros p. unfold _process_row_store, bind, Stock_get_or_create,
          Candlestick_get_or_create. cbn [db self]. rewrite Fs. cbn [snd fst ret].
        cbn [db self]. rewrite Fk. reflexivity.
      * now exists s, k.
      * trivial.
      * auto.
      * now left.
      * now left.
      * reflexivity.
    + exists false, true, (mkDatabase ss (ks ++ [new_candle (mkDatabase ss ks fs) (stock_id s)]) fs).
      refine (conj _ (conj _ (conj _ (conj _ (conj _ (conj _ _)))))).
      * intros p. unfold _process_row_store, bind, Stock_get_or_create,
          Candlestick_get_or_create. cbn [db self]. rewrite Fs. cbn [snd fst ret].
        cbn [db self]. rewrite Fk. reflexivity.
      * exists s. eexists. split; [exact Fs|].
        unfold find_candlestick in *. cbn [candlesticks] in *.
        rewrite (find_app_none _ _ _ Fk). cbn [find stock candle_date].
        now rewrite Nat.eqb_refl, datetime_eqb_refl.
      * intros s0 e0 dt (s1 & k1 & H1 & H2). exists s1, k1. split; [exact H1|].
        unfold find_candlestick in *. cbn [candlesticks] in *.
        now apply find_app_some.
      * intros (s1 & k1 & H1 & H2). rewrite Fs in H1. injection H1 as <-. congruence.
      * now left.
      * right. now exists (stock_id s).
      * reflexivity.
  - set (s := mkStock (next_id (map stock_id ss)) symbol name exchange group).
    destruct (find_candlestick (mkDatabase (ss ++ [s]) ks fs) (stock_id s)
                (midnight the_date)) as [k|] eqn:Fk.
    + exists true, false, (mkDatabase (ss ++ [s]) ks fs). refine (conj _ (conj _ (conj _ (conj _ (conj _ (conj _ _)))))).
      * intros p. unfold _process_row_store, bind, Stock_get_or_create,
          Candlestick_get_or_create. cbn [db self]. rewrite Fs. cbn [snd fst].
        unfold incr_processed_stocks, modify_self.
        cbn [db self stocks candlesticks csv_files fst snd].
        fold s. rewrite Fk. reflexivity.
      * exists s, k. split; [|exact Fk].
        unfold find_stock in *. cbn [stocks] in *.
        rewrite (find_app_none _ _ _ Fs). cbn [find]. unfold s at 1 2.
        cbn [stock_symbol stock_exchange]. now rewrite !String.eqb_refl.
      * intros s0 e0 dt (s1 & k1 & H1 & H2). exists s1, k1. split; [|exact H2].
        unfold find_stock in *. cbn [stocks] in *. now apply find_app_some.
      * intros (s1 & k1 & H1 & H2). congruence.
      * right. reflexivity.
      * now left.
      * reflexivity.
    + exists true, true,
        (mkDatabase (ss ++ [s])
           (ks ++ [new_candle (mkDatabase ss ks fs) (stock_id s)]) fs).
      refine (conj _ (conj _ (conj _ (conj _ (conj _ (conj _ _)))))).
      * intros p. unfold _process_row_store, bind, Stock_get_or_create,
          Candlestick_get_or_create. cbn [db self]. rewrite Fs. cbn [snd fst].
        unfold incr_processed_stocks, modify_self.
        cbn [db self stocks candlesticks csv_files fst snd].
        fold s. rewrite Fk. reflexivity.
      * exists s. eexists. split.
        -- unfold find_stock in *. cbn [stocks] in *.
           rewrite (find_app_none _ _ _ Fs). cbn [find]. unfold s at 1 2.
           cbn [stock_symbol stock_exchange]. now rewrite !String.eqb_refl.
        -- unfold find_candlestick in *. cbn [candlesticks] in *.
           rewrite (find_app_none _ _ _ Fk). cbn [find stock candle_date].
           now rewrite Nat.eqb_refl, datetime_eqb_refl.
      * intros s0 e0 dt (s1 & k1 & H1 & H2). exists s1, k1. split.
        -- unfold find_stock in *. cbn [stocks] in *. now apply find_app_some.
        -- unfold find_candlestick in *. cbn [candlesticks] in *.
           now apply find_app_some.
      * intros (s1 & k1 & H1 & H2). congruence.
      * right. reflexivity.
      * right. now exists (stock_id s).
      * reflexivity.
Qed.

End StoreFacts.
(** ** One row, then the loop over the rows *)

Section RowRun.

Variables (exchange : string) (csv_columns : Mapping).

Local Abbreviation symbol_of row := (cell_text row csv_columns "stock_symbol").
Local Abbreviation raises row := (row_raises row exchange csv_columns).
Local Abbreviation live := (fun row => negb (row_raises row exchange csv_columns)).
Local Abbreviation not_duplicate := (fun x => is_duplicate_warning x = false).

(** A row either raises, whatever the state, with the same exception and
    warnings; or it is stored, and then what is created depends on the
    database alone. *)
Lemma row_run (row : Row) :
  (raises row = true
   /\ exists e ws,
        Forall not_duplicate ws
        /\ forall candle_date w,
             _process_row row candle_date exchange csv_columns w
             = (Raise e, add_warnings ws w))
  \/ (raises row = false
      /\ exists ws,
           Forall not_duplicate ws
           /\ forall candle_date d,
                exists cs cc d',
                  (forall p,
                      _process_row row candle_date exchange csv_columns (mkWorld p d)
                      = (Return tt,
                         mkWorld
                           (mkCSVProcessor (bump cs (processed_stocks p))
                              (bump cc (processed_candlesticks p)) (errors p)
                              (if cc then warnings p ++ ws
                               else (warnings p ++ ws)
                                    ++ [duplicate_warning (symbol_of row) candle_date]))
                           d'))
                  /\ seen d' (symbol_of row) exchange candle_date
                  /\ (forall s e dt, seen d s e dt -> seen d' s e dt)
                  /\ (seen d (symbol_of row) exchange candle_date ->
                      cs = false /\ cc = false /\ d' = d)).
Proof.
  destruct (process_row_cases row exchange csv_columns)
    as [ws [[(e & Hbad & Hrun) | (Hok & Hfin & o & h & l & c & pc & _ & _ & _ & _ & _ & Hrun)] Hnd]].
  - left. split.
    + unfold row_raises. destruct Hbad as [H | H]; rewrite H;
        [reflexivity | now rewrite andb_false_r].
    + now exists e, ws.
  - right. split; [unfold row_raises; now rewrite Hok, Hfin|].
    exists ws. split; [exact Hnd|].
    intros candle_date d.
    destruct (store_run (symbol_of row) exchange
                (if String.eqb exchange "NSE" then symbol_of row
                 else cell_text row csv_columns "stock_name")
                (cell_text row csv_columns "stock_group") candle_date o h l c pc
                (integer_value (cell_text row csv_columns "number_of_trades"))
                (integer_value (cell_text row csv_columns "number_of_shares"))
                (decimal_value (cell_text row csv_columns "net_turnover")) d)
      as (cs & cc & d' & Hs & Hseen & Hmono & Hsame & _).
    exists cs, cc, d'. split; [|auto].
    intros p. rewrite Hrun. unfold add_warnings. cbn [self db].
    rewrite Hs. reflexivity.
Qed.

(** The world after [self.errors.append(line)]. *)
Lemma row_loop_cons_raise (row : Row) (rest : list Row) (n : nat) (candle_date : Date)
  (w w' : World) (e : PyExn) :
  _process_row row candle_date exchange csv_columns w = (Raise e, w') ->
  row_loop (row :: rest) n candle_date exchange csv_columns w
  = row_loop rest (n + 1) candle_date exchange csv_columns
      (mkWorld
         (mkCSVProcessor (processed_stocks (self w')) (processed_candlesticks (self w'))
            (errors (self w') ++ [row_error_line (n + 1) (exn_str e)])
            (warnings (self w')))
         (db w')).
Proof.
  intros H. cbn [row_loop]. unfold bind at 1. unfold try_except. rewrite H.
  reflexivity.
Qed.

Lemma row_loop_cons_return (row : Row) (rest : list Row) (n : nat) (candle_date : Date)
  (w w' : World) :
  _process_row row candle_date exchange csv_columns w = (Return tt, w') ->
  row_loop (row :: rest) n candle_date exchange csv_columns w
  = row_loop rest (n + 1) candle_date exchange csv_columns w'.
Proof.
  intros H. cbn [row_loop]. unfold bind at 1. unfold try_except. rewrite H.
  reflexivity.
Qed.

Lemma count_if_cons {A : Type} (p : A -> bool) (x : A) (l : list A) :
  count_if p (x :: l) = (if p x then 1 else 0) + count_if p l.
Proof. unfold count_if. cbn. now destruct (p x). Qed.

Lemma count_if_app {A : Type} (p : A -> bool) (l l' : list A) :
  count_if p (l ++ l') = count_if p l + count_if p l'.
Proof. unfold count_if. now rewrite filter_app, length_app. Qed.

Lemma count_if_none {A : Type} (p : A -> bool) (l : list A) :
  Forall (fun x => p x = false) l -> count_if p l = 0.
Proof.
  induction 1 as [|x l Hx _ IH]; [reflexivity|].
  rewrite count_if_cons, Hx, IH. reflexivity.
Qed.

Lemma bump_plus (b : bool) (n : nat) : bump b n = n + (if b then 1 else 0).
Proof. destruct b; cbn; lia. Qed.

(** The loop over the rows of a file.  The error lines are the same from
    every state; the rows created depend on the database alone; the
    counters count created rows and so rise by at most the number of rows
    that are stored; the rows that raise leave no trace but their error
    line and their warnings, so that the loop over the other rows alone
    ends with the same counters and the same database; and afterwards every
    row that was stored is in the database. *)
Lemma row_loop_run (rows : list Row) :
  forall n,
  exists messages,
    List.length messages = count_if (fun r => raises r) rows
    /\ forall candle_date d,
       exists d' ds dc,
         ds <= count_if live rows
         /\ dc <= count_if live rows
         /\ (forall p,
               exists ws,
                 row_loop rows n candle_date exchange csv_columns (mkWorld p d)
                 = (Return tt,
                    mkWorld
                      (mkCSVProcessor (processed_stocks p + ds)
                         (processed_candlesticks p + dc)
                         (errors p
                          ++ row_error_lines
                               (row_numbers_where (fun r => raises r) rows n) messages)
                         (warnings p ++ ws))
                      d'))
         /\ (forall row, In row rows -> raises row = false ->
                         seen d' (symbol_of row) exchange candle_date)
         /\ (forall s e dt, seen d s e dt -> seen d' s e dt)
         /\ (forall n' p,
               exists ws,
                 row_loop (filter live rows) n' candle_date exchange csv_columns
                   (mkWorld p d)
                 = (Return tt,
                    mkWorld
                      (mkCSVProcessor (processed_stocks p + ds)
                         (processed_candlesticks p + dc) (errors p)
                         (warnings p ++ ws))
                      d')).
Proof.
  induction rows as [|row rest IH]; intros n.
  - exists []. split; [reflexivity|]. intros candle_date d.
    exists d, 0, 0. split; [cbn; lia|]. split; [cbn; lia|].
    split; [|split; [|split]].
    + intros p. exists []. cbn [row_loop ret row_numbers_where row_error_lines combine map].
      destruct p as [ps pc es ws]. cbn. now rewrite !Nat.add_0_r, !app_nil_r.
    + intros row [].
    + trivial.
    + intros n' p. exists []. cbn [filter row_loop ret].
      destruct p as [ps pc es ws]. cbn. now rewrite !Nat.add_0_r, !app_nil_r.
  - destruct (IH (n + 1)) as (messages & Hlen & Hrest).
    destruct (row_run row) as [(Hr & e & ws0 & Hnd & Hrun) | (Hr & ws0 & Hnd & Hrun)].
    + (* the row raises *)
      exists (exn_str e :: messages). split.
      { rewrite count_if_cons, Hr. cbn [List.length]. lia. }
      intros candle_date d.
      destruct (Hrest candle_date d) as (d' & ds & dc & Hds & Hdc & Hall & Hseen & Hmono & Hfil).
      exists d', ds, dc.
      split; [rewrite count_if_cons, Hr; exact Hds|].
      split; [rewrite count_if_cons, Hr; exact Hdc|].
      split; [|split; [|split]].
      * intros p.
        destruct (Hall (mkCSVProcessor (processed_stocks p) (processed_candlesticks p)
                          (errors p ++ [row_error_line (n + 1) (exn_str e)])
                          (warnings p ++ ws0))) as (ws1 & Hrun1).
        exists (ws0 ++ ws1).
        rewrite (row_loop_cons_raise _ _ _ _ _ _ _ (Hrun candle_date (mkWorld p d))).
        unfold add_warnings. cbn [self db processed_stocks processed_candlesticks
                                   errors warnings].
        rewrite Hrun1. cbn [processed_stocks processed_candlesticks errors warnings].
        cbn [row_numbers_where]. rewrite Hr. cbn [app row_error_lines combine map fst snd].
        now rewrite <- !app_assoc.
      * intros r [<- | Hin] Hlive; [congruence | now apply Hseen].
      * exact Hmono.
      * intros n' p. cbn [filter]. rewrite Hr. cbn [negb]. apply Hfil.
    + (* the row is stored *)
      exists messages. split.
      { rewrite count_if_cons, Hr. exact Hlen. }
      intros candle_date d.
      destruct (Hrun candle_date d) as (cs & cc & d1 & Hrow & Hseen1 & Hmono1 & _).
      destruct (Hrest candle_date d1) as (d' & ds & dc & Hds & Hdc & Hall & Hseen & Hmono & Hfil).
      exists d', ((if cs then 1 else 0) + ds), ((if cc then 1 else 0) + dc).
      split; [rewrite count_if_cons, Hr; cbn [negb]; destruct cs; lia|].
      split; [rewrite count_if_cons, Hr; cbn [negb]; destruct cc; lia|].
      split; [|split; [|split]].
      * intros p.
        set (ws_row := if cc then ws0
                       else ws0 ++ [duplicate_warning (symbol_of row) candle_date]).
        destruct (Hall (mkCSVProcessor (bump cs (processed_stocks p))
                          (bump cc (processed_candlesticks p)) (errors p)
                          (warnings p ++ ws_row))) as (ws1 & Hrun1).
        exists (ws_row ++ ws1).
        rewrite (row_loop_cons_return _ _ _ _ _ _ (Hrow p)).
        replace (if cc then warnings p ++ ws0
                 else (warnings p ++ ws0)
                      ++ [duplicate_warning (symbol_of row) candle_date])
          with (warnings p ++ ws_row)
          by (unfold ws_row; destruct cc; [reflexivity | now rewrite app_assoc]).
        rewrite Hrun1. cbn [processed_stocks processed_candlesticks errors warnings].
        cbn [row_numbers_where]. rewrite Hr. cbn [app].
        rewrite !bump_plus, <- !Nat.add_assoc, <- !app_assoc. reflexivity.
      * intros r [<- | Hin] Hlive; [now apply Hmono | now apply Hseen].
      * intros s e dt H. now apply Hmono, Hmono1.
      * intros n' p. cbn [filter]. rewrite Hr. cbn [negb].
        set (ws_row := if cc then ws0
                       else ws0 ++ [duplicate_warning (symbol_of row) candle_date]).
        destruct (Hfil (n' + 1)
                    (mkCSVProcessor (bump cs (processed_stocks p))
                       (bump cc (processed_candlesticks p)) (errors p)
                       (warnings p ++ ws_row))) as (ws1 & Hrun1).
        exists (ws_row ++ ws1).
        rewrite (row_loop_cons_return _ _ _ _ _ _ (Hrow p)).
        replace (if cc then warnings p ++ ws0
                 else (warnings p ++ ws0)
                      ++ [duplicate_warning (symbol_of row) candle_date])
          with (warnings p ++ ws_row)
          by (unfold ws_row; destruct cc; [reflexivity | now rewrite app_assoc]).
        rewrite Hrun1. cbn [processed_stocks processed_candlesticks errors warnings].
        rewrite !bump_plus, <- !Nat.add_assoc, <- !app_assoc. reflexivity.
Qed.

End RowRun.
(** ** The second run over the same rows *)

Section SecondRun.

Variables (exchange : string) (csv_columns : Mapping).

Local Abbreviation symbol_of row := (cell_text row csv_columns "stock_symbol").
Local Abbreviation raises row := (row_raises row exchange csv_columns).
Local Abbreviation live := (fun row => negb (row_raises row exchange csv_columns)).

Lemma prefix_append (p x : string) : prefix p (p +++ x) = true.
Proof.
  induction p as [|a p IH]; [now destruct x|].
  cbn. destruct (ascii_dec a a) as [_|N]; [exact IH | now contradiction N].
Qed.

Lemma duplicate_warning_is_duplicate (symbol : string) (d : Date) :
  is_duplicate_warning (duplicate_warning symbol d) = true.
Proof. apply prefix_append. Qed.

(** When every row that is stored is already in the database, the loop
    creates nothing: the database and the counters are left as they were,
    and each of these rows adds one duplicate warning. *)
Lemma row_loop_again (rows : list Row) :
  forall n candle_date d,
    (forall row, In row rows -> raises row = false ->
                 seen d (symbol_of row) exchange candle_date) ->
    forall p,
    exists es ws,
      row_loop rows n candle_date exchange csv_columns (mkWorld p d)
      = (Return tt,
         mkWorld
           (mkCSVProcessor (processed_stocks p) (processed_candlesticks p)
              (errors p ++ es) (warnings p ++ ws))
           d)
      /\ count_if is_duplicate_warning ws = count_if live rows.
Proof.
  induction rows as [|row rest IH]; intros n candle_date d Hseen p.
  - exists [], []. split; [|reflexivity].
    destruct p as [ps pc es ws]. cbn. now rewrite !app_nil_r.
  - assert (Hrest : forall r, In r rest -> raises r = false ->
                              seen d (symbol_of r) exchange candle_date)
      by (intros r Hin; apply Hseen; now right).
    destruct (row_run exchange csv_columns row)
      as [(Hr & e & ws0 & Hnd & Hrun) | (Hr & ws0 & Hnd & Hrun)].
    + destruct (IH (n + 1) candle_date d Hrest
                  (mkCSVProcessor (processed_stocks p) (processed_candlesticks p)
                     (errors p ++ [row_error_line (n + 1) (exn_str e)])
                     (warnings p ++ ws0))) as (es & ws1 & Hrun1 & Hcount).
      exists (row_error_line (n + 1) (exn_str e) :: es), (ws0 ++ ws1). split.
      * rewrite (row_loop_cons_raise _ _ _ _ _ _ _ _ _ (Hrun candle_date (mkWorld p d))).
        unfold add_warnings. cbn [self db processed_stocks processed_candlesticks
                                   errors warnings].
        rewrite Hrun1. cbn [processed_stocks processed_candlesticks errors warnings].
        now rewrite <- !app_assoc.
      * rewrite (count_if_cons _ row rest), Hr. cbn [negb].
        now rewrite count_if_app, (count_if_none _ _ Hnd), Hcount.
    + destruct (Hrun candle_date d) as (cs & cc & d1 & Hrow & _ & _ & Hsame).
      destruct (Hsame (Hseen row (or_introl eq_refl) Hr)) as (-> & -> & ->).
      destruct (IH (n + 1) candle_date d Hrest
                  (mkCSVProcessor (processed_stocks p) (processed_candlesticks p)
                     (errors p)
                     ((warnings p ++ ws0)
                      ++ [duplicate_warning (symbol_of row) candle_date])))
        as (es & ws1 & Hrun1 & Hcount).
      exists es, ((ws0 ++ [duplicate_warning (symbol_of row) candle_date]) ++ ws1).
      split.
      * rewrite (row_loop_cons_return _ _ _ _ _ _ _ _ (Hrow p)).
        cbn [bump]. rewrite Hrun1.
        cbn [processed_stocks processed_candlesticks errors warnings].
        now rewrite <- !app_assoc.
      * rewrite (count_if_cons _ row rest), Hr. cbn [negb].
        rewrite !count_if_app, (count_if_none _ _ Hnd), Hcount.
        rewrite count_if_cons, duplicate_warning_is_duplicate.
        reflexivity.
Qed.

End SecondRun.

(** ** A whole file *)

Section FileFacts.










(** With a file name that parses, a mapping for its exchange and no
    header missing, the result of [process_csv_file] is that of the loop
    over the rows, started on a fresh processor state. *)
Lemma process_csv_file_rows (reg : Registry) (filename : string)
  (content : list (list string)) (w : World)
  (candle_date : Date) (exchange : string) (csv_columns : Mapping) :
  parse_filename reg filename = Return (candle_date, exchange) ->
  dict_get (EXCHANGE_MAPPINGS reg) exchange = Some csv_columns ->
  csv_columns <> [] ->
  missing_headers csv_columns (reader_fieldnames content) = [] ->
  forall w',
    row_loop (reader_rows content) 1 candle_date exchange csv_columns
      (mkWorld CSVProcessor_init (db w)) = (Return tt, w') ->
    process_csv_file reg filename content w
    = (FileSuccess (processed_stocks (self w')) (processed_candlesticks (self w'))
         (errors (self w')) (warnings (self w')) candle_date exchange, w').
Proof.
  intros Hp Hm Hne Hh w' Hloop.
  unfold process_csv_file, process_csv_file_body.
  erewrite bind_lift_Return by exact Hp. cbv beta iota. rewrite Hm.
  destruct csv_columns as [|c cs]; [contradiction|].
  rewrite Hh. unfold bind, transaction_atomic. rewrite Hloop. reflexivity.
Qed.

End FileFacts.
Section ValidRows.


End ValidRows.



Section SuccessFacts.

(** A file is a success only when its name parses, its exchange has a
    mapping and no header is missing. *)
Lemma process_csv_file_success_inv (reg : Registry) (filename : string)
  (content : list (list string)) (w : World) :
  result_success (fst (process_csv_file reg filename content w)) = true ->
  exists candle_date exchange csv_columns,
    parse_filename reg filename = Return (candle_date, exchange)
    /\ dict_get (EXCHANGE_MAPPINGS reg) exchange = Some csv_columns
    /\ csv_columns <> []
    /\ missing_headers csv_columns (reader_fieldnames content) = [].
Proof.
  unfold process_csv_file, process_csv_file_body.
  destruct (parse_filename reg filename) as [[candle_date exchange]|e] eqn:Hp.
  - erewrite bind_lift_Return by reflexivity. cbv beta iota.
    destruct (dict_get (EXCHANGE_MAPPINGS reg) exchange) as [[|c cs]|] eqn:Hm;
      try (intros H; cbn in H; discriminate H).
    destruct (missing_headers (c :: cs) (reader_fieldnames content)) eqn:Hh;
      [|intros H; cbn in H; discriminate H].
    intros _. exists candle_date, exchange, (c :: cs).
    split; [reflexivity|]. split; [exact Hm|]. split; [discriminate | exact Hh].
  - erewrite bind_lift_Raise by reflexivity. intros H. cbn in H. discriminate H.
Qed.

End SuccessFacts.



Section HeaderFacts.

(** A missing header fails the file before any row is read. *)
Lemma process_csv_file_missing_headers (reg : Registry) (filename : string)
  (content : list (list string)) (w : World)
  (candle_date : Date) (exchange : string) (csv_columns : Mapping) :
  parse_filename reg filename = Return (candle_date, exchange) ->
  dict_get (EXCHANGE_MAPPINGS reg) exchange = Some csv_columns ->
  (exists column, In column (dict_keys csv_columns)
                  /\ ~ In column (header_names content)) ->
  exists missing,
    NoDup missing
    /\ (forall column,
           In column missing
           <-> In column (dict_keys csv_columns) /\ ~ In column (header_names content))
    /\ process_csv_file reg filename content w
       = (FileFailure
            ("Missing required columns for " +++ exchange +++ " exchange: "
             +++ PyStr.join ", " missing)
            0 0 [] [],
          mkWorld CSVProcessor_init (db w)).
Proof.
  intros Hp Hm (column & Hin & Hout).
  set (missing := missing_headers csv_columns (reader_fieldnames content)).
  assert (Hchar : forall x,
             In x missing
             <-> In x (dict_keys csv_columns) /\ ~ In x (header_names content)).
  { intros x. unfold missing, missing_headers, header_names.
    rewrite filter_In, nodup_In, negb_true_iff.
    split; intros [H1 H2]; (split; [exact H1|]).
    - intros H. apply in_list_In in H. congruence.
    - destruct (PyStr.in_list x _) eqn:E; [|reflexivity].
      apply in_list_In in E. contradiction. }
  exists missing. split; [|split; [exact Hchar|]].
  - unfold missing, missing_headers. apply NoDup_filter, NoDup_nodup.
  - assert (Hmiss : In column missing) by now apply Hchar.
    unfold process_csv_file, process_csv_file_body.
    erewrite bind_lift_Return by exact Hp. cbv beta iota. rewrite Hm.
    destruct csv_columns as [|c cs]; [contradiction Hin|].
    fold missing. destruct missing as [|m ms]; [contradiction Hmiss|].
    reflexivity.
Qed.

End HeaderFacts.

(** C4.  Header validation aborts the whole file.  When the name of the
    file parses and some column of the mapping of its exchange is not
    among the header names, [process_csv_file] fails with the message that
    lists the missing columns, each once; both counters are zero, no row
    error and no warning is recorded, and the database is the one it was
    given: no stock and no candlestick is created. *)
Theorem missing_headers_abort (reg : Registry) (filename : string)
  (content : list (list string)) (w : World)
  (candle_date : Date) (exchange : string) (csv_columns : Mapping) :
  parse_filename reg filename = Return (candle_date, exchange) ->
  dict_get (EXCHANGE_MAPPINGS reg) exchange = Some csv_columns ->
  (exists column, In column (dict_keys csv_columns)
                  /\ ~ In column (header_names content)) ->
  exists missing,
    NoDup missing
    /\ (forall column,
           In column missing
           <-> In column (dict_keys csv_columns) /\ ~ In column (header_names content))
    /\ process_csv_file reg filename content w
       = (FileFailure
            ("Missing required columns for " +++ exchange +++ " exchange: "
             +++ PyStr.join ", " missing)
            0 0 [] [],
          mkWorld CSVProcessor_init (db w)).
Proof. exact (process_csv_file_missing_headers reg filename content w candle_date exchange csv_columns). Qed.

Lemma missing_headers_abort_witness :
  (parse_filename default_registry "20250102_NSE.csv"
   = Return (mkDate 2025 1 2, "NSE")
   /\ dict_get (EXCHANGE_MAPPINGS default_registry) "NSE" = Some NSE_MAPPING
   /\ exists column, In column (dict_keys NSE_MAPPING)
                     /\ ~ In column (header_names wrong_header_file))
  /\ exists missing,
       process_csv_file default_registry "20250102_NSE.csv" wrong_header_file
         fresh_world
       = (FileFailure
            ("Missing required columns for NSE exchange: " +++ PyStr.join ", " missing)
            0 0 [] [],
          fresh_world).
Proof.
  assert (Hp : parse_filename default_registry "20250102_NSE.csv"
               = Return (mkDate 2025 1 2, "NSE")) by reflexivity.
  assert (Hm : dict_get (EXCHANGE_MAPPINGS default_registry) "NSE" = Some NSE_MAPPING)
    by reflexivity.
  assert (Hx : exists column, In column (dict_keys NSE_MAPPING)
                              /\ ~ In column (header_names wrong_header_file)).
  { exists "CLOSE". split; [cbn; tauto|].
    cbn. intros [H|[H|[H|[H|[H|[]]]]]]; discriminate H. }
  split; [repeat split; assumption|].
  destruct (missing_headers_abort default_registry "20250102_NSE.csv"
              wrong_header_file fresh_world _ _ _ Hp Hm Hx) as (missing & _ & _ & E).
  exists missing. exact E.
Defined.
(** ** What is stored for a row *)

Section StoredFacts.

Lemma cell_text_raw (row : Row) (csv_columns : Mapping) (db_field column : string) :
  mapped_column csv_columns db_field = Some column ->
  PyStr.truthy column = true ->
  cell_text row csv_columns db_field = PyStr.strip (raw_cell row column).
Proof.
  intros Hc Ht. unfold cell_text, get_mapped_value, raw_cell.
  rewrite Hc, Ht. now destruct (dict_get row column) as [[v|]|].
Qed.

(** A row that [_process_row] accepts is stored with the text of its
    cells and the prices as they were parsed: a stock that was not in the
    table before has the symbol, the name and the group read from the row,
    and a candlestick that was not there has the five parsed prices. *)
Lemma process_row_stored (row : Row) (on_date : Date) (exchange : string)
  (csv_columns : Mapping) (w w' : World) :
  _process_row row on_date exchange csv_columns w = (Return tt, w') ->
  row_ok row exchange csv_columns = true
  /\ (forall s, In s (stocks (db w')) -> ~ In s (stocks (db w)) ->
                stock_symbol s = cell_text row csv_columns "stock_symbol"
                /\ stock_exchange s = exchange
                /\ stock_name s
                   = (if String.eqb exchange "NSE"
                      then cell_text row csv_columns "stock_symbol"
                      else cell_text row csv_columns "stock_name")
                /\ stock_group s = cell_text row csv_columns "stock_group")
  /\ (forall k, In k (candlesticks (db w')) -> ~ In k (candlesticks (db w)) ->
                candle_date k = midnight on_date
                /\ decimal_value (cell_text row csv_columns "open_price")
                   = Some (open_price k)
                /\ decimal_value (cell_text row csv_columns "high_price")
                   = Some (high_price k)
                /\ decimal_value (cell_text row csv_columns "low_price")
                   = Some (low_price k)
                /\ decimal_value (cell_text row csv_columns "close_price")
                   = Some (close_price k)
                /\ decimal_value (cell_text row csv_columns "prev_close_price")
                   = Some (prev_close_price k)).
Proof.
  intros Hrun.
  destruct (process_row_cases row exchange csv_columns)
    as [ws [[(e & _ & Hbad) | (Hok & _ & o & h & l & c & pc & Ho & Hh & Hl & Hc & Hpc & Hgood)] _]].
  { rewrite Hbad in Hrun. discriminate Hrun. }
  split; [exact Hok|].
  rewrite Hgood in Hrun.
  destruct (store_run (cell_text row csv_columns "stock_symbol") exchange
              (if String.eqb exchange "NSE" then cell_text row csv_columns "stock_symbol"
               else cell_text row csv_columns "stock_name")
              (cell_text row csv_columns "stock_group") on_date o h l c pc
              (integer_value (cell_text row csv_columns "number_of_trades"))
              (integer_value (cell_text row csv_columns "number_of_shares"))
              (decimal_value (cell_text row csv_columns "net_turnover")) (db w))
    as (cs & cc & d' & Hs & _ & _ & _ & Hst & Hks & _).
  unfold add_warnings in Hrun. rewrite Hs in Hrun.
  injection Hrun as <-. cbn [db].
  split.
  - intros s Hin Hnot. destruct Hst as [E | E]; rewrite E in Hin.
    + contradiction.
    + apply in_app_or in Hin as [Hin | [<- | []]]; [contradiction|].
      cbn. auto.
  - intros k Hin Hnot. destruct Hks as [E | [owner E]]; rewrite E in Hin.
    + contradiction.
    + apply in_app_or in Hin as [Hin | [<- | []]]; [contradiction|].
      cbn. auto 10.
Qed.

End StoredFacts.

(** C6 (amended).  Name derivation.  A stock created for a row ingested
    under exchange NSE has as its name the text of the SYMBOL cell with
    the white space around it stripped, which is also its symbol, and as
    its group the stripped text of the SERIES cell; under any other
    exchange the name is the stripped text of the cell in the column that
    the mapping of the exchange sends to [stock_name], which for BSE is
    SC_NAME. *)
Theorem name_derivation :
  (forall (row : Row) (candle_date : Date) (w w' : World) (s : Stock),
      _process_row row candle_date "NSE" NSE_MAPPING w = (Return tt, w') ->
      In s (stocks (db w')) -> ~ In s (stocks (db w)) ->
      stock_name s = PyStr.strip (raw_cell row "SYMBOL")
      /\ stock_symbol s = PyStr.strip (raw_cell row "SYMBOL")
      /\ stock_group s = PyStr.strip (raw_cell row "SERIES")
      /\ stock_exchange s = "NSE")
  /\ (forall (exchange : string) (csv_columns : Mapping) (column : string)
             (row : Row) (candle_date : Date) (w w' : World) (s : Stock),
         String.eqb exchange "NSE" = false ->
         mapped_column csv_columns "stock_name" = Some column ->
         PyStr.truthy column = true ->
         _process_row row candle_date exchange csv_columns w = (Return tt, w') ->
         In s (stocks (db w')) -> ~ In s (stocks (db w)) ->
         stock_name s = PyStr.strip (raw_cell row column))
  /\ mapped_column BSE_MAPPING "stock_name" = Some "SC_NAME".
Proof.
  split; [|split; [|reflexivity]].
  - intros row candle_date w w' s Hrun Hin Hnot.
    destruct (process_row_stored _ _ _ _ _ _ Hrun) as (_ & Hst & _).
    destruct (Hst s Hin Hnot) as (Hsym & Hex & Hname & Hgrp).
    cbn [String.eqb Ascii.eqb Bool.eqb] in Hname.
    rewrite (cell_text_raw row NSE_MAPPING "stock_symbol" "SYMBOL") in Hsym, Hname
      by reflexivity.
    rewrite (cell_text_raw row NSE_MAPPING "stock_group" "SERIES") in Hgrp
      by reflexivity.
    auto.
  - intros exchange csv_columns column row candle_date w w' s Hex Hc Ht Hrun Hin Hnot.
    destruct (process_row_stored _ _ _ _ _ _ Hrun) as (_ & Hst & _).
    destruct (Hst s Hin Hnot) as (_ & _ & Hname & _).
    rewrite Hex in Hname. now rewrite (cell_text_raw _ _ _ _ Hc Ht) in Hname.
Qed.

Lemma name_derivation_witness :
  exists row w' s,
    reader_rows padded_nse_file = [row]
    /\ _process_row row (mkDate 2025 1 1) "NSE" NSE_MAPPING fresh_world = (Return tt, w')
    /\ In s (stocks (db w'))
    /\ ~ In s (stocks (db fresh_world))
    /\ stock_name s = PyStr.strip (raw_cell row "SYMBOL")
    /\ stock_name s = "TCS".
Proof.
  eexists. eexists. eexists.
  assert (Hrows : reader_rows padded_nse_file = [_]) by reflexivity.
  split; [exact Hrows|].
  match type of Hrows with _ = [?r] =>
    assert (Hrun : _process_row r (mkDate 2025 1 1) "NSE" NSE_MAPPING fresh_world
                   = (Return tt, _)) by (vm_compute; reflexivity)
  end.
  split; [exact Hrun|].
  match type of Hrun with _ = (_, ?w') =>
    assert (Hin : In (mkStock 1 "TCS" "TCS" "NSE" "EQ") (stocks (db w')))
      by (vm_compute; left; reflexivity)
  end.
  assert (Hnot : ~ In (mkStock 1 "TCS" "TCS" "NSE" "EQ") (stocks (db fresh_world)))
    by (intros []).
  split; [exact Hin|]. split; [exact Hnot|].
  split; [|reflexivity].
  exact (proj1 (proj1 name_derivation _ _ _ _ _ Hrun Hin Hnot)).
Defined.

(** The derivation in the words of the specification fails on a row whose
    SYMBOL cell is [" TCS"]: the stock created has the name ["TCS"], not
    the raw value of the cell. *)
Lemma name_derivation_counterexample :
  exists row s,
    reader_rows padded_nse_file = [row]
    /\ stocks (db (snd (process_csv_file default_registry "20250101_NSE.csv"
                          padded_nse_file fresh_world))) = [s]
    /\ raw_cell row "SYMBOL" = " TCS"
    /\ stock_name s = "TCS"
    /\ ~ nse_name_as_claimed row s.
Proof.
  eexists. eexists.
  split; [reflexivity|]. split; [vm_compute; reflexivity|].
  split; [reflexivity|]. split; [reflexivity|].
  intros [H _]. vm_compute in H. discriminate H.
Qed.
(** ** The validators *)

Section ValidatorFacts.

Lemma decimal_warnings_at_most_one (value field_name : string) :
  List.length (decimal_warnings value field_name) <= 1.
Proof.
  unfold decimal_warnings. destruct (is_blank value); [cbn; lia|].
  destruct (PyNum.parse_decimal (PyStr.strip value)); cbn; lia.
Qed.

(** [validate_decimal] is total: a blank cell gives [None] and no warning,
    a cell that parses gives its decimal and no warning, any other cell
    gives [None] and one warning. *)
Lemma validate_decimal_total (value field_name : string) (w : World) :
  (is_blank value = true ->
   validate_decimal value field_name w = (Return None, w))
  /\ (forall d, is_blank value = false ->
                PyNum.parse_decimal (PyStr.strip value) = Some d ->
                validate_decimal value field_name w = (Return (Some d), w))
  /\ (is_blank value = false ->
      PyNum.parse_decimal (PyStr.strip value) = None ->
      validate_decimal value field_name w
      = (Return None,
         add_warnings ["Invalid decimal value for " +++ field_name +++ ": '"
                       +++ value +++ "' - skipping row"] w)).
Proof.
  rewrite validate_decimal_run. unfold decimal_value, decimal_warnings.
  repeat split.
  - intros ->. now rewrite add_warnings_nil.
  - intros d -> ->. now rewrite add_warnings_nil.
  - now intros -> ->.
Qed.

(** [validate_integer] does as much on every cell whose float is not an
    infinity: blank gives [None], a float gives its truncation, anything
    else [None] and one warning. *)
Lemma validate_integer_finite (value field_name : string) (w : World) :
  integer_overflows value = false ->
  validate_integer value field_name w
  = (Return (integer_value value), add_warnings (integer_warnings value field_name) w)
  /\ List.length (integer_warnings value field_name) <= 1.
Proof.
  intros H. rewrite validate_integer_run, H. split; [reflexivity|].
  unfold integer_warnings. destruct (is_blank value); [cbn; lia|].
  destruct (py_int_float (PyStr.strip value)) as [n|[m|m|m|m|m|m]]; cbn; lia.
Qed.

End ValidatorFacts.

(** C7.  The row validators are not both total.  [validate_integer]
    catches [ValueError] and [TypeError] only, and [int(float("inf"))]
    raises [OverflowError]: on the cells ["inf"], ["-Infinity"] and
    ["1e400"] the call raises instead of returning [None] with a warning,
    and a row with such a trade count is lost as a row error.  The rest of
    the contract holds: ["1500.0"] gives 1500, a blank cell gives [None]
    without a warning, an unparseable cell gives [None] with one
    warning, and [validate_decimal] returns on these cells too. *)
Theorem validate_integer_overflow :
  (forall (field_name : string) (w : World),
      validate_integer "inf" field_name w
      = (Raise (OverflowError "cannot convert float infinity to integer"), w))
  /\ (forall (field_name : string) (w : World),
         validate_integer "-Infinity" field_name w
         = (Raise (OverflowError "cannot convert float infinity to integer"), w))
  /\ (forall (field_name : string) (w : World),
         validate_integer "1e400" field_name w
         = (Raise (OverflowError "cannot convert float infinity to integer"), w))
  /\ fst (process_csv_file default_registry "20250101_BSE.csv" infinite_count_file
            fresh_world)
     = FileSuccess 0 0 ["Row 2: cannot convert float infinity to integer"] []
         (mkDate 2025 1 1) "BSE"
  /\ validate_integer "1500.0" "number_of_trades" fresh_world
     = (Return (Some 1500%Z), fresh_world)
  /\ validate_integer "   " "number_of_trades" fresh_world = (Return None, fresh_world)
  /\ validate_integer "abc" "number_of_trades" fresh_world
     = (Return None,
        add_warnings ["Invalid integer value for number_of_trades: 'abc' - using None"]
          fresh_world)
  /\ validate_decimal "inf" "OPEN" fresh_world
     = (Return (Some (DInfinity false)), fresh_world)
  /\ validate_decimal "abc" "OPEN" fresh_world
     = (Return None,
        add_warnings ["Invalid decimal value for OPEN: 'abc' - skipping row"]
          fresh_world).
Proof.
  repeat split; try reflexivity;
    intros field_name w; rewrite validate_integer_run; reflexivity.
Qed.

(** ** The manual-entry form *)

Section FormFacts.
Import CandlestickForm.

(** The price check of the form refuses a set of prices exactly when all
    four are there, none is zero, and the high is below another price or
    the low above one. *)
Lemma clean_prices_refuses (cd : CleanedData) :
  (exists e, clean_prices cd = Raise e)
  <-> exists o h l c,
        cd_open_price cd = Some o /\ cd_high_price cd = Some h
        /\ cd_low_price cd = Some l /\ cd_close_price cd = Some c
        /\ PyNum.decimal_truthy o = true /\ PyNum.decimal_truthy h = true
        /\ PyNum.decimal_truthy l = true /\ PyNum.decimal_truthy c = true
        /\ price_relation_broken o h l c = true.
Proof.
  unfold clean_prices, price_relation_broken.
  destruct cd as [st dt [o|] [h|] [l|] [c|]]; cbn [cd_open_price cd_high_price
    cd_low_price cd_close_price forallb price_truthy andb].
  2-16: (split; [intros [e H]; try discriminate H;
                 repeat match type of H with
                        | (if ?b then _ else _) = _ => destruct b
                        end; discriminate H
                | intros (o' & h' & l' & c' & H1 & H2 & H3 & H4 & _);
                  discriminate]).
  split.
  - intros [e H]. exists o, h, l, c.
    destruct (PyNum.decimal_truthy o), (PyNum.decimal_truthy h),
      (PyNum.decimal_truthy l), (PyNum.decimal_truthy c);
      cbn [andb] in H; try discriminate H.
    destruct (PyNum.decimal_lt h (PyNum.max3 o l c)); [cbn; auto 10|].
    destruct (PyNum.decimal_lt (PyNum.min3 o h c) l); [cbn; auto 10|].
    discriminate H.
  - intros (o' & h' & l' & c' & H1 & H2 & H3 & H4 & T1 & T2 & T3 & T4 & Hb).
    injection H1 as <-. injection H2 as <-. injection H3 as <-. injection H4 as <-.
    rewrite T1, T2, T3, T4. cbn [andb].
    destruct (PyNum.decimal_lt h (PyNum.max3 o l c)); [eexists; reflexivity|].
    cbn [orb] in Hb. rewrite Hb. eexists; reflexivity.
Qed.

End FormFacts.

(** C8.  The price relations.  The bulk row loop stores a row whose high
    price is below its low price as it is, and the manual-entry form
    refuses such prices when they are 1, 5, 10 and 7; but the form lets the
    same broken relation through when the opening price is zero, because
    its guard [all([open_price, high_price, low_price, close_price])]
    takes a zero price for a missing one. *)
Theorem price_relation_asymmetry :
  (exists k,
      candlesticks
        (db (snd (process_csv_file default_registry "20250101_BSE.csv"
                    inverted_prices_file fresh_world))) = [k]
      /\ price_relation_broken (open_price k) (high_price k) (low_price k)
           (close_price k) = true
      /\ high_price k = DFinite false 500 (-2)
      /\ low_price k = DFinite false 1000 (-2))
  /\ price_relation_broken (DFinite false 1 0) (DFinite false 5 0) (DFinite false 10 0)
       (DFinite false 7 0) = true
  /\ (forall d,
         CandlestickForm.clean None (form_prices 1) d
         = Raise (ValidationError
                    "High price must be greater than or equal to all other prices."))
  /\ price_relation_broken (DFinite false 0 0) (DFinite false 5 0) (DFinite false 10 0)
       (DFinite false 7 0) = true
  /\ (forall d, CandlestickForm.clean None (form_prices 0) d = Return (form_prices 0)).
Proof.
  split; [|repeat split; reflexivity].
  eexists. split; [vm_compute; reflexivity|]. repeat split; reflexivity.
Qed.
(** ** The archive *)

Section BulkFacts.
Import Bulk.

(** [process_csv_file] resets the processor: its result depends on the
    database it is given and on nothing else of the state. *)
Lemma process_csv_file_db_only (reg : Registry) (filename : string)
  (content : list (list string)) (w1 w2 : World) :
  db w1 = db w2 ->
  process_csv_file reg filename content w1 = process_csv_file reg filename content w2.
Proof. intros H. unfold process_csv_file. now rewrite H. Qed.

(** One file of the batch: it never raises, and it is counted either as
    processed, with its counts added to the totals, or as failed, with
    the totals left alone. *)
Lemma single_file_run (reg : Registry) (file : ExtractedFile) (bw : BulkWorld) :
  let r := process_csv_file reg (file_name file) (file_content file) (world bw) in
  exists b' w',
    _process_single_file reg file bw = (Return tt, mkBulkWorld b' w')
    /\ (result_success (fst r) = true ->
        total_files_processed b' = total_files_processed (bulk bw) + 1
        /\ List.length (processed_files b') = List.length (processed_files (bulk bw)) + 1
        /\ failed_files b' = failed_files (bulk bw)
        /\ total_stocks b' = total_stocks (bulk bw) + result_stocks_processed (fst r)
        /\ total_candlesticks b'
           = total_candlesticks (bulk bw) + result_candlesticks_processed (fst r)
        /\ stocks (db w') = stocks (db (snd r))
        /\ candlesticks (db w') = candlesticks (db (snd r)))
    /\ (result_success (fst r) = false ->
        total_files_processed b' = total_files_processed (bulk bw)
        /\ List.length (processed_files b') = List.length (processed_files (bulk bw))
        /\ List.length (failed_files b') = List.length (failed_files (bulk bw)) + 1
        /\ total_stocks b' = total_stocks (bulk bw)
        /\ total_candlesticks b' = total_candlesticks (bulk bw)
        /\ w' = snd r).
Proof.
  intros r. unfold _process_single_file. fold r.
  destruct r as [[sp cp es ws date ex | err sp cp es ws] w'].
  - eexists. eexists. split; [reflexivity|]. split; [|discriminate].
    intros _. cbn. rewrite length_app. cbn. repeat split.
  - eexists. eexists. split; [reflexivity|]. split; [discriminate|].
    intros _. cbn. rewrite length_app. cbn. repeat split.
Qed.

(** No file aborts the batch: after the loop every file has been counted
    once, as processed or as failed. *)
Lemma file_loop_accounts (reg : Registry) (files : list ExtractedFile) :
  forall bw,
    let b := bulk bw in
    let b' := bulk (file_loop reg files bw) in
    total_files_processed b' + List.length (failed_files b')
    = total_files_processed b + List.length (failed_files b) + List.length files
    /\ (List.length (processed_files b) = total_files_processed b ->
        List.length (processed_files b') = total_files_processed b').
Proof.
  induction files as [|file rest IH]; intros bw.
  - cbn. split; [lia | trivial].
  - cbn [file_loop List.length].
    destruct (single_file_run reg file bw) as (b1 & w1 & Hrun & Hok & Hfail).
    rewrite Hrun.
    destruct (IH (mkBulkWorld b1 w1)) as [IH1 IH2]. cbn [bulk] in IH1, IH2.
    destruct (result_success
                (fst (process_csv_file reg (file_name file) (file_content file)
                        (world bw)))).
    + destruct (Hok eq_refl) as (H1 & H2 & H3 & _). rewrite H3 in IH1.
      split; [lia|]. intros H. apply IH2. lia.
    + destruct (Hfail eq_refl) as (H1 & H2 & H3 & _).
      split; [lia|]. intros H. apply IH2. lia.
Qed.

Lemma process_zip_file_success (reg : Registry) (zip_file : ZipUpload) (bw : BulkWorld) :
  success (fst (process_zip_file reg zip_file bw)) = false
  <-> (exists e, zip_extract zip_file = Raise e)
      \/ (exists files,
             zip_extract zip_file = Return files
             /\ filter (fun f => is_csv_file (file_name f)) files = []).
Proof.
  unfold process_zip_file.
  destruct (zip_extract zip_file) as [files|e].
  - destruct (filter (fun f => is_csv_file (file_name f)) files) as [|f fs] eqn:E.
    + split; [intros _; right; now exists files | reflexivity].
    + split; [discriminate|].
      intros [[e H] | (files' & H & H')]; [discriminate|].
      injection H as <-. congruence.
  - split; [intros _; left; now exists e | reflexivity].
Qed.

Lemma process_zip_file_accounts (reg : Registry) (zip_file : ZipUpload) (bw : BulkWorld)
  (files : list ExtractedFile) :
  zip_extract zip_file = Return files ->
  filter (fun f => is_csv_file (file_name f)) files <> [] ->
  let r := fst (process_zip_file reg zip_file bw) in
  success r = true
  /\ r_total_files_processed r + List.length (r_failed_files r)
     = List.length (filter (fun f => is_csv_file (file_name f)) files)
  /\ r_total_files_failed r = Some (List.length (r_failed_files r))
  /\ List.length (r_processed_files r) = r_total_files_processed r.
Proof.
  intros Hz Hne r. unfold r, process_zip_file. rewrite Hz.
  destruct (filter (fun f => is_csv_file (file_name f)) files) as [|f fs] eqn:E;
    [contradiction|].
  cbn [fst summary success r_total_files_processed r_failed_files r_total_files_failed
         r_processed_files bulk world db].
  match goal with |- context [file_loop reg ?l ?b] =>
    destruct (file_loop_accounts reg l b) as [H1 H2]
  end.
  cbn [bulk world db init total_files_processed failed_files processed_files
         List.length] in *.
  split; [reflexivity|]. split; [lia|]. split; [reflexivity | now apply H2].
Qed.

(** An archive with one file that is ingested and one whose headers are
    wrong, in either order. *)
Lemma two_file_archive (reg : Registry) (name : string) (good bad : ExtractedFile)
  (bw : BulkWorld) (candle_date : Date) (exchange : string) (csv_columns : Mapping) :
  is_csv_file (file_name good) = true ->
  is_csv_file (file_name bad) = true ->
  result_success
    (fst (process_csv_file reg (file_name good) (file_content good) (world bw))) = true ->
  parse_filename reg (file_name bad) = Return (candle_date, exchange) ->
  dict_get (EXCHANGE_MAPPINGS reg) exchange = Some csv_columns ->
  (exists column, In column (dict_keys csv_columns)
                  /\ ~ In column (header_names (file_content bad))) ->
  forall files, files = [good; bad] \/ files = [bad; good] ->
  let r := fst (process_zip_file reg (mkZipUpload name (Return files)) bw) in
  let g := fst (process_csv_file reg (file_name good) (file_content good) (world bw)) in
  success r = true
  /\ r_total_files_processed r = 1
  /\ r_total_files_failed r = Some 1
  /\ r_total_stocks r = result_stocks_processed g
  /\ r_total_candlesticks r = result_candlesticks_processed g.
Proof.
  intros Hg Hb Hok Hp Hm Hmiss files Hfiles r g.
  assert (Hbad : forall w,
             result_success
               (fst (process_csv_file reg (file_name bad) (file_content bad) w)) = false
             /\ db (snd (process_csv_file reg (file_name bad) (file_content bad) w))
                = db w).
  { intros w. destruct (process_csv_file_missing_headers reg _ (file_content bad) w
                          _ _ _ Hp Hm Hmiss) as (missing & _ & _ & E).
    rewrite E. split; reflexivity. }
  set (bw1 := mkBulkWorld init (mkWorld CSVProcessor_init (db (world bw)))).
  assert (Er : r = summary true None
                 (bulk (file_loop reg files bw1)) []).
  { unfold r, process_zip_file. cbn [zip_extract zip_name].
    destruct Hfiles as [-> | ->]; cbn [filter]; rewrite Hg, Hb; reflexivity. }
  rewrite Er. cbn [summary success r_total_files_processed r_total_files_failed
                     r_total_stocks r_total_candlesticks].
  destruct Hfiles as [-> | ->]; cbn [file_loop].
  - (* the good file first *)
    destruct (single_file_run reg good bw1) as (b1 & w1 & Hrun1 & Hok1 & _).
    rewrite Hrun1.
    rewrite (process_csv_file_db_only reg _ _ (world bw1) (world bw) eq_refl) in Hok1.
    destruct (Hok1 Hok) as (P1 & _ & F1 & S1 & C1 & _).
    destruct (single_file_run reg bad (mkBulkWorld b1 w1)) as (b2 & w2 & Hrun2 & _ & Hfail2).
    rewrite Hrun2. cbn [bulk world] in Hfail2.
    destruct (Hfail2 (proj1 (Hbad w1))) as (P2 & _ & F2 & S2 & C2 & _).
    cbn [bulk]. rewrite P2, F2, S2, C2, P1, F1, S1, C1.
    cbn [bulk bw1 init total_files_processed failed_files total_stocks
           total_candlesticks List.length]. auto.
  - (* the bad file first *)
    destruct (single_file_run reg bad bw1) as (b1 & w1 & Hrun1 & _ & Hfail1).
    rewrite Hrun1.
    destruct (Hfail1 (proj1 (Hbad (world bw1)))) as (P1 & _ & F1 & S1 & C1 & W1).
    destruct (single_file_run reg good (mkBulkWorld b1 w1)) as (b2 & w2 & Hrun2 & Hok2 & _).
    rewrite Hrun2. cbn [bulk world] in Hok2.
    assert (Hdb : db w1 = db (world bw)) by (rewrite W1; apply (proj2 (Hbad (world bw1)))).
    rewrite (process_csv_file_db_only reg _ _ w1 (world bw) Hdb) in Hok2.
    destruct (Hok2 Hok) as (P2 & _ & F2 & S2 & C2 & _).
    cbn [bulk]. rewrite P2, F2, S2, C2, P1, F1, S1, C1.
    cbn [bulk bw1 init total_files_processed failed_files total_stocks
           total_candlesticks List.length]. auto.
Qed.

End BulkFacts.

(** C5.  Archive batch isolation.  The result of [process_zip_file] has
    [success] false exactly when the extraction of the archive raises or no
    CSV file is found in it; otherwise it is true whatever the files do,
    and every CSV file is counted once, as processed or as failed.  An
    archive of one file that is ingested and one whose headers are wrong,
    in either order, has one file processed, one failed, and the totals of
    the ingested file alone. *)
Theorem archive_batch_isolation :
  (forall (reg : Registry) (zip_file : Bulk.ZipUpload) (bw : Bulk.BulkWorld),
      Bulk.success (fst (Bulk.process_zip_file reg zip_file bw)) = false
      <-> (exists e, Bulk.zip_extract zip_file = Raise e)
          \/ (exists files,
                 Bulk.zip_extract zip_file = Return files
                 /\ filter (fun f => Bulk.is_csv_file (Bulk.file_name f)) files = []))
  /\ (forall (reg : Registry) (zip_file : Bulk.ZipUpload) (bw : Bulk.BulkWorld)
             (files : list Bulk.ExtractedFile),
         Bulk.zip_extract zip_file = Return files ->
         filter (fun f => Bulk.is_csv_file (Bulk.file_name f)) files <> [] ->
         let r := fst (Bulk.process_zip_file reg zip_file bw) in
         Bulk.success r = true
         /\ Bulk.r_total_files_processed r + List.length (Bulk.r_failed_files r)
            = List.length (filter (fun f => Bulk.is_csv_file (Bulk.file_name f)) files)
         /\ Bulk.r_total_files_failed r = Some (List.length (Bulk.r_failed_files r))
         /\ List.length (Bulk.r_processed_files r) = Bulk.r_total_files_processed r)
  /\ (forall (reg : Registry) (name : string) (good bad : Bulk.ExtractedFile)
             (bw : Bulk.BulkWorld) (candle_date : Date) (exchange : string)
             (csv_columns : Mapping),
         Bulk.is_csv_file (Bulk.file_name good) = true ->
         Bulk.is_csv_file (Bulk.file_name bad) = true ->
         result_success
           (fst (process_csv_file reg (Bulk.file_name good) (Bulk.file_content good)
                   (Bulk.world bw))) = true ->
         parse_filename reg (Bulk.file_name bad) = Return (candle_date, exchange) ->
         dict_get (EXCHANGE_MAPPINGS reg) exchange = Some csv_columns ->
         (exists column, In column (dict_keys csv_columns)
                         /\ ~ In column (header_names (Bulk.file_content bad))) ->
         forall files, files = [good; bad] \/ files = [bad; good] ->
         let r := fst (Bulk.process_zip_file reg
                         (Bulk.mkZipUpload name (Return files)) bw) in
         let g := fst (process_csv_file reg (Bulk.file_name good)
                         (Bulk.file_content good) (Bulk.world bw)) in
         Bulk.success r = true
         /\ Bulk.r_total_files_processed r = 1
         /\ Bulk.r_total_files_failed r = Some 1
         /\ Bulk.r_total_stocks r = result_stocks_processed g
         /\ Bulk.r_total_candlesticks r = result_candlesticks_processed g).
Proof.
  split; [exact process_zip_file_success|].
  split; [exact process_zip_file_accounts | exact two_file_archive].
Qed.

Lemma archive_batch_isolation_witness :
  (Bulk.is_csv_file "20250101_BSE.csv" = true
   /\ Bulk.is_csv_file "20250102_NSE.csv" = true
   /\ result_success
        (fst (process_csv_file default_registry "20250101_BSE.csv" sample_bse_file
                fresh_world)) = true
   /\ parse_filename default_registry "20250102_NSE.csv"
      = Return (mkDate 2025 1 2, "NSE")
   /\ exists column, In column (dict_keys NSE_MAPPING)
                     /\ ~ In column (header_names wrong_header_file))
  /\ forall r,
       r = fst (Bulk.process_zip_file default_registry
                  (Bulk.mkZipUpload "upload.zip"
                     (Return [Bulk.mkExtractedFile "20250102_NSE.csv" wrong_header_file;
                              Bulk.mkExtractedFile "20250101_BSE.csv" sample_bse_file]))
                  (Bulk.mkBulkWorld Bulk.init fresh_world)) ->
       Bulk.success r = true
       /\ Bulk.r_total_files_processed r = 1
       /\ Bulk.r_total_files_failed r = Some 1
       /\ Bulk.r_total_stocks r = 2
       /\ Bulk.r_total_candlesticks r = 2.
Proof.
  assert (Hg : Bulk.is_csv_file "20250101_BSE.csv" = true) by reflexivity.
  assert (Hb : Bulk.is_csv_file "20250102_NSE.csv" = true) by reflexivity.
  assert (Hok : result_success
                  (fst (process_csv_file default_registry "20250101_BSE.csv"
                          sample_bse_file fresh_world)) = true) by reflexivity.
  assert (Hp : parse_filename default_registry "20250102_NSE.csv"
               = Return (mkDate 2025 1 2, "NSE")) by reflexivity.
  assert (Hm : dict_get (EXCHANGE_MAPPINGS default_registry) "NSE" = Some NSE_MAPPING)
    by reflexivity.
  assert (Hx : exists column, In column (dict_keys NSE_MAPPING)
                              /\ ~ In column (header_names wrong_header_file)).
  { exists "CLOSE". split; [cbn; tauto|].
    cbn. intros [H|[H|[H|[H|[H|[]]]]]]; discriminate H. }
  split; [repeat split; assumption|].
  intros r ->.
  exact (proj2 (proj2 archive_batch_isolation) default_registry "upload.zip"
           (Bulk.mkExtractedFile "20250101_BSE.csv" sample_bse_file)
           (Bulk.mkExtractedFile "20250102_NSE.csv" wrong_header_file)
           (Bulk.mkBulkWorld Bulk.init fresh_world)
           (mkDate 2025 1 2) "NSE" NSE_MAPPING Hg Hb Hok Hp Hm Hx _
           (or_intror eq_refl)).
Defined.

(* ================================================================== *)
(** * Further properties of the ingestion code *)
(* ================================================================== *)

(** ** What the ingestion of a file does to the tables *)

Section InsertFacts.

Lemma inserted_trans (d1 d2 d3 : Database) (a b f c e g : nat) :
  inserted d1 d2 a b f -> inserted d2 d3 c e g ->
  inserted d1 d3 (a + c) (b + e) (f + g).
Proof.
  intros H12 H23.
  induction H23 as [|d' ns nc nf s H IH Hf Hi|d' ns nc nf k H IH Hf Hi Ho|d' ns nc nf r H IH].
  - now rewrite !Nat.add_0_r.
  - rewrite Nat.add_succ_r. now apply inserted_stock.
  - rewrite Nat.add_succ_r. now apply inserted_candle.
  - rewrite Nat.add_succ_r. now apply inserted_record.
Qed.

Lemma next_id_fresh (ids : list nat) (i : nat) : In i ids -> i < next_id ids.
Proof.
  unfold next_id. induction ids as [|x ids IH]; cbn [fold_right In]; [tauto|].
  intros [<- | H]; [lia | specialize (IH H); lia].
Qed.

Lemma find_none_key {A : Type} (p : A -> bool) (l : list A) :
  find p l = None -> forall x, In x l -> p x = false.
Proof. intros H x Hx. exact (find_none p l H x Hx). Qed.

(** The rows that were there stay where they are, the new ones come
    after them, and the upload records are not touched. *)
Lemma inserted_appends (d d' : Database) (ns nc nf : nat) :
  inserted d d' ns nc nf ->
  exists new_stocks new_candlesticks new_records,
    stocks d' = stocks d ++ new_stocks
    /\ candlesticks d' = candlesticks d ++ new_candlesticks
    /\ csv_files d' = csv_files d ++ new_records
    /\ List.length new_stocks = ns
    /\ List.length new_candlesticks = nc
    /\ List.length new_records = nf.
Proof.
  induction 1 as [|d' ns nc nf s H IH Hf Hi|d' ns nc nf k H IH Hf Hi Ho|d' ns nc nf r H IH].
  - exists [], [], []. now rewrite !app_nil_r.
  - destruct IH as (a & b & c & Ha & Hb & Hc & La & Lb & Lc).
    exists (a ++ [s]), b, c. cbn [stocks candlesticks csv_files].
    rewrite Ha, <- app_assoc, length_app. cbn. repeat split; auto; lia.
  - destruct IH as (a & b & c & Ha & Hb & Hc & La & Lb & Lc).
    exists a, (b ++ [k]), c. cbn [stocks candlesticks csv_files].
    rewrite Hb, <- app_assoc, length_app. cbn. repeat split; auto; lia.
  - destruct IH as (a & b & c & Ha & Hb & Hc & La & Lb & Lc).
    exists a, b, (c ++ [r]). cbn [stocks candlesticks csv_files].
    rewrite Hc, <- app_assoc, length_app. cbn. repeat split; auto; lia.
Qed.

Lemma NoDup_snoc {A : Type} (l : list A) (x : A) :
  NoDup l -> ~ In x l -> NoDup (l ++ [x]).
Proof.
  intros Hl Hx. apply NoDup_rev in Hl. rewrite <- (rev_involutive (l ++ [x])).
  apply NoDup_rev. rewrite rev_app_distr. cbn. constructor; [|exact Hl].
  now rewrite <- in_rev.
Qed.

Lemma inserted_consistent (d d' : Database) (ns nc nf : nat) :
  inserted d d' ns nc nf -> consistent d -> consistent d'.
Proof.
  induction 1 as [|d' ns nc nf s H IH Hf Hi|d' ns nc nf k H IH Hf Hi Ho|d' ns nc nf r H IH];
    intros Hd; [exact Hd | | | exact (IH Hd)]; specialize (IH Hd);
    destruct IH as (Ksk & Kck & Ksi & Kci & Kown);
    unfold consistent; cbn [stocks candlesticks csv_files].
  - refine (conj _ (conj Kck (conj _ (conj Kci _)))).
    + rewrite map_app. cbn [map]. apply NoDup_snoc; [exact Ksk|].
      intros Hin. apply in_map_iff in Hin. destruct Hin as (x & Hk & Hx).
      unfold find_stock in Hf. pose proof (find_none_key _ _ Hf x Hx) as Hp.
      cbn beta in Hp. unfold stock_key in Hk. injection Hk as E1 E2.
      rewrite E1, E2, !String.eqb_refl in Hp. discriminate.
    + rewrite map_app. cbn [map]. apply NoDup_snoc; [exact Ksi|].
      intros Hin. apply next_id_fresh in Hin. lia.
    + intros k Hk. destruct (Kown k Hk) as (s0 & Hs0 & Hid).
      exists s0. split; [apply in_or_app; now left | exact Hid].
  - refine (conj Ksk (conj _ (conj Ksi (conj _ _)))).
    + rewrite map_app. cbn [map]. apply NoDup_snoc; [exact Kck|].
      intros Hin. apply in_map_iff in Hin. destruct Hin as (x & Hk & Hx).
      unfold find_candlestick in Hf. pose proof (find_none_key _ _ Hf x Hx) as Hp.
      cbn beta in Hp. unfold candle_key in Hk. injection Hk as E1 E2.
      rewrite E1, E2, Nat.eqb_refl, datetime_eqb_refl in Hp. discriminate.
    + rewrite map_app. cbn [map]. apply NoDup_snoc; [exact Kci|].
      intros Hin. apply next_id_fresh in Hin. lia.
    + intros k0 Hk. apply in_app_or in Hk. destruct Hk as [Hk | [<- | []]].
      * now apply Kown.
      * exact Ho.
Qed.

End InsertFacts.

Section StoreInserts.

Variables (symbol exchange name group : string) (the_date : Date).
Variables (o h l c pc : Decimal) (trades shares : option Z) (turnover : option Decimal).

(** The store creates what is missing and nothing else. *)
Lemma store_inserted (d : Database) (p : CSVProcessor) :
  exists p' d' ns nc,
    _process_row_store symbol exchange name group the_date o h l c pc
      trades shares turnover (mkWorld p d)
    = (Return tt, mkWorld p' d')
    /\ inserted d d' ns nc 0
    /\ processed_stocks p' = processed_stocks p + ns
    /\ processed_candlesticks p' = processed_candlesticks p + nc
    /\ errors p' = errors p.
Proof.
  destruct d as [ss ks fs].
  destruct (find_stock (mkDatabase ss ks fs) symbol exchange) as [s|] eqn:Fs.
  - assert (Hs : In s ss).
    { unfold find_stock in Fs. now apply find_some in Fs. }
    destruct (find_candlestick (mkDatabase ss ks fs) (stock_id s) (midnight the_date))
      as [k|] eqn:Fk.
    + eexists. exists (mkDatabase ss ks fs), 0, 0. split.
      * unfold _process_row_store, bind, Stock_get_or_create,
          Candlestick_get_or_create. cbn [db self]. rewrite Fs. cbn [snd fst ret].
        cbn [db self]. rewrite Fk. cbn [snd fst]. unfold warnings_append, modify_self.
        cbn [self db]. reflexivity.
      * cbn [processed_stocks processed_candlesticks errors].
        repeat split; try lia; constructor.
    + eexists. eexists. exists 0, 1. split.
      * unfold _process_row_store, bind, Stock_get_or_create,
          Candlestick_get_or_create. cbn [db self]. rewrite Fs. cbn [snd fst ret].
        cbn [db self]. rewrite Fk. cbn [snd fst].
        unfold incr_processed_candlesticks, modify_self. cbn [self db]. reflexivity.
      * cbn [processed_stocks processed_candlesticks errors].
        split; [|repeat split; lia].
        apply (inserted_candle _ (mkDatabase ss ks fs) 0 0 0); cbn [stock candle_date candle_id candlesticks stocks];
          [constructor | exact Fk | reflexivity | now exists s].
  - set (s := mkStock (next_id (map stock_id ss)) symbol name exchange group).
    assert (Hins : inserted (mkDatabase ss ks fs) (mkDatabase (ss ++ [s]) ks fs) 1 0 0).
    { apply (inserted_stock _ (mkDatabase ss ks fs) 0 0 0 s);
        [constructor | exact Fs | reflexivity]. }
    destruct (find_candlestick (mkDatabase (ss ++ [s]) ks fs) (stock_id s)
                (midnight the_date)) as [k|] eqn:Fk.
    + eexists. exists (mkDatabase (ss ++ [s]) ks fs), 1, 0. split.
      * unfold _process_row_store, bind, Stock_get_or_create,
          Candlestick_get_or_create. cbn [db self]. rewrite Fs. cbn [snd fst].
        unfold incr_processed_stocks, modify_self.
        cbn [db self stocks candlesticks csv_files fst snd].
        fold s. rewrite Fk. cbn [snd fst]. unfold warnings_append, modify_self.
        cbn [self db]. reflexivity.
      * cbn [processed_stocks processed_candlesticks errors].
        repeat split; try lia. exact Hins.
    + eexists. eexists. exists 1, 1. split.
      * unfold _process_row_store, bind, Stock_get_or_create,
          Candlestick_get_or_create. cbn [db self]. rewrite Fs. cbn [snd fst].
        unfold incr_processed_stocks, modify_self.
        cbn [db self stocks candlesticks csv_files fst snd].
        fold s. rewrite Fk. cbn [snd fst].
        unfold incr_processed_candlesticks, modify_self. cbn [self db]. reflexivity.
      * cbn [processed_stocks processed_candlesticks errors].
        split; [|repeat split; lia].
        apply (inserted_candle _ (mkDatabase (ss ++ [s]) ks fs) 1 0 0);
          cbn [stock candle_date candle_id candlesticks stocks];
          [exact Hins | exact Fk | reflexivity |].
        exists s. split; [apply in_or_app; right; now left | reflexivity].
Qed.

End StoreInserts.

Section LoopInserts.

Variables (exchange : string) (csv_columns : Mapping).

(** A row that raises leaves the tables alone; a row that is stored
    creates what is missing. *)
Lemma row_inserted (row : Row) (candle_date : Date) (d : Database) (p : CSVProcessor) :
  exists r p' d' ns nc,
    _process_row row candle_date exchange csv_columns (mkWorld p d) = (r, mkWorld p' d')
    /\ inserted d d' ns nc 0
    /\ processed_stocks p' = processed_stocks p + ns
    /\ processed_candlesticks p' = processed_candlesticks p + nc
    /\ errors p' = errors p.
Proof.
  destruct (process_row_cases row exchange csv_columns)
    as [ws [[(e & _ & Hrun) | (_ & _ & o & h & l & c & pc & _ & _ & _ & _ & _ & Hrun)] _]].
  - exists (Raise e). eexists. exists d, 0, 0. rewrite Hrun. unfold add_warnings.
    cbn [self db]. split; [reflexivity|].
    cbn [processed_stocks processed_candlesticks errors].
    repeat split; try lia; constructor.
  - rewrite Hrun. unfold add_warnings. cbn [self db].
    match goal with
    | |- context [_process_row_store ?a ?b ?c0 ?d0 ?e ?f ?g ?i ?j ?k ?m ?n ?q (mkWorld ?p0 d)] =>
        destruct (store_inserted a b c0 d0 e f g i j k m n q d p0)
          as (p' & d' & ns & nc & Hs & Hi & H1 & H2 & H3)
    end.
    exists (Return tt), p', d', ns, nc. split; [exact Hs|].
    cbn [processed_stocks processed_candlesticks errors] in *. auto.
Qed.

(** The loop over the rows always comes to its end. *)
Lemma row_loop_inserted (rows : list Row) :
  forall (n : nat) (candle_date : Date) (d : Database) (p : CSVProcessor),
  exists p' d' ns nc,
    row_loop rows n candle_date exchange csv_columns (mkWorld p d)
    = (Return tt, mkWorld p' d')
    /\ inserted d d' ns nc 0
    /\ processed_stocks p' = processed_stocks p + ns
    /\ processed_candlesticks p' = processed_candlesticks p + nc.
Proof.
  induction rows as [|row rest IH]; intros n candle_date d p.
  - exists p, d, 0, 0. cbn [row_loop ret]. repeat split; try lia. constructor.
  - destruct (row_inserted row candle_date d p)
      as (r & p1 & d1 & ns1 & nc1 & Hrow & Hi1 & Hs1 & Hc1 & _).
    destruct r as [[]|e].
    + rewrite (row_loop_cons_return _ _ _ _ _ _ _ _ Hrow).
      destruct (IH (n + 1) candle_date d1 p1) as (p' & d' & ns & nc & Hl & Hi & Hs & Hc).
      exists p', d', (ns1 + ns), (nc1 + nc). split; [exact Hl|].
      split; [now apply (inserted_trans d d1 d' ns1 nc1 0 ns nc 0)|]. lia.
    + rewrite (row_loop_cons_raise _ _ _ _ _ _ _ _ _ Hrow). cbn [self db].
      match goal with
      | |- context [row_loop rest (n + 1) candle_date exchange csv_columns (mkWorld ?q d1)] =>
          destruct (IH (n + 1) candle_date d1 q) as (p' & d' & ns & nc & Hl & Hi & Hs & Hc)
      end.
      exists p', d', (ns1 + ns), (nc1 + nc). split; [exact Hl|].
      split; [now apply (inserted_trans d d1 d' ns1 nc1 0 ns nc 0)|].
      cbn [processed_stocks processed_candlesticks] in *. lia.
Qed.

End LoopInserts.

Section FileInserts.

(** [process_csv_file] as a whole: the counters of the result count the
    rows that were created, and a failure has created none and reports no
    row error and no warning. *)
Lemma process_csv_file_inserted (reg : Registry) (filename : string)
  (content : list (list string)) (w : World) :
  let run := process_csv_file reg filename content w in
  inserted (db w) (db (snd run)) (result_stocks_processed (fst run))
    (result_candlesticks_processed (fst run)) 0
  /\ (result_success (fst run) = false ->
      db (snd run) = db w
      /\ result_stocks_processed (fst run) = 0
      /\ result_candlesticks_processed (fst run) = 0
      /\ result_errors (fst run) = []
      /\ result_warnings (fst run) = []).
Proof.
  cbv zeta. unfold process_csv_file, process_csv_file_body.
  destruct (parse_filename reg filename) as [[candle_date exchange]|e] eqn:Hp.
  2:{ erewrite bind_lift_Raise by reflexivity. cbn. split; [constructor | auto]. }
  erewrite bind_lift_Return by reflexivity. cbv beta iota.
  destruct (dict_get (EXCHANGE_MAPPINGS reg) exchange) as [[|c0 cols]|].
  1,3: cbn; split; [constructor | auto].
  destruct (missing_headers (c0 :: cols) (reader_fieldnames content)) as [|m ms].
  2:{ cbn. split; [constructor | auto]. }
  destruct (row_loop_inserted exchange (c0 :: cols) (reader_rows content) 1 candle_date
              (db w) CSVProcessor_init) as (p' & d' & ns & nc & Hl & Hi & Hs & Hc).
  unfold bind, transaction_atomic. rewrite Hl. cbn.
  cbn in Hs, Hc. rewrite Hs, Hc. split; [exact Hi | discriminate].
Qed.

(** The conditions under which a file is a success, as a result. *)
Lemma process_csv_file_succeeds (reg : Registry) (filename : string)
  (content : list (list string)) (w : World)
  (candle_date : Date) (exchange : string) (csv_columns : Mapping) :
  parse_filename reg filename = Return (candle_date, exchange) ->
  dict_get (EXCHANGE_MAPPINGS reg) exchange = Some csv_columns ->
  csv_columns <> [] ->
  missing_headers csv_columns (reader_fieldnames content) = [] ->
  exists sp cp es ws,
    fst (process_csv_file reg filename content w)
    = FileSuccess sp cp es ws candle_date exchange.
Proof.
  intros Hp Hm Hne Hh.
  destruct (row_loop_inserted exchange csv_columns (reader_rows content) 1 candle_date
              (db w) CSVProcessor_init) as (p' & d' & ns & nc & Hl & _).
  rewrite (process_csv_file_rows reg filename content w _ _ _ Hp Hm Hne Hh _ Hl).
  cbn [fst]. now do 4 eexists.
Qed.

End FileInserts.
(** ** What the ingestion of an archive does to the tables *)

Section ArchiveInserts.
Import Bulk.

Local Abbreviation sum_of f l := (list_sum (map f l)).

(** One file of the archive: it joins the processed files, with an upload
    record, its counts and at most three of its warnings, or the failed
    files, with one error line and nothing created. *)
Lemma single_file_effect (reg : Registry) (file : ExtractedFile) (bw : BulkWorld) :
  exists bw' pfs ffs,
    _process_single_file reg file bw = (Return tt, bw')
    /\ processed_files (bulk bw') = processed_files (bulk bw) ++ pfs
    /\ failed_files (bulk bw') = failed_files (bulk bw) ++ ffs
    /\ total_files_processed (bulk bw')
       = total_files_processed (bulk bw) + List.length pfs
    /\ total_stocks (bulk bw') = total_stocks (bulk bw) + sum_of pf_stocks_processed pfs
    /\ total_candlesticks (bulk bw')
       = total_candlesticks (bulk bw) + sum_of pf_candlesticks_processed pfs
    /\ warnings (bulk bw') = warnings (bulk bw) ++ flat_map warning_lines pfs
    /\ errors (bulk bw') = errors (bulk bw) ++ map error_line ffs
    /\ Forall (fun ff => ff_stocks_processed ff = 0
                         /\ ff_candlesticks_processed ff = 0) ffs
    /\ inserted (db (world bw)) (db (world bw'))
         (sum_of pf_stocks_processed pfs) (sum_of pf_candlesticks_processed pfs)
         (List.length pfs)
    /\ csv_files (db (world bw'))
       = csv_files (db (world bw)) ++ map file_record pfs.
Proof.
  unfold _process_single_file.
  pose proof (process_csv_file_inserted reg (file_name file) (file_content file)
                (world bw)) as [Hins Hfail].
  cbv zeta in Hins, Hfail.
  destruct (inserted_appends _ _ _ _ _ Hins) as (a & b & c & _ & _ & Hc & _ & _ & Lc).
  destruct c; [|discriminate Lc]. rewrite app_nil_r in Hc. clear Lc.
  destruct (process_csv_file reg (file_name file) (file_content file) (world bw))
    as [[sp cp es ws date ex | err sp cp es ws] w'].
  - cbn [fst snd result_stocks_processed result_candlesticks_processed] in *.
    eexists.
    exists [mkProcessedFile (file_name file) date ex sp cp ws], [].
    split; [reflexivity|].
    cbn [bulk world db processed_files failed_files total_files_processed total_stocks
           total_candlesticks warnings errors map flat_map list_sum fold_right List.length app
           pf_stocks_processed pf_candlesticks_processed CsvFile_objects_create
           csv_files].
    rewrite ?app_nil_r, ?Nat.add_0_r.
    refine (conj eq_refl (conj eq_refl (conj eq_refl (conj eq_refl (conj eq_refl
             (conj eq_refl (conj eq_refl (conj (Forall_nil _) (conj _ _))))))))).
    + apply (inserted_record _ (db w') sp cp 0). exact Hins.
    + now rewrite Hc.
  - cbn [fst snd result_stocks_processed result_candlesticks_processed
           result_success result_errors result_warnings] in *.
    destruct (Hfail eq_refl) as (Hdb & -> & -> & -> & ->).
    eexists.
    exists [], [mkFailedFile (file_name file) err 0 0].
    split; [reflexivity|].
    cbn [bulk world db processed_files failed_files total_files_processed total_stocks
           total_candlesticks warnings errors map flat_map list_sum fold_right List.length app firstn].
    rewrite ?app_nil_r, ?Nat.add_0_r.
    refine (conj eq_refl (conj eq_refl (conj eq_refl (conj eq_refl (conj eq_refl
             (conj eq_refl (conj eq_refl (conj _ (conj _ _))))))))).
    + constructor; [split; reflexivity | constructor].
    + exact Hins.
    + exact Hc.
Qed.

(** The loop over the files of the archive. *)
Lemma file_loop_effect (reg : Registry) (files : list ExtractedFile) :
  forall bw,
  exists pfs ffs,
    let bw' := file_loop reg files bw in
    processed_files (bulk bw') = processed_files (bulk bw) ++ pfs
    /\ failed_files (bulk bw') = failed_files (bulk bw) ++ ffs
    /\ total_files_processed (bulk bw')
       = total_files_processed (bulk bw) + List.length pfs
    /\ total_stocks (bulk bw') = total_stocks (bulk bw) + sum_of pf_stocks_processed pfs
    /\ total_candlesticks (bulk bw')
       = total_candlesticks (bulk bw) + sum_of pf_candlesticks_processed pfs
    /\ warnings (bulk bw') = warnings (bulk bw) ++ flat_map warning_lines pfs
    /\ errors (bulk bw') = errors (bulk bw) ++ map error_line ffs
    /\ Forall (fun ff => ff_stocks_processed ff = 0
                         /\ ff_candlesticks_processed ff = 0) ffs
    /\ inserted (db (world bw)) (db (world bw'))
         (sum_of pf_stocks_processed pfs) (sum_of pf_candlesticks_processed pfs)
         (List.length pfs)
    /\ csv_files (db (world bw'))
       = csv_files (db (world bw)) ++ map file_record pfs.
Proof.
  induction files as [|file rest IH]; intros bw.
  - exists [], []. cbn [file_loop map flat_map list_sum fold_right List.length app].
    rewrite ?app_nil_r, ?Nat.add_0_r.
    repeat split; try reflexivity; constructor.
  - destruct (single_file_effect reg file bw)
      as (bw1 & p1 & f1 & Hrun & A1 & A2 & A3 & A4 & A5 & A6 & A7 & A8 & A9 & A10).
    destruct (IH bw1) as (p2 & f2 & B1 & B2 & B3 & B4 & B5 & B6 & B7 & B8 & B9 & B10).
    exists (p1 ++ p2), (f1 ++ f2). cbn [file_loop]. rewrite Hrun. cbv zeta.
    rewrite B1, B2, B3, B4, B5, B6, B7, B10, A1, A2, A3, A4, A5, A6, A7, A10.
    rewrite !map_app, !flat_map_app, !list_sum_app, !length_app, <- !app_assoc,
      <- !Nat.add_assoc.
    do 7 (split; [reflexivity|]). split; [|split; [|reflexivity]].
    + apply Forall_app. now split.
    + exact (inserted_trans _ _ _ _ _ _ _ _ _ A9 B9).
Qed.

End ArchiveInserts.
(** ** Outcome of a file *)


(** X2.  A file that [process_csv_file] reports as failed has changed
    nothing: the database is the one before the call, both counters are
    zero, and the result carries the error message alone, without row
    errors or warnings. *)
Theorem failed_file_changes_nothing (reg : Registry) (filename : string)
  (content : list (list string)) (w : World) :
  let run := process_csv_file reg filename content w in
  result_success (fst run) = false ->
  db (snd run) = db w
  /\ result_stocks_processed (fst run) = 0
  /\ result_candlesticks_processed (fst run) = 0
  /\ result_errors (fst run) = []
  /\ result_warnings (fst run) = []
  /\ exists message, result_error (fst run) = Some message.
Proof.
  intros run H.
  destruct (process_csv_file_inserted reg filename content w) as [_ Hfail].
  destruct (Hfail H) as (H1 & H2 & H3 & H4 & H5).
  repeat (split; [assumption|]).
  fold run in H |- *. destruct (fst run); [discriminate H|]. now eexists.
Qed.

Lemma failed_file_changes_nothing_witness :
  result_success
    (fst (process_csv_file default_registry "prices.csv" sample_bse_file fresh_world))
  = false
  /\ db (snd (process_csv_file default_registry "prices.csv" sample_bse_file
                fresh_world)) = db fresh_world
  /\ result_errors
       (fst (process_csv_file default_registry "prices.csv" sample_bse_file
               fresh_world)) = [].
Proof.
  assert (H : result_success
                (fst (process_csv_file default_registry "prices.csv" sample_bse_file
                        fresh_world)) = false) by reflexivity.
  split; [exact H|].
  pose proof (failed_file_changes_nothing default_registry "prices.csv" sample_bse_file
                fresh_world H) as (H1 & _ & _ & H4 & _).
  split; [exact H1 | exact H4].
Defined.

(** X3.  [process_csv_file] only appends to the two tables, and its
    counters count what it has appended: the stocks and the candlesticks
    that were in the database are still there, unchanged and in their
    places, [stocks_processed] is the number of stocks after them and
    [candlesticks_processed] the number of candlesticks after them.  The
    upload records are not touched. *)
Theorem ingestion_counts_created_rows (reg : Registry) (filename : string)
  (content : list (list string)) (w : World) :
  let run := process_csv_file reg filename content w in
  exists new_stocks new_candlesticks,
    stocks (db (snd run)) = stocks (db w) ++ new_stocks
    /\ candlesticks (db (snd run)) = candlesticks (db w) ++ new_candlesticks
    /\ csv_files (db (snd run)) = csv_files (db w)
    /\ result_stocks_processed (fst run) = List.length new_stocks
    /\ result_candlesticks_processed (fst run) = List.length new_candlesticks.
Proof.
  intros run.
  destruct (process_csv_file_inserted reg filename content w) as [Hins _].
  destruct (inserted_appends _ _ _ _ _ Hins) as (a & b & c & Ha & Hb & Hc & La & Lb & Lc).
  destruct c; [|discriminate Lc]. rewrite app_nil_r in Hc.
  exists a, b. unfold run. auto.
Qed.

(** X4.  [process_csv_file] keeps the constraints of the tables: when no
    two stocks share a symbol and exchange, no two candlesticks a
    stock and date, no two rows a primary key, and every candlestick
    belongs to a stock of the table, the same holds afterwards. *)
Theorem ingestion_keeps_tables_consistent (reg : Registry) (filename : string)
  (content : list (list string)) (w : World) :
  consistent (db w) ->
  consistent (db (snd (process_csv_file reg filename content w))).
Proof.
  destruct (process_csv_file_inserted reg filename content w) as [Hins _].
  exact (inserted_consistent _ _ _ _ _ Hins).
Qed.

Lemma ingestion_keeps_tables_consistent_witness :
  consistent (db fresh_world)
  /\ consistent
       (db (snd (process_csv_file default_registry "20250101_BSE.csv" sample_bse_file
                   fresh_world))).
Proof.
  assert (H : consistent (db fresh_world)).
  { unfold consistent. cbn. repeat split; try constructor. intros k []. }
  split; [exact H|].
  exact (ingestion_keeps_tables_consistent default_registry "20250101_BSE.csv"
           sample_bse_file fresh_world H).
Defined.

(** ** Outcome of an archive *)

(** X5.  The totals that [process_zip_file] reports are the rows it has
    created: the tables have grown by [total_stocks] stocks and
    [total_candlesticks] candlesticks, appended after the rows that were
    there; the totals are the sums of the counts of the processed files;
    there are [total_files_processed] processed files, and each of them, no
    other file, has left one upload record with its name, date, exchange
    and counts, in the order of processing.  The constraints of the tables
    are kept. *)
Theorem archive_totals_count_created_rows (reg : Registry) (zip_file : Bulk.ZipUpload)
  (bw : Bulk.BulkWorld) :
  let run := Bulk.process_zip_file reg zip_file bw in
  let r := fst run in
  let d := db (Bulk.world bw) in
  let d' := db (Bulk.world (snd run)) in
  (exists new_stocks new_candlesticks,
      stocks d' = stocks d ++ new_stocks
      /\ candlesticks d' = candlesticks d ++ new_candlesticks
      /\ Bulk.r_total_stocks r = List.length new_stocks
      /\ Bulk.r_total_candlesticks r = List.length new_candlesticks)
  /\ Bulk.r_total_stocks r
     = list_sum (map Bulk.pf_stocks_processed (Bulk.r_processed_files r))
  /\ Bulk.r_total_candlesticks r
     = list_sum (map Bulk.pf_candlesticks_processed (Bulk.r_processed_files r))
  /\ Bulk.r_total_files_processed r = List.length (Bulk.r_processed_files r)
  /\ csv_files d' = csv_files d ++ map file_record (Bulk.r_processed_files r)
  /\ (consistent d -> consistent d').
Proof.
  intros run r d d'. unfold d', d, r, run, Bulk.process_zip_file.
  destruct (Bulk.zip_extract zip_file) as [files|e].
  2:{ cbn. split; [exists [], []; now rewrite !app_nil_r|].
      rewrite app_nil_r. auto. }
  destruct (filter (fun f => Bulk.is_csv_file (Bulk.file_name f)) files) as [|f fs].
  { cbn. split; [exists [], []; now rewrite !app_nil_r|].
    rewrite app_nil_r. auto. }
  match goal with |- context [Bulk.file_loop reg ?l ?b] =>
    destruct (file_loop_effect reg l b)
      as (pfs & ffs & B1 & B2 & B3 & B4 & B5 & B6 & B7 & B8 & B9 & B10);
    set (bw' := Bulk.file_loop reg l b) in *
  end.
  cbn [fst snd Bulk.summary Bulk.r_total_stocks Bulk.r_total_candlesticks
         Bulk.r_processed_files Bulk.r_total_files_processed].
  cbn [Bulk.bulk Bulk.world db Bulk.init Bulk.processed_files Bulk.total_stocks
         Bulk.total_candlesticks Bulk.total_files_processed app Nat.add] in *.
  destruct (inserted_appends _ _ _ _ _ B9) as (a & b & c & Ha & Hb & _ & La & Lb & _).
  rewrite B1, B3, B4, B5, B10.
  split; [exists a, b; auto|].
  do 4 (split; [reflexivity|]).
  exact (inserted_consistent _ _ _ _ _ B9).
Qed.

(** X6.  The messages of a successful [process_zip_file]: the warnings
    are, file by file, the first three warnings of each processed file,
    each after the name of its file, so that there are at most three times
    as many as processed files; the errors are one line for each failed
    file, its name and its error; and a failed file is listed with both
    counts zero. *)
Theorem archive_messages (reg : Registry) (zip_file : Bulk.ZipUpload)
  (bw : Bulk.BulkWorld) :
  let r := fst (Bulk.process_zip_file reg zip_file bw) in
  Bulk.success r = true ->
  Bulk.r_warnings r = flat_map warning_lines (Bulk.r_processed_files r)
  /\ List.length (Bulk.r_warnings r) <= 3 * Bulk.r_total_files_processed r
  /\ Bulk.r_errors r = map error_line (Bulk.r_failed_files r)
  /\ Forall (fun ff => Bulk.ff_stocks_processed ff = 0
                       /\ Bulk.ff_candlesticks_processed ff = 0)
       (Bulk.r_failed_files r).
Proof.
  intros r. unfold r, Bulk.process_zip_file.
  destruct (Bulk.zip_extract zip_file) as [files|e]; [|discriminate].
  destruct (filter (fun f => Bulk.is_csv_file (Bulk.file_name f)) files) as [|f fs];
    [discriminate|].
  intros _.
  match goal with |- context [Bulk.file_loop reg ?l ?b] =>
    destruct (file_loop_effect reg l b)
      as (pfs & ffs & B1 & B2 & B3 & B4 & B5 & B6 & B7 & B8 & B9 & B10);
    set (bw' := Bulk.file_loop reg l b) in *
  end.
  cbn [fst snd Bulk.summary Bulk.r_warnings Bulk.r_errors Bulk.r_failed_files
         Bulk.r_processed_files Bulk.r_total_files_processed].
  cbn [Bulk.bulk Bulk.world db Bulk.init Bulk.processed_files Bulk.failed_files
         Bulk.warnings Bulk.errors Bulk.total_files_processed app Nat.add] in *.
  rewrite B1, B2, B3, B6, B7, app_nil_r.
  split; [reflexivity|]. split; [|split; [reflexivity | exact B8]].
  clear. induction pfs as [|pf pfs IH]; [cbn; lia|].
  cbn [flat_map List.length]. rewrite length_app.
  unfold warning_lines at 1. rewrite length_map.
  pose proof (firstn_le_length 3 (Bulk.pf_warnings pf)). lia.
Qed.

Lemma archive_messages_witness :
  let r := fst (Bulk.process_zip_file default_registry
                  (Bulk.mkZipUpload "upload.zip"
                     (Return [Bulk.mkExtractedFile "20250102_NSE.csv" wrong_header_file;
                              Bulk.mkExtractedFile "20250101_BSE.csv" sample_bse_file]))
                  (Bulk.mkBulkWorld Bulk.init fresh_world)) in
  Bulk.success r = true
  /\ Bulk.r_errors r = map error_line (Bulk.r_failed_files r)
  /\ List.length (Bulk.r_errors r) = 1.
Proof.
  intros r.
  assert (H : Bulk.success r = true) by reflexivity.
  split; [exact H|].
  pose proof (archive_messages default_registry _ _ H) as (_ & _ & H3 & _).
  split; [exact H3 | reflexivity].
Defined.
(** ** Manual entry after an ingestion *)

Section FormsAfterIngestion.




End FormsAfterIngestion.


(** ** The registry of exchanges *)

Section RegistryFacts.
Import PyStr.

Lemma dict_get_set_same {V : Type} (d : list (string * V)) (k : string) (v : V) :
  dict_get (dict_set d k v) k = Some v.
Proof.
  induction d as [|[k' v'] d IH]; cbn [dict_set dict_get].
  - now rewrite String.eqb_refl.
  - destruct (String.eqb k' k) eqn:E; cbn [dict_get]; rewrite E; [reflexivity | exact IH].
Qed.

Lemma dict_get_set_other {V : Type} (d : list (string * V)) (k k0 : string) (v : V) :
  k0 <> k -> dict_get (dict_set d k v) k0 = dict_get d k0.
Proof.
  intros Hne. induction d as [|[k' v'] d IH]; cbn [dict_set dict_get].
  - destruct (String.eqb k k0) eqn:E; [|reflexivity].
    apply String.eqb_eq in E. congruence.
  - destruct (String.eqb k' k) eqn:E; cbn [dict_get].
    + destruct (String.eqb k' k0) eqn:E0; [|reflexivity].
      apply String.eqb_eq in E, E0. congruence.
    + now rewrite IH.
Qed.

Lemma supported_after_add (reg : Registry) (exchange_name : string)
  (column_mapping : Mapping) (e : string) :
  In e (SUPPORTED_EXCHANGES (add_exchange_support reg exchange_name column_mapping))
  <-> In e (SUPPORTED_EXCHANGES reg) \/ e = upper exchange_name.
Proof.
  unfold add_exchange_support. cbn [SUPPORTED_EXCHANGES].
  destruct (in_list (upper exchange_name) (SUPPORTED_EXCHANGES reg)) eqn:E.
  - apply in_list_In in E. split; [now left | intros [H | ->]; assumption].
  - rewrite in_app_iff. cbn [In]. split.
    + intros [H | [<- | []]]; [now left | now right].
    + intros [H | ->]; [now left | right; now left].
Qed.

(** A name that splits into a date and a registered exchange is parsed. *)
Lemma parse_filename_by_parts (reg : Registry) (filename date_str exchange : string)
  (d : Date) :
  split "_" (name_without_ext filename) = [date_str; exchange] ->
  String.length date_str = 8 ->
  Strptime.strptime_Ymd date_str = Some d ->
  1 <= String.length exchange <= 10 ->
  In (upper exchange) (SUPPORTED_EXCHANGES reg) ->
  parse_filename reg filename = Return (d, upper exchange).
Proof.
  intros Hs H8 Hd [Hl1 Hl2] Hin.
  unfold parse_filename, parse_filename_body. rewrite Hs, H8, Hd. cbn [Nat.eqb negb].
  apply truthy_length in Hl1. rewrite Hl1. cbn [negb orb].
  replace (10 <? String.length exchange) with false
    by (symmetry; apply Nat.ltb_ge; lia).
  apply in_list_In in Hin. rewrite Hin. reflexivity.
Qed.

Lemma parse_filename_after_add (reg : Registry) (exchange_name : string)
  (column_mapping : Mapping) (filename : string) (r : Date * string) :
  parse_filename reg filename = Return r ->
  parse_filename (add_exchange_support reg exchange_name column_mapping) filename
  = Return r.
Proof.
  destruct r as [d e]. intros H.
  destruct (parse_filename_returns reg filename d e H)
    as (_ & ds & ex & Hs & H8 & Hd & Hl & -> & Hin).
  apply (parse_filename_by_parts _ _ ds ex d Hs H8 Hd Hl).
  apply supported_after_add. now left.
Qed.

End RegistryFacts.

(** X8.  [add_exchange_support] and the two getters.  After the
    registration of a mapping under a name, [get_exchange_columns] gives the
    columns of the mapping for that name in any spelling of its letters,
    and the columns it gave before for every other exchange; the upper-case
    name is in [get_supported_exchanges] and nothing that was there has
    left; the list has gained at most this one name, so that it stays free
    of repetitions, and a second registration of the name leaves it as it
    is. *)
Theorem registration_round_trip (reg : Registry) (exchange_name : string)
  (column_mapping : Mapping) :
  let reg' := add_exchange_support reg exchange_name column_mapping in
  (forall spelling,
      PyStr.upper spelling = PyStr.upper exchange_name ->
      get_exchange_columns reg' spelling = dict_keys column_mapping)
  /\ (forall other,
         PyStr.upper other <> PyStr.upper exchange_name ->
         get_exchange_columns reg' other = get_exchange_columns reg other)
  /\ In (PyStr.upper exchange_name) (get_supported_exchanges reg')
  /\ (forall e, In e (get_supported_exchanges reg') <->
                In e (get_supported_exchanges reg) \/ e = PyStr.upper exchange_name)
  /\ (NoDup (get_supported_exchanges reg) -> NoDup (get_supported_exchanges reg'))
  /\ get_supported_exchanges (add_exchange_support reg' exchange_name column_mapping)
     = get_supported_exchanges reg'.
Proof.
  intros reg'. unfold get_supported_exchanges.
  split; [|split; [|split; [|split; [|split]]]].
  - intros spelling E. unfold get_exchange_columns, reg', add_exchange_support.
    cbn [EXCHANGE_MAPPINGS]. rewrite E. now rewrite dict_get_set_same.
  - intros other Hne. unfold get_exchange_columns, reg', add_exchange_support.
    cbn [EXCHANGE_MAPPINGS]. now rewrite dict_get_set_other.
  - apply supported_after_add. now right.
  - intros e. apply supported_after_add.
  - intros Hnd. unfold reg', add_exchange_support. cbn [SUPPORTED_EXCHANGES].
    destruct (PyStr.in_list (PyStr.upper exchange_name) (SUPPORTED_EXCHANGES reg)) eqn:E;
      [exact Hnd|].
    apply NoDup_snoc; [exact Hnd|]. intros Hin. apply in_list_In in Hin. congruence.
  - unfold add_exchange_support at 1. cbn [SUPPORTED_EXCHANGES].
    assert (H : In (PyStr.upper exchange_name) (SUPPORTED_EXCHANGES reg'))
      by (apply supported_after_add; now right).
    apply in_list_In in H. now rewrite H.
Qed.

(** X9.  A registered exchange is ingested.  After
    [add_exchange_support] for a name of one to ten characters without
    underscore or point, with a mapping that is not empty, the file name of
    a calendar date and that name parses to the date and the upper-case
    name, and [process_csv_file] succeeds on such a file exactly when its
    header has every column of the mapping.  Every file name that parsed
    before the registration parses to the same result after it. *)
Theorem registered_exchange_is_ingested (reg : Registry) (exchange_name : string)
  (column_mapping : Mapping) (y m d : nat) :
  valid_date y m d = true ->
  1 <= String.length exchange_name <= 10 ->
  PyStr.contains_char "_" exchange_name = false ->
  no_point exchange_name = true ->
  column_mapping <> [] ->
  let reg' := add_exchange_support reg exchange_name column_mapping in
  let filename :=
    PyStr.fmt4 y +++ PyStr.fmt2 m +++ PyStr.fmt2 d +++ "_" +++ exchange_name +++ ".csv" in
  parse_filename reg' filename = Return (mkDate y m d, PyStr.upper exchange_name)
  /\ (forall content w,
         result_success (fst (process_csv_file reg' filename content w)) = true
         <-> missing_headers column_mapping (reader_fieldnames content) = [])
  /\ (forall other r,
         parse_filename reg other = Return r -> parse_filename reg' other = Return r).
Proof.
  intros Hv Hl Hu Hp Hne reg' filename.
  assert (Hparse : parse_filename reg' filename
                   = Return (mkDate y m d, PyStr.upper exchange_name)).
  { apply parse_filename_well_formed; try assumption.
    apply supported_after_add. now right. }
  assert (Hmap : dict_get (EXCHANGE_MAPPINGS reg') (PyStr.upper exchange_name)
                 = Some column_mapping).
  { unfold reg', add_exchange_support. cbn [EXCHANGE_MAPPINGS].
    apply dict_get_set_same. }
  split; [exact Hparse|]. split.
  - intros content w. split.
    + intros H.
      destruct (process_csv_file_success_inv reg' filename content w H)
        as (cd & ex & cols & Hp' & Hm' & _ & Hh).
      rewrite Hparse in Hp'. injection Hp' as <- <-.
      rewrite Hmap in Hm'. now injection Hm' as <-.
    + intros Hh.
      destruct (process_csv_file_succeeds reg' filename content w _ _ _
                  Hparse Hmap Hne Hh) as (sp & cp & es & ws & ->).
      reflexivity.
  - intros other r. apply parse_filename_after_add.
Qed.

Lemma registered_exchange_is_ingested_witness :
  let reg' := add_exchange_support default_registry "nyse"
                [("TICKER", "stock_symbol"); ("LAST", "close_price")] in
  parse_filename default_registry "20250101_NYSE.csv"
  = Raise (ValueError
             ("Error parsing filename '20250101_NYSE.csv': "
              +++ "Unsupported exchange 'NYSE'. Supported exchanges: BSE, NSE"))
  /\ parse_filename reg' "20250101_nyse.csv" = Return (mkDate 2025 1 1, "NYSE")
  /\ parse_filename reg' "20250101_BSE.csv" = Return (mkDate 2025 1 1, "BSE").
Proof.
  intros reg'.
  split; [reflexivity|].
  assert (Hv : valid_date 2025 1 1 = true) by reflexivity.
  assert (Hl : 1 <= String.length "nyse" <= 10) by (cbn; lia).
  assert (Hu : PyStr.contains_char "_" "nyse" = false) by reflexivity.
  assert (Hp : no_point "nyse" = true) by reflexivity.
  assert (Hne : [("TICKER", "stock_symbol"); ("LAST", "close_price")] <> [])
    by discriminate.
  pose proof (registered_exchange_is_ingested default_registry "nyse"
                [("TICKER", "stock_symbol"); ("LAST", "close_price")] 2025 1 1
                Hv Hl Hu Hp Hne) as (H1 & _ & H3).
  split; [exact H1|]. apply H3. reflexivity.
Defined.
(** ** The upload forms and the parser of file names *)

Section UploadFacts.
Import PyStr.


Lemma span_all (p : ascii -> bool) (a b : string) :
  forall_str p a = true ->
  match b with String c _ => p c = false | EmptyString => True end ->
  span p (a +++ b) = (a, b).
Proof.
  intros Ha Hb. induction a as [|x a IH]; cbn [String.append].
  - destruct b as [|c b]; cbn [span]; [reflexivity | now rewrite Hb].
  - cbn [forall_str] in Ha. apply andb_true_iff in Ha. destruct Ha as [Hx Ha].
    cbn [span]. now rewrite Hx, (IH Ha).
Qed.

Lemma forall_str_no (p : ascii -> bool) (c : ascii) (s : string) :
  p c = false -> forall_str p s = true -> contains_char c s = false.
Proof.
  intros Hc. induction s as [|x s IH]; [reflexivity|].
  cbn [forall_str]. intros H. apply andb_true_iff in H. destruct H as [Hx Hs].
  unfold contains_char in *. cbn [exists_str]. rewrite (IH Hs), orb_false_r.
  destruct (Ascii.eqb c x) eqn:E; [|reflexivity].
  apply Ascii.eqb_eq in E. congruence.
Qed.



Lemma rev_str_append (acc s : string) : rev_str acc s = reverse s +++ acc.
Proof.
  unfold reverse. revert acc. induction s as [|c s IH]; intros acc; cbn [rev_str].
  - reflexivity.
  - rewrite (IH (String c acc)), (IH (String c "")), append_assoc. reflexivity.
Qed.

Lemma reverse_append (a b : string) : reverse (a +++ b) = reverse b +++ reverse a.
Proof.
  induction a as [|x a IH]; cbn [String.append].
  - cbn. now rewrite append_nil_r.
  - unfold reverse at 1 3. cbn [rev_str]. rewrite !rev_str_append, IH.
    now rewrite append_assoc.
Qed.










End UploadFacts.
Section UploadTheorems.
Import PyStr.



End UploadTheorems.


Section FolderFacts.
Import PyStr.







End FolderFacts.


(** ** The two validators on plain numerals *)

Section NumeralFacts.
Import PyStr.

Lemma reverse_involutive (s : string) : reverse (reverse s) = s.
Proof.
  induction s as [|c s IH]; [reflexivity|].
  change (String c s) with (String c "" +++ s).
  rewrite reverse_append, reverse_append, IH. reflexivity.
Qed.

Lemma forall_str_append (p : ascii -> bool) (a b : string) :
  forall_str p (a +++ b) = forall_str p a && forall_str p b.
Proof.
  induction a as [|x a IH]; cbn [String.append forall_str]; [reflexivity|].
  now rewrite IH, andb_assoc.
Qed.

Lemma forall_str_reverse (p : ascii -> bool) (s : string) :
  forall_str p (reverse s) = forall_str p s.
Proof.
  induction s as [|c s IH]; [reflexivity|].
  change (String c s) with (String c "" +++ s).
  rewrite reverse_append, !forall_str_append, IH. cbn. now rewrite andb_comm.
Qed.

Lemma forall_str_impl (p q : ascii -> bool) (s : string) :
  (forall c, p c = true -> q c = true) ->
  forall_str p s = true -> forall_str q s = true.
Proof.
  intros H. induction s as [|c s IH]; cbn [forall_str]; [reflexivity|].
  intros Hs. apply andb_true_iff in Hs. destruct Hs as [Hc Hs].
  now rewrite (H c Hc), (IH Hs).
Qed.

Lemma lstrip_no_space (s : string) :
  forall_str (fun c => negb (is_space c)) s = true -> lstrip s = s.
Proof.
  destruct s as [|c s]; cbn [forall_str lstrip]; [reflexivity|].
  intros H. apply andb_true_iff in H. destruct H as [Hc _].
  apply negb_true_iff in Hc. now rewrite Hc.
Qed.

(** Text without white space is its own [strip]. *)
Lemma strip_no_space (s : string) :
  forall_str (fun c => negb (is_space c)) s = true -> strip s = s.
Proof.
  intros H. unfold strip. rewrite (lstrip_no_space s H).
  rewrite lstrip_no_space by (now rewrite forall_str_reverse).
  apply reverse_involutive.
Qed.

Lemma replace_char_absent (c : ascii) (new s : string) :
  contains_char c s = false -> replace s (String c "") new = s.
Proof.
  unfold replace, contains_char.
  induction s as [|x s IH]; cbn [exists_str replace_from]; [reflexivity|].
  intros H. apply orb_false_iff in H. destruct H as [Hx Hs].
  cbn [prefix]. destruct (ascii_dec c x) as [->|Hne].
  - now rewrite Ascii.eqb_refl in Hx.
  - now rewrite (IH Hs).
Qed.

Lemma digit_not_space (c : ascii) : is_digit c = true -> negb (is_space c) = true.
Proof.
  unfold is_digit, is_space. intros H. apply andb_true_iff in H. destruct H as [H1 H2].
  apply Nat.leb_le in H1, H2. apply negb_true_iff.
  repeat match goal with
         | |- context [?a <=? ?b] => destruct (Nat.leb_spec a b)
         | |- context [?a =? ?b] => destruct (Nat.eqb_spec a b)
         end; try reflexivity; lia.
Qed.

Lemma digit_val_le (c : ascii) : is_digit c = true -> digit_val c <= 9.
Proof.
  unfold is_digit, digit_val. intros H. apply andb_true_iff in H. destruct H as [H1 H2].
  apply Nat.leb_le in H1, H2. lia.
Qed.

Lemma take_digits_all (a b : string) :
  forall_str is_digit a = true ->
  match b with String c _ => is_digit c = false | EmptyString => True end ->
  PyNum.take_digits (a +++ b) = (a, b).
Proof.
  intros Ha Hb. induction a as [|x a IH]; cbn [String.append].
  - destruct b as [|c b]; cbn [PyNum.take_digits]; [reflexivity | now rewrite Hb].
  - cbn [forall_str] in Ha. apply andb_true_iff in Ha. destruct Ha as [Hx Ha].
    cbn [PyNum.take_digits]. now rewrite Hx, (IH Ha).
Qed.

Lemma digitpart_tail_all (s : string) :
  forall_str is_digit s = true -> PyNum.digitpart_tail s = (s, "").
Proof.
  induction s as [|c s IH]; cbn [forall_str PyNum.digitpart_tail]; [reflexivity|].
  intros H. apply andb_true_iff in H. destruct H as [Hc Hs].
  now rewrite Hc, (IH Hs).
Qed.

Lemma digits_value_bound (s : string) :
  forall_str is_digit s = true ->
  forall acc,
    (PyNum.digits_value acc s < (acc + 1) * 10 ^ N.of_nat (String.length s))%N.
Proof.
  induction s as [|c s IH]; cbn [forall_str PyNum.digits_value String.length]; intros H acc.
  - cbn. lia.
  - apply andb_true_iff in H. destruct H as [Hc Hs].
    specialize (IH Hs (10 * acc + N.of_nat (digit_val c))%N).
    pose proof (digit_val_le c Hc) as Hd.
    replace (N.of_nat (S (String.length s))) with (N.succ (N.of_nat (String.length s)))
      by lia.
    rewrite N.pow_succ_r'.
    assert (N.of_nat (digit_val c) <= 9)%N by lia.
    set (P := (10 ^ N.of_nat (String.length s))%N) in *.
    nia.
Qed.

Lemma round_half_even_1 (a : Z) : PyNum.round_half_even a 1 = a.
Proof.
  unfold PyNum.round_half_even. now rewrite Z.mod_1_r, Z.div_1_r.
Qed.

(** An integer below [2^53] is a binary64 number, and [int] gives it
    back. *)
Lemma binary64_of_int (p : Z) :
  (0 < p < 2 ^ 53)%Z ->
  PyNum.int_of_float (PyNum.binary64_of_ratio false p 1) = Return p.
Proof.
  intros [Hp Hlt].
  assert (HL : (0 <= Z.log2 p < 53)%Z)
    by (split; [apply Z.log2_nonneg | now apply Z.log2_lt_pow2]).
  assert (Hpow : (2 ^ Z.log2 p <= p)%Z) by (apply Z.log2_spec; lia).
  unfold PyNum.binary64_of_ratio. cbv zeta.
  replace (p =? 0)%Z with false by (symmetry; apply Z.eqb_neq; lia).
  change (Z.log2 1) with 0%Z. rewrite Z.sub_0_r.
  set (e0 := (Z.log2 p - 52)%Z).
  assert (Hbig : (2 ^ 52 <= p * 2 ^ (- e0))%Z).
  { replace (2 ^ 52)%Z with (2 ^ Z.log2 p * 2 ^ (- e0))%Z.
    - apply Z.mul_le_mono_nonneg_r; [apply Z.pow_nonneg; lia | exact Hpow].
    - rewrite <- Z.pow_add_r by (unfold e0; lia). f_equal. unfold e0. lia. }
  destruct (Z.leb_spec 0 e0) as [He|He].
  - assert (E : e0 = 0%Z) by (unfold e0 in *; lia). rewrite E in *.
    change (2 ^ 0)%Z with 1%Z in *. change (- 0)%Z with 0%Z in *.
    change (2 ^ 0)%Z with 1%Z in *.
    rewrite Z.mul_1_r in *. rewrite Z.div_1_r.
    replace (p <? 2 ^ 52)%Z with false by (symmetry; apply Z.ltb_ge; exact Hbig).
    cbn [Z.max Z.compare Z.leb]. rewrite round_half_even_1.
    cbn [PyNum.int_of_float Z.ltb Z.eqb Z.compare orb andb Z.leb].
    now rewrite Z.mul_1_r.
  - rewrite Z.div_1_r.
    replace (p * 2 ^ (- e0) <? 2 ^ 52)%Z with false by (symmetry; apply Z.ltb_ge; exact Hbig).
    rewrite Z.max_l by (unfold e0; lia).
    replace (0 <=? e0)%Z with false by (symmetry; apply Z.leb_gt; exact He).
    rewrite round_half_even_1.
    replace (971 <? e0)%Z with false by (symmetry; apply Z.ltb_ge; lia).
    replace (e0 =? 971)%Z with false by (symmetry; apply Z.eqb_neq; lia).
    cbn [orb andb PyNum.int_of_float].
    replace (0 <=? e0)%Z with false by (symmetry; apply Z.leb_gt; exact He).
    rewrite Z.quot_mul; [reflexivity|].
    apply Z.pow_nonzero; [lia | unfold e0; lia].
Qed.

Lemma is_blank_no_space (s : string) :
  1 <= String.length s ->
  forall_str (fun c => negb (is_space c)) s = true ->
  is_blank s = false /\ strip s = s.
Proof.
  intros Hl Hs. rewrite (strip_no_space s Hs). split; [|reflexivity].
  unfold is_blank. rewrite (strip_no_space s Hs).
  destruct s; [cbn in Hl; lia | reflexivity].
Qed.

End NumeralFacts.

(** X12.  [validate_integer] reads a count of up to fifteen digits
    exactly: for a cell of one to fifteen decimal digits it returns the
    number the digits denote and appends no warning, although the value
    goes through [float]. *)
Theorem validate_integer_exact (value field_name : string) (w : World) :
  1 <= String.length value <= 15 ->
  PyStr.forall_str PyStr.is_digit value = true ->
  validate_integer value field_name w
  = (Return (Some (Z.of_N (PyNum.int_of_digits value))), w).
Proof.
  intros [Hl1 Hl2] Hd.
  assert (Hs : PyStr.forall_str (fun c => negb (PyStr.is_space c)) value = true)
    by (apply (forall_str_impl PyStr.is_digit); [apply digit_not_space | exact Hd]).
  destruct (is_blank_no_space value Hl1 Hs) as [Hb Hstrip].
  assert (Hpy : py_int_float value = Return (Z.of_N (PyNum.int_of_digits value))).
  { unfold py_int_float, py_float, PyNum.parse_float. rewrite Hstrip.
    destruct value as [|c r]; [cbn in Hl1; lia|].
    pose proof Hd as Hd'. cbn [PyStr.forall_str] in Hd'.
    apply andb_true_iff in Hd'. destruct Hd' as [Hc _].
    assert (Hsign : PyNum.take_sign (String c r) = (false, String c r)).
    { unfold PyNum.take_sign.
      destruct (Ascii.eqb c "-") eqn:E1;
        [apply Ascii.eqb_eq in E1; subst c; discriminate Hc|].
      destruct (Ascii.eqb c "+") eqn:E2;
        [apply Ascii.eqb_eq in E2; subst c; discriminate Hc|].
      reflexivity. }
    rewrite Hsign, Hc. cbn [orb].
    unfold PyNum.float_number, PyNum.take_digitpart. rewrite Hc.
    rewrite (digitpart_tail_all _ Hd), append_nil_r.
    cbn [PyNum.float_exponent].
    unfold PyNum.float_of_decimal, PyNum.strlen.
    set (v := String c r) in *.
    pose proof (digits_value_bound v Hd 0%N) as Hbound.
    fold (PyNum.int_of_digits v) in Hbound.
    assert (Hpow : (10 ^ N.of_nat (String.length v) <= 10 ^ 15)%N)
      by (apply N.pow_le_mono_r; lia).
    assert (H53 : (10 ^ 15 < 2 ^ 53)%N) by reflexivity.
    destruct (N.eqb_spec (PyNum.int_of_digits v) 0) as [E0 | Hne].
    - rewrite E0. reflexivity.
    - replace (400 <? Z.of_nat (String.length v) + (0 - Z.of_nat (String.length ""%string)))%Z
        with false by (symmetry; apply Z.ltb_ge; cbn [String.length]; lia).
      replace (Z.of_nat (String.length v) + (0 - Z.of_nat (String.length ""%string)) <? -400)%Z
        with false by (symmetry; apply Z.ltb_ge; cbn [String.length]; lia).
      cbn [String.length Z.of_nat Z.sub Z.opp Z.leb Z.compare Z.add].
      change (10 ^ 0)%Z with 1%Z. rewrite Z.mul_1_r.
      apply binary64_of_int. change (2 ^ 53)%Z with (Z.of_N (2 ^ 53)). lia. }
  unfold validate_integer. rewrite Hb. unfold try_except, bind, lift.
  rewrite Hstrip, Hpy. reflexivity.
Qed.

Lemma validate_integer_exact_witness :
  validate_integer "1000000" "number_of_shares" fresh_world
  = (Return (Some 1000000%Z), fresh_world).
Proof.
  assert (Hl : 1 <= String.length "1000000" <= 15) by (cbn; lia).
  exact (validate_integer_exact "1000000" "number_of_shares" fresh_world Hl eq_refl).
Defined.

(** X13.  [validate_decimal] reads a price as it is written: for a
    cell made of digits, a point and digits it returns the decimal whose
    coefficient is all the digits and whose exponent is minus the number
    of digits after the point, and for a cell of digits alone the integer
    with exponent zero; no warning is appended and nothing is rounded. *)
Theorem validate_decimal_exact (int_part frac_part field_name : string) (w : World) :
  1 <= String.length int_part ->
  PyStr.forall_str PyStr.is_digit int_part = true ->
  PyStr.forall_str PyStr.is_digit frac_part = true ->
  validate_decimal (int_part +++ "." +++ frac_part) field_name w
  = (Return (Some (DFinite false (PyNum.int_of_digits (int_part +++ frac_part))
                     (- Z.of_nat (String.length frac_part)))), w)
  /\ validate_decimal int_part field_name w
     = (Return (Some (DFinite false (PyNum.int_of_digits int_part) 0)), w).
Proof.
  intros Hl Hi Hf.
  assert (Hparse : forall s rest,
            s = int_part +++ rest ->
            PyStr.forall_str (fun c => negb (PyStr.is_space c)) s = true ->
            PyStr.contains_char "_" s = false ->
            PyNum.parse_decimal s = PyNum.decimal_number false s).
  { intros s rest -> Hs Hu. unfold PyNum.parse_decimal.
    rewrite (strip_no_space _ Hs), (replace_char_absent "_" "" _ Hu).
    destruct int_part as [|c r]; [cbn in Hl; lia|].
    cbn [PyStr.forall_str] in Hi. apply andb_true_iff in Hi. destruct Hi as [Hc _].
    cbn [String.append]. unfold PyNum.take_sign.
    destruct (Ascii.eqb c "-") eqn:E1;
      [apply Ascii.eqb_eq in E1; subst c; discriminate Hc|].
    destruct (Ascii.eqb c "+") eqn:E2;
      [apply Ascii.eqb_eq in E2; subst c; discriminate Hc|].
    now rewrite Hc. }
  assert (Hsp : forall s, PyStr.forall_str PyStr.is_digit s = true ->
                          PyStr.forall_str (fun c => negb (PyStr.is_space c)) s = true)
    by (intros s; apply forall_str_impl, digit_not_space).
  assert (Hus : forall s, PyStr.forall_str PyStr.is_digit s = true ->
                          PyStr.contains_char "_" s = false)
    by (intros s; now apply forall_str_no).
  split.
  - set (s := int_part +++ "." +++ frac_part).
    assert (Hs : PyStr.forall_str (fun c => negb (PyStr.is_space c)) s = true).
    { unfold s. rewrite !forall_str_append, (Hsp _ Hi), (Hsp _ Hf). reflexivity. }
    assert (Hu : PyStr.contains_char "_" s = false).
    { unfold s, PyStr.contains_char. clear - Hi Hf Hus.
      pose proof (Hus _ Hi) as H1. pose proof (Hus _ Hf) as H2.
      unfold PyStr.contains_char in *.
      induction int_part as [|c r IH]; cbn [String.append PyStr.exists_str] in *.
      - exact H2.
      - cbn [PyStr.forall_str] in Hi. apply andb_true_iff in Hi. destruct Hi as [_ Hi].
        apply orb_false_iff in H1. destruct H1 as [-> H1]. now apply IH. }
    assert (Hlen : 1 <= String.length s) by (unfold s; rewrite length_append; lia).
    destruct (is_blank_no_space s Hlen Hs) as [Hb Hstrip].
    unfold validate_decimal. rewrite Hb. unfold try_except, bind, lift, py_Decimal.
    rewrite Hstrip, (Hparse s _ eq_refl Hs Hu).
    unfold PyNum.decimal_number, s.
    rewrite (take_digits_all int_part ("." +++ frac_part) Hi eq_refl).
    cbn [String.append Ascii.eqb Bool.eqb].
    replace frac_part with (frac_part +++ "") at 1 by apply append_nil_r.
    rewrite (take_digits_all frac_part "" Hf I).
    destruct (int_part +++ frac_part) eqn:E.
    + destruct int_part; [cbn in Hl; lia | discriminate E].
    + cbn [PyNum.decimal_exponent]. unfold PyNum.strlen. reflexivity.
  - assert (Hs : PyStr.forall_str (fun c => negb (PyStr.is_space c)) int_part = true)
      by (now apply Hsp).
    destruct (is_blank_no_space int_part Hl Hs) as [Hb Hstrip].
    unfold validate_decimal. rewrite Hb. unfold try_except, bind, lift, py_Decimal.
    rewrite Hstrip, (Hparse int_part "" (eq_sym (append_nil_r _)) Hs (Hus _ Hi)).
    unfold PyNum.decimal_number.
    replace int_part with (int_part +++ "") at 1 by apply append_nil_r.
    rewrite (take_digits_all int_part "" Hi I). rewrite append_nil_r.
    destruct int_part eqn:E; [cbn in Hl; lia|].
    cbn [PyNum.decimal_exponent]. unfold PyNum.strlen. reflexivity.
Qed.

Lemma validate_decimal_exact_witness :
  validate_decimal "2450.00" "OPEN" fresh_world
  = (Return (Some (DFinite false 245000 (-2))), fresh_world).
Proof.
  assert (Hl : 1 <= String.length "2450") by (cbn; lia).
  exact (proj1 (validate_decimal_exact "2450" "00" "OPEN" fresh_world Hl eq_refl eq_refl)).
Defined.
(** ** Cells of a row *)

Section CellFacts.

Lemma make_row_other (fieldnames : list string) :
  forall (record : list string) (d : Row) (k : string),
    ~ In k fieldnames ->
    dict_get (make_row fieldnames record d) k = dict_get d k.
Proof.
  induction fieldnames as [|f fs IH]; intros record d k Hk; [reflexivity|].
  assert (Hf : k <> f) by (intros ->; apply Hk; now left).
  assert (Hfs : ~ In k fs) by (intros H; apply Hk; now right).
  destruct record as [|c cs]; cbn [make_row]; rewrite (IH _ _ _ Hfs);
    now apply dict_get_set_other.
Qed.

(** The cell of a row under a column of the header is the cell of the
    record at the place of the column, or [None] when the record ends
    before it. *)
Lemma make_row_lookup (fieldnames : list string) :
  forall (record : list string) (d : Row) (i : nat) (k : string),
    NoDup fieldnames ->
    nth_error fieldnames i = Some k ->
    dict_get (make_row fieldnames record d) k = Some (nth_error record i).
Proof.
  induction fieldnames as [|f fs IH]; intros record d i k Hnd Hi.
  - destruct i; discriminate Hi.
  - inversion Hnd as [|x l Hnot Hnd']; subst.
    destruct i as [|i].
    + cbn in Hi. injection Hi as ->.
      destruct record as [|c cs]; cbn [make_row nth_error];
        rewrite (make_row_other _ _ _ _ Hnot); apply dict_get_set_same.
    + cbn [nth_error] in Hi.
      destruct record as [|c cs]; cbn [make_row nth_error].
      * rewrite (IH [] _ i k Hnd' Hi). now destruct i.
      * exact (IH cs _ i k Hnd' Hi).
Qed.

End CellFacts.

(** X14.  The value that [_process_row] reads for a database field.
    With a header free of repetitions, the value of a field whose column
    is the [i]-th of the header is the [i]-th cell of the record with the
    white space around it stripped; when the record ends before that cell
    the read raises [AttributeError], and when the column is not in the
    header at all the value is the empty string. *)
Theorem mapped_cell_lookup (header record : list string) (csv_columns : Mapping)
  (db_field column : string) :
  NoDup header ->
  mapped_column csv_columns db_field = Some column ->
  1 <= String.length column ->
  (forall i,
      nth_error header i = Some column ->
      get_mapped_value (make_row header record []) csv_columns db_field
      = match nth_error record i with
        | Some cell => Return (PyStr.strip cell)
        | None => Raise (AttributeError "'NoneType' object has no attribute 'strip'")
        end)
  /\ (~ In column header ->
      get_mapped_value (make_row header record []) csv_columns db_field = Return "").
Proof.
  intros Hnd Hm Hl. apply truthy_length in Hl. split.
  - intros i Hi. unfold get_mapped_value. rewrite Hm, Hl.
    rewrite (make_row_lookup header record [] i column Hnd Hi).
    now destruct (nth_error record i).
  - intros Hout. unfold get_mapped_value. rewrite Hm, Hl.
    rewrite (make_row_other header record [] column Hout). reflexivity.
Qed.

Lemma mapped_cell_lookup_witness :
  get_mapped_value
    (make_row BSE_HEADER ["500325"; " RELIANCE "; "A"] []) BSE_MAPPING "stock_name"
  = Return "RELIANCE"
  /\ get_mapped_value
       (make_row BSE_HEADER ["500325"; " RELIANCE "; "A"] []) BSE_MAPPING "open_price"
     = Raise (AttributeError "'NoneType' object has no attribute 'strip'").
Proof.
  assert (Hnd : NoDup BSE_HEADER).
  { unfold BSE_HEADER.
    repeat (constructor;
            [cbn [In]; intros H;
             repeat (destruct H as [H | H]; [discriminate H|]); exact H|]).
    constructor. }
  assert (Hl : forall c : string, c = "SC_NAME" \/ c = "OPEN" -> 1 <= String.length c)
    by (intros c [-> | ->]; cbn; lia).
  split.
  - exact (proj1 (mapped_cell_lookup BSE_HEADER ["500325"; " RELIANCE "; "A"] BSE_MAPPING
                    "stock_name" "SC_NAME" Hnd eq_refl (Hl _ (or_introl eq_refl)))
             1 eq_refl).
  - exact (proj1 (mapped_cell_lookup BSE_HEADER ["500325"; " RELIANCE "; "A"] BSE_MAPPING
                    "open_price" "OPEN" Hnd eq_refl (Hl _ (or_intror eq_refl)))
             4 eq_refl).
Defined.


(** ** The row numbers of the error lines *)

Section NumberFacts.




End NumberFacts.



(** X17.  What [parse_filename] can give.  A result is a date of the
    calendar with an exchange that is registered, has no lower-case letter
    and has one to ten characters; an exception is a [ValueError] whose
    message is [Error parsing filename '<filename>': ] followed by the
    reason. *)
Theorem parse_filename_result_shape (reg : Registry) (filename : string) :
  match parse_filename reg filename with
  | Return (d, e) =>
      valid_date (year d) (month d) (day d) = true
      /\ In e (get_supported_exchanges reg)
      /\ PyStr.forall_str (fun c => negb (PyStr.is_lower c)) e = true
      /\ 1 <= String.length e <= 10
  | Raise x =>
      exists reason,
        x = ValueError ("Error parsing filename '" +++ filename +++ "': " +++ reason)
  end.
Proof.
  destruct (parse_filename reg filename) as [[d e]|x] eqn:H.
  - destruct (parse_filename_returns reg filename d e H)
      as (_ & ds & ex & _ & _ & Hd & Hl & -> & Hin).
    split; [|split; [exact Hin|split]].
    + unfold Strptime.strptime_Ymd in Hd.
      destruct (Strptime.re_match ds) as [[[[y m] dd] r]|]; [|discriminate].
      destruct r; [|discriminate].
      destruct (valid_date y m dd) eqn:E; [|discriminate].
      injection Hd as <-. exact E.
    + clear. unfold PyStr.upper.
      induction ex as [|c ex IH]; cbn [PyStr.map_str PyStr.forall_str]; [reflexivity|].
      rewrite IH, andb_true_r.
      destruct c as [[] [] [] [] [] [] [] []]; reflexivity.
    + now rewrite length_upper.
  - unfold parse_filename in H.
    destruct (parse_filename_body reg filename); [discriminate|].
    injection H as <-. now eexists.
Qed.
(** ** The manual-entry forms *)

Section SymbolFacts.
Import PyStr.

Lemma replace_char_cons (c x : ascii) (s : string) :
  replace (String x s) (String c "") ""
  = if Ascii.eqb c x then replace s (String c "") ""
    else String x (replace s (String c "") "").
Proof.
  unfold replace. cbn [replace_from prefix String.length Nat.sub].
  destruct (Ascii.eqb_spec c x) as [->|Hne].
  - destruct (ascii_dec x x) as [_|H]; [|contradiction].
    destruct s; reflexivity.
  - destruct (ascii_dec c x) as [H|_]; [contradiction | reflexivity].
Qed.

Lemma forall_str_replace_char (p : ascii -> bool) (c : ascii) (s : string) :
  forall_str p (replace s (String c "") "")
  = forall_str (fun x => p x || Ascii.eqb c x) s.
Proof.
  induction s as [|x s IH]; [reflexivity|].
  rewrite replace_char_cons. cbn [forall_str].
  destruct (Ascii.eqb c x); cbn [forall_str]; rewrite IH.
  - now rewrite orb_true_r.
  - now rewrite orb_false_r.
Qed.

Lemma exists_str_replace_char (q : ascii -> bool) (c : ascii) (s : string) :
  q c = false ->
  exists_str q (replace s (String c "") "") = exists_str q s.
Proof.
  intros Hc. induction s as [|x s IH]; [reflexivity|].
  rewrite replace_char_cons. cbn [exists_str].
  destruct (Ascii.eqb_spec c x) as [<-|_]; cbn [exists_str]; rewrite IH.
  - now rewrite Hc.
  - reflexivity.
Qed.

Lemma forall_str_ext (p q : ascii -> bool) (s : string) :
  (forall c, p c = q c) -> forall_str p s = forall_str q s.
Proof.
  intros H. induction s as [|x s IH]; cbn [forall_str]; [reflexivity|].
  now rewrite H, IH.
Qed.

Lemma isalnum_spec (s : string) :
  StockForm.isalnum s = forall_str alnum_char s && exists_str alnum_char s.
Proof.
  unfold StockForm.isalnum. fold alnum_char.
  destruct s as [|c s]; [reflexivity|].
  cbn [truthy forall_str exists_str andb].
  destruct (alnum_char c); cbn [andb orb]; [now rewrite andb_true_r | reflexivity].
Qed.

(** The test of [clean_stock_symbol], on the symbol itself. *)
Lemma symbol_test (s : string) :
  StockForm.isalnum (replace (replace (replace s "&" "") "-" "") "." "")
  = forall_str symbol_char s && exists_str alnum_char s.
Proof.
  rewrite isalnum_spec, !forall_str_replace_char.
  rewrite !exists_str_replace_char by reflexivity.
  f_equal. apply forall_str_ext. intros c. unfold symbol_char, alnum_char.
  rewrite (Ascii.eqb_sym "." c), (Ascii.eqb_sym "-" c), (Ascii.eqb_sym "&" c).
  destruct (is_alpha c || is_digit c), (Ascii.eqb c "&"), (Ascii.eqb c "-"),
    (Ascii.eqb c "."); reflexivity.
Qed.

Lemma upper_no_lower (s : string) :
  forall_str (fun c => negb (is_lower c)) (upper s) = true.
Proof.
  unfold upper. induction s as [|c s IH]; cbn [map_str forall_str]; [reflexivity|].
  rewrite IH, andb_true_r.
  destruct c as [[] [] [] [] [] [] [] []]; reflexivity.
Qed.

Lemma upper_fixed (s : string) :
  forall_str (fun c => negb (is_lower c)) s = true -> upper s = s.
Proof.
  unfold upper. induction s as [|c s IH]; cbn [map_str forall_str]; [reflexivity|].
  intros H. apply andb_true_iff in H. destruct H as [Hc Hs].
  rewrite (IH Hs). unfold upper_char. apply negb_true_iff in Hc. now rewrite Hc.
Qed.

Lemma forall_str_lstrip (p : ascii -> bool) (s : string) :
  forall_str p s = true -> forall_str p (lstrip s) = true.
Proof.
  induction s as [|c s IH]; cbn [lstrip forall_str]; [reflexivity|].
  intros H. destruct (is_space c); [|exact H].
  apply andb_true_iff in H. now apply IH.
Qed.

Lemma forall_str_strip (p : ascii -> bool) (s : string) :
  forall_str p s = true -> forall_str p (strip s) = true.
Proof.
  intros H. unfold strip. rewrite forall_str_reverse. apply forall_str_lstrip.
  rewrite forall_str_reverse. now apply forall_str_lstrip.
Qed.

Lemma symbol_char_not_space (c : ascii) :
  symbol_char c = true -> negb (is_space c) = true.
Proof.
  destruct c as [[] [] [] [] [] [] [] []]; vm_compute; intros H;
    first [reflexivity | discriminate H].
Qed.

End SymbolFacts.

(** X18.  [StockForm.clean_stock_symbol] on a symbol that is not empty.
    The symbol is put in upper case and stripped; it is returned when it is
    made of letters, digits and the signs [&], [-], [.] and has at least
    one letter or digit, and [ValidationError] is raised otherwise (so for
    a symbol with a space inside, and for one made of signs alone).  What
    is returned has no lower-case letter, and cleaning it again returns it
    as it is. *)
Theorem clean_stock_symbol_characterised (symbol : string) :
  1 <= String.length symbol ->
  let cleaned := PyStr.strip (PyStr.upper symbol) in
  StockForm.clean_stock_symbol (Some symbol)
  = (if PyStr.forall_str symbol_char cleaned && PyStr.exists_str alnum_char cleaned
     then Return (Some cleaned)
     else Raise (ValidationError
                   "Stock symbol can only contain letters, numbers, &, -, and ."))
  /\ PyStr.forall_str (fun c => negb (PyStr.is_lower c)) cleaned = true
  /\ (StockForm.clean_stock_symbol (Some symbol) = Return (Some cleaned) ->
      StockForm.clean_stock_symbol (Some cleaned) = Return (Some cleaned)).
Proof.
  intros Hl cleaned.
  assert (Hrun : forall s, 1 <= String.length s ->
            StockForm.clean_stock_symbol (Some s)
            = (if PyStr.forall_str symbol_char (PyStr.strip (PyStr.upper s))
                  && PyStr.exists_str alnum_char (PyStr.strip (PyStr.upper s))
               then Return (Some (PyStr.strip (PyStr.upper s)))
               else Raise (ValidationError
                             "Stock symbol can only contain letters, numbers, &, -, and ."))).
  { intros s Hs. unfold StockForm.clean_stock_symbol.
    apply truthy_length in Hs. rewrite Hs. cbv zeta. rewrite symbol_test.
    now destruct (_ && _). }
  assert (Hlow : PyStr.forall_str (fun c => negb (PyStr.is_lower c)) cleaned = true)
    by (apply forall_str_strip, upper_no_lower).
  split; [exact (Hrun symbol Hl)|]. split; [exact Hlow|].
  rewrite (Hrun symbol Hl). fold cleaned.
  destruct (PyStr.forall_str symbol_char cleaned) eqn:Hc; [|discriminate].
  destruct (PyStr.exists_str alnum_char cleaned) eqn:He; [|discriminate].
  intros _.
  assert (Hfix : PyStr.strip (PyStr.upper cleaned) = cleaned).
  { rewrite (upper_fixed _ Hlow). apply strip_no_space.
    apply (forall_str_impl symbol_char); [apply symbol_char_not_space | exact Hc]. }
  assert (Hlen : 1 <= String.length cleaned).
  { destruct cleaned; [discriminate He | cbn; lia]. }
  rewrite (Hrun cleaned Hlen), Hfix, Hc, He. reflexivity.
Qed.

Lemma clean_stock_symbol_characterised_witness :
  StockForm.clean_stock_symbol (Some " m&m ") = Return (Some "M&M")
  /\ StockForm.clean_stock_symbol (Some "M&M") = Return (Some "M&M")
  /\ StockForm.clean_stock_symbol (Some "tata motors")
     = Raise (ValidationError
                "Stock symbol can only contain letters, numbers, &, -, and .")
  /\ StockForm.clean_stock_symbol (Some "&-.")
     = Raise (ValidationError
                "Stock symbol can only contain letters, numbers, &, -, and .").
Proof.
  assert (Hl : 1 <= String.length " m&m ") by (cbn; lia).
  destruct (clean_stock_symbol_characterised " m&m " Hl) as (H1 & _ & H3).
  split; [exact H1|]. split; [exact (H3 H1)|]. split; reflexivity.
Defined.

Section EditFacts.

Lemma NoDup_map_eq {A B : Type} (f : A -> B) (l : list A) (a b : A) :
  NoDup (map f l) -> In a l -> In b l -> f a = f b -> a = b.
Proof.
  induction l as [|x l IH]; cbn [map In]; [contradiction|].
  intros Hnd Ha Hb E. inversion Hnd as [|y ys Hnot Hnd']; subst.
  destruct Ha as [-> | Ha], Hb as [-> | Hb].
  - reflexivity.
  - exfalso. apply Hnot. rewrite E. now apply in_map.
  - exfalso. apply Hnot. rewrite <- E. now apply in_map.
  - now apply IH.
Qed.

Lemma filter_nil {A : Type} (p : A -> bool) (l : list A) :
  (forall x, In x l -> p x = false) -> filter p l = [].
Proof.
  intros H. induction l as [|x l IH]; [reflexivity|].
  cbn [filter]. rewrite (H x (or_introl eq_refl)). apply IH.
  intros y Hy. apply H. now right.
Qed.

Lemma date_eqb_eq (a b : Date) : date_eqb a b = true -> a = b.
Proof.
  unfold date_eqb. intros H. apply andb_true_iff in H. destruct H as [H H3].
  apply andb_true_iff in H. destruct H as [H1 H2].
  apply Nat.eqb_eq in H1, H2, H3. destruct a, b. cbn in *. congruence.
Qed.

Lemma datetime_eqb_eq (a b : DateTime) : datetime_eqb a b = true -> a = b.
Proof.
  unfold datetime_eqb. intros H. apply andb_true_iff in H. destruct H as [H H4].
  apply andb_true_iff in H. destruct H as [H H3].
  apply andb_true_iff in H. destruct H as [H1 H2].
  apply date_eqb_eq in H1. apply Nat.eqb_eq in H2, H3, H4.
  destruct a, b. cbn in *. congruence.
Qed.

End EditFacts.

(** X19.  The forms let a row be saved over itself.  In tables that
    respect their unique keys, [CandlestickForm.clean] finds no duplicate
    when a candlestick is edited with its own stock and date, and
    [StockForm.clean] returns the data when a stock is edited with its own
    symbol and exchange: the only row under the key is the instance, which
    the check leaves out. *)
Theorem edit_forms_accept_own_row (d : Database) :
  consistent d ->
  (forall k s cd,
      In k (candlesticks d) ->
      1 <= candle_id k ->
      stock_id s = stock k ->
      CandlestickForm.cd_stock cd = Some s ->
      CandlestickForm.cd_candle_date cd = Some (candle_date k) ->
      CandlestickForm.clean_duplicate (Some (candle_id k)) cd d = Return tt)
  /\ (forall s,
         In s (stocks d) ->
         1 <= stock_id s ->
         let cd := StockForm.mkCleanedData (Some (stock_symbol s))
                     (Some (stock_exchange s)) in
         StockForm.clean (Some (stock_id s)) cd d = Return cd).
Proof.
  intros (Ksk & Kck & _ & _ & _). split.
  - intros k s cd Hk _ Hs Hcs Hcd. unfold CandlestickForm.clean_duplicate.
    rewrite Hcs, Hcd. rewrite filter_nil; [reflexivity|].
    intros x Hx. apply filter_In in Hx. destruct Hx as [Hx Hp].
    apply andb_true_iff in Hp. destruct Hp as [H1 H2].
    apply Nat.eqb_eq in H1. apply datetime_eqb_eq in H2.
    assert (E : x = k).
    { apply (NoDup_map_eq candle_key (candlesticks d)); try assumption.
      unfold candle_key. congruence. }
    subst x. now rewrite Nat.eqb_refl.
  - intros s Hs Hid cd. unfold StockForm.clean, cd.
    cbn [StockForm.cd_stock_symbol StockForm.cd_stock_exchange].
    destruct (PyStr.truthy (stock_symbol s) && PyStr.truthy (stock_exchange s));
      [|reflexivity].
    destruct (stock_id s) as [|pk] eqn:E; [lia|].
    rewrite filter_nil; [reflexivity|].
    intros x Hx. apply filter_In in Hx. destruct Hx as [Hx Hp].
    apply andb_true_iff in Hp. destruct Hp as [H1 H2].
    apply String.eqb_eq in H1, H2.
    assert (Ex : x = s).
    { apply (NoDup_map_eq stock_key (stocks d)); try assumption.
      unfold stock_key. congruence. }
    subst x. now rewrite E, Nat.eqb_refl.
Qed.

Lemma edit_forms_accept_own_row_witness :
  let d := db (snd (process_csv_file default_registry "20250101_BSE.csv" sample_bse_file
                      fresh_world)) in
  consistent d
  /\ exists s,
       In s (stocks d)
       /\ stock_symbol s = "500325"
       /\ StockForm.clean (Some (stock_id s))
            (StockForm.mkCleanedData (Some "500325") (Some "BSE")) d
          = Return (StockForm.mkCleanedData (Some "500325") (Some "BSE"))
       /\ StockForm.clean None
            (StockForm.mkCleanedData (Some "500325") (Some "BSE")) d
          = Raise (ValidationError "Stock 500325 already exists on BSE exchange.").
Proof.
  intros d.
  assert (H0 : consistent (db fresh_world)).
  { unfold consistent. cbn. repeat split; try constructor. intros k []. }
  assert (H : consistent d).
  { destruct (process_csv_file_inserted default_registry "20250101_BSE.csv"
                sample_bse_file fresh_world) as [Hins _].
    exact (inserted_consistent _ _ _ _ _ Hins H0). }
  split; [exact H|].
  exists (mkStock 1 "500325" "RELIANCE" "BSE" "A").
  assert (Hin : In (mkStock 1 "500325" "RELIANCE" "BSE" "A") (stocks d))
    by (left; reflexivity).
  assert (Hid : 1 <= stock_id (mkStock 1 "500325" "RELIANCE" "BSE" "A")) by (cbn; lia).
  split; [exact Hin|]. split; [reflexivity|]. split; [|reflexivity].
  exact (proj2 (edit_forms_accept_own_row d H) _ Hin Hid).
Defined.
(** ** More on the records of a file *)

Section RecordFacts.



Lemma nth_error_combine {A B : Type} (l : list A) (l' : list B) (i : nat) (a : A) (b : B) :
  nth_error (combine l l') i = Some (a, b) ->
  nth_error l i = Some a /\ nth_error l' i = Some b.
Proof.
  revert l' i. induction l as [|x l IH]; intros [|y l'] i; cbn [combine];
    try (destruct i; discriminate).
  destruct i as [|i]; cbn [nth_error].
  - intros [= -> ->]. now split.
  - apply IH.
Qed.

Lemma combine_nth_error {A B : Type} (l : list A) (l' : list B) (i : nat) (a : A) :
  List.length l = List.length l' ->
  nth_error l i = Some a ->
  exists b, nth_error l' i = Some b /\ In (a, b) (combine l l').
Proof.
  revert l' i. induction l as [|x l IH]; intros [|y l'] i Hlen Hi;
    try discriminate Hlen; [destruct i; discriminate Hi|].
  destruct i as [|i]; cbn [nth_error] in *.
  - injection Hi as ->. exists y. split; [reflexivity | now left].
  - injection Hlen as Hlen. destruct (IH l' i Hlen Hi) as (b & Hb & Hin).
    exists b. split; [exact Hb | now right].
Qed.

Lemma map_fst_combine {A B : Type} (l : list A) (l' : list B) :
  List.length l = List.length l' -> map fst (combine l l') = l.
Proof.
  revert l'. induction l as [|x l IH]; intros [|y l'] Hlen; try discriminate Hlen;
    [reflexivity|].
  cbn. f_equal. apply IH. now injection Hlen.
Qed.

(** The cells of a full record under a header without repetition depend
    on the pairs of column and cell, not on their order. *)
Lemma make_row_permutation (header record header' record' : list string) :
  NoDup header ->
  List.length header = List.length record ->
  List.length header' = List.length record' ->
  Permutation (combine header record) (combine header' record') ->
  forall k,
    dict_get (make_row header record []) k = dict_get (make_row header' record' []) k.
Proof.
  intros Hnd Hlen Hlen' Hperm k.
  assert (Hh : Permutation header header').
  { rewrite <- (map_fst_combine header record Hlen),
            <- (map_fst_combine header' record' Hlen').
    now apply Permutation_map. }
  assert (Hnd' : NoDup header') by (now apply (Permutation_NoDup Hh)).
  destruct (in_dec string_dec k header) as [Hin | Hout].
  - destruct (In_nth_error _ _ Hin) as (i & Hi).
    destruct (combine_nth_error header record i k Hlen Hi) as (c & Hc & Hpair).
    rewrite (make_row_lookup header record [] i k Hnd Hi), Hc.
    apply (Permutation_in _ Hperm) in Hpair.
    destruct (In_nth_error _ _ Hpair) as (j & Hj).
    apply nth_error_combine in Hj. destruct Hj as [Hj1 Hj2].
    now rewrite (make_row_lookup header' record' [] j k Hnd' Hj1), Hj2.
  - rewrite (make_row_other header record [] k Hout).
    rewrite (make_row_other header' record' [] k); [reflexivity|].
    intros H. apply Hout. apply (Permutation_in _ (Permutation_sym Hh) H).
Qed.

Lemma get_mapped_value_ext (row row' : Row) (csv_columns : Mapping) (db_field : string) :
  (forall k, dict_get row k = dict_get row' k) ->
  get_mapped_value row csv_columns db_field = get_mapped_value row' csv_columns db_field.
Proof.
  intros H. unfold get_mapped_value.
  destruct (mapped_column csv_columns db_field); [|reflexivity]. now rewrite H.
Qed.

Lemma process_row_ext (row row' : Row) (candle_date : Date) (exchange : string)
  (csv_columns : Mapping) (w : World) :
  (forall k, dict_get row k = dict_get row' k) ->
  _process_row row candle_date exchange csv_columns w
  = _process_row row' candle_date exchange csv_columns w.
Proof.
  intros H. unfold _process_row. cbv zeta.
  now rewrite !(get_mapped_value_ext row row' csv_columns _ H).
Qed.

End RecordFacts.



(** X21.  The order of the columns is of no account.  For a header
    without repetition and a record of the same length, moving the columns
    around, the cells with them, changes neither the header check nor what
    [_process_row] does with the row, from any state. *)
Theorem column_order_is_irrelevant (header record header' record' : list string)
  (csv_columns : Mapping) :
  NoDup header ->
  List.length header = List.length record ->
  List.length header' = List.length record' ->
  Permutation (combine header record) (combine header' record') ->
  missing_headers csv_columns (Some header) = missing_headers csv_columns (Some header')
  /\ forall candle_date exchange w,
       _process_row (make_row header record []) candle_date exchange csv_columns w
       = _process_row (make_row header' record' []) candle_date exchange csv_columns w.
Proof.
  intros Hnd Hlen Hlen' Hperm. split.
  - assert (Hh : Permutation header header').
    { rewrite <- (map_fst_combine header record Hlen),
              <- (map_fst_combine header' record' Hlen').
      now apply Permutation_map. }
    unfold missing_headers. apply filter_ext. intros c. f_equal.
    destruct (PyStr.in_list c header) eqn:E.
    + apply in_list_In in E. apply (Permutation_in _ Hh) in E.
      apply in_list_In in E. now rewrite E.
    + destruct (PyStr.in_list c header') eqn:E'; [|reflexivity].
      apply in_list_In in E'. apply (Permutation_in _ (Permutation_sym Hh)) in E'.
      apply in_list_In in E'. congruence.
  - intros candle_date exchange w. apply process_row_ext.
    now apply make_row_permutation.
Qed.

Lemma column_order_is_irrelevant_witness :
  _process_row (make_row ["SYMBOL"; "OPEN"] ["TCS"; "1.5"] []) (mkDate 2025 1 1) "NSE"
    NSE_MAPPING fresh_world
  = _process_row (make_row ["OPEN"; "SYMBOL"] ["1.5"; "TCS"] []) (mkDate 2025 1 1) "NSE"
      NSE_MAPPING fresh_world.
Proof.
  assert (Hnd : NoDup ["SYMBOL"; "OPEN"]).
  { constructor; [cbn; intros [H | []]; discriminate H|].
    constructor; [intros []|constructor]. }
  assert (Hp : Permutation (combine ["SYMBOL"; "OPEN"] ["TCS"; "1.5"])
                 (combine ["OPEN"; "SYMBOL"] ["1.5"; "TCS"])) by apply perm_swap.
  exact (proj2 (column_order_is_irrelevant ["SYMBOL"; "OPEN"] ["TCS"; "1.5"]
                  ["OPEN"; "SYMBOL"] ["1.5"; "TCS"] NSE_MAPPING Hnd eq_refl eq_refl Hp)
           (mkDate 2025 1 1) "NSE" fresh_world).
Defined.

Section PaddedDay.
Import PyStr.

Lemma year_month_digits (y m : nat) : forall_str is_digit (fmt4 y +++ fmt2 m) = true.
Proof.
  unfold fmt4, fmt2. cbn [String.append forall_str].
  now rewrite !digit_char_is_digit by apply mod10_lt.
Qed.

Lemma re_d_padded (d : nat) :
  1 <= d <= 9 ->
  Strptime.re_d (String " " (String (digit_char d) "")) = [(d, "")].
Proof.
  intros [H1 H2]. destruct d as [|d]; [lia|].
  do 9 (destruct d as [|d]; [reflexivity|]). lia.
Qed.

End PaddedDay.

(** X22.  The date part of a file name is checked for its length, not
    for being digits.  For a calendar date whose day is below ten, the
    name with the day written as a space and one digit is parsed by
    [parse_filename] to that date, although its date part is not made of
    digits; the pattern of the upload form does not match such a name. *)
Theorem date_part_need_not_be_digits (reg : Registry) (y m d : nat) (ex : string) :
  valid_date y m d = true ->
  d <= 9 ->
  PyStr.contains_char "_" ex = false ->
  no_point ex = true ->
  1 <= String.length ex <= 10 ->
  In (PyStr.upper ex) (SUPPORTED_EXCHANGES reg) ->
  let date_str :=
    (PyStr.fmt4 y +++ PyStr.fmt2 m) +++ String " " (String (PyStr.digit_char d) "") in
  PyStr.forall_str PyStr.is_digit date_str = false
  /\ parse_filename reg (date_str +++ "_" +++ ex +++ ".csv")
     = Return (mkDate y m d, PyStr.upper ex)
  /\ UploadForm.filename_match (date_str +++ "_" +++ ex +++ ".csv") = None.
Proof.
  intros Hv Hd Hu Hp Hl Hin date_str.
  destruct (valid_date_bounds _ _ _ Hv) as (Hy & Hm & Hd1).
  assert (Hym : PyStr.forall_str PyStr.is_digit (PyStr.fmt4 y +++ PyStr.fmt2 m) = true)
    by apply year_month_digits.
  assert (Hdc : PyStr.is_digit (PyStr.digit_char d) = true)
    by (apply digit_char_is_digit; lia).
  split; [|split].
  - unfold date_str. rewrite forall_str_append, Hym. reflexivity.
  - assert (Hnodot : forall c, PyStr.is_digit c = false -> Ascii.eqb c " " = false ->
                          PyStr.contains_char c date_str = false).
    { intros c Hc Hs. unfold date_str, PyStr.contains_char.
      pose proof (forall_str_no PyStr.is_digit c _ Hc Hym) as H1.
      unfold PyStr.contains_char in H1.
      set (a := PyStr.fmt4 y +++ PyStr.fmt2 m) in *. clearbody a. clear Hym.
      induction a as [|x a IH]; cbn [String.append PyStr.exists_str] in *.
      - rewrite Hs. cbn [orb]. rewrite orb_false_r.
        destruct (Ascii.eqb_spec c (PyStr.digit_char d)) as [->|]; [congruence | reflexivity].
      - apply orb_false_iff in H1. destruct H1 as [-> H1]. now apply IH. }
    apply (parse_filename_by_parts reg _ date_str ex (mkDate y m d)); try assumption.
    + replace (date_str +++ "_" +++ ex +++ ".csv")
        with ((date_str +++ String "_" ex) +++ ".csv") by (now rewrite !append_assoc).
      rewrite name_without_ext_plain.
      * rewrite split_at_sep by (now apply Hnodot). now rewrite split_no_sep.
      * rewrite no_point_append. unfold no_point at 1.
        rewrite (Hnodot "."%char eq_refl eq_refl). cbn [negb andb].
        unfold no_point in *. unfold PyStr.contains_char in *.
        cbn [PyStr.exists_str]. now rewrite orb_false_l.
    + unfold date_str. rewrite length_append. reflexivity.
    + unfold date_str, Strptime.strptime_Ymd, Strptime.re_match.
      rewrite append_assoc, re_Y_fmt4 by apply Hy.
      destruct (re_m_fmt2 m (String " " (String (PyStr.digit_char d) "")) Hm) as [tl1 E1].
      cbn [flat_map app]. rewrite E1. cbn [flat_map app].
      rewrite re_d_padded by lia. cbn [map app hd_error]. now rewrite Hv.
  - unfold UploadForm.filename_match, date_str.
    rewrite append_assoc. cbn [String.append].
    rewrite (span_all PyStr.is_digit (PyStr.fmt4 y +++ PyStr.fmt2 m) (String " " _)
               Hym eq_refl).
    reflexivity.
Qed.

Lemma date_part_need_not_be_digits_witness :
  parse_filename default_registry "202501 5_BSE.csv" = Return (mkDate 2025 1 5, "BSE")
  /\ UploadForm.filename_match "202501 5_BSE.csv" = None.
Proof.
  assert (Hd : 5 <= 9) by lia.
  assert (Hl : 1 <= String.length "BSE" <= 10) by (cbn; lia).
  assert (Hin : In (PyStr.upper "BSE") (SUPPORTED_EXCHANGES default_registry))
    by (cbn; tauto).
  destruct (date_part_need_not_be_digits default_registry 2025 1 5 "BSE"
              eq_refl Hd eq_refl eq_refl Hl Hin) as (_ & H2 & H3).
  split; [exact H2 | exact H3].
Defined.
(** ** An archive that is uploaded again *)

Section ArchiveAgain.
Import Bulk.

Variable reg : Registry.

Lemma seen_same_tables (d d' : Database) (s e : string) (dt : Date) :
  stocks d' = stocks d -> candlesticks d' = candlesticks d ->
  seen d s e dt -> seen d' s e dt.
Proof.
  intros Hs Hk (s0 & k0 & H1 & H2). exists s0, k0.
  unfold find_stock, find_candlestick in *. now rewrite Hs, Hk.
Qed.

Lemma inserted_seen (d d' : Database) (ns nc nf : nat) :
  inserted d d' ns nc nf ->
  forall s e dt, seen d s e dt -> seen d' s e dt.
Proof.
  induction 1 as [|d' ns nc nf s0 H IH Hf Hi|d' ns nc nf k0 H IH Hf Hi Ho|d' ns nc nf r H IH];
    intros s e dt Hseen; [exact Hseen | | |];
    destruct (IH s e dt Hseen) as (s1 & k1 & H1 & H2); exists s1, k1;
    unfold find_stock, find_candlestick in *; cbn [stocks candlesticks];
    split; first [assumption | now apply find_app_some].
Qed.

(** The outcome of a file does not depend on the database: whether it
    succeeds, and the whole result when it fails. *)
Lemma process_csv_file_static (filename : string) (content : list (list string))
  (w w' : World) :
  result_success (fst (process_csv_file reg filename content w))
  = result_success (fst (process_csv_file reg filename content w'))
  /\ (result_success (fst (process_csv_file reg filename content w)) = false ->
      fst (process_csv_file reg filename content w)
      = fst (process_csv_file reg filename content w')).
Proof.
  destruct (result_success (fst (process_csv_file reg filename content w))) eqn:E.
  - apply process_csv_file_success_inv in E.
    destruct E as (cd & ex & cols & Hp & Hm & Hne & Hh).
    destruct (process_csv_file_succeeds reg filename content w' _ _ _ Hp Hm Hne Hh)
      as (sp & cp & es & ws & ->).
    split; [reflexivity | discriminate].
  - revert E. unfold process_csv_file, process_csv_file_body.
    destruct (parse_filename reg filename) as [[candle_date exchange]|e] eqn:Hp.
    2:{ erewrite !bind_lift_Raise by reflexivity. cbn. auto. }
    erewrite !bind_lift_Return by reflexivity. cbv beta iota.
    destruct (dict_get (EXCHANGE_MAPPINGS reg) exchange) as [[|c0 cols]|].
    1,3: cbn; auto.
    destruct (missing_headers (c0 :: cols) (reader_fieldnames content)) as [|m ms].
    2:{ cbn. auto. }
    destruct (row_loop_inserted exchange (c0 :: cols) (reader_rows content) 1 candle_date
                (db w) CSVProcessor_init) as (p' & d' & ns & nc & Hl & _).
    unfold bind, transaction_atomic. rewrite Hl. cbn. discriminate.
Qed.

(** After a file was processed its stored rows are in the database. *)
Lemma process_csv_file_seen (file : ExtractedFile) (w : World) :
  rows_seen reg
    (db (snd (process_csv_file reg (file_name file) (file_content file) w))) file.
Proof.
  intros candle_date exchange csv_columns row Hp Hm Hh Hin Hlive.
  assert (Hne : csv_columns <> []).
  { intros ->. unfold row_raises in Hlive.
    rewrite (not_ok_symbol row exchange []) in Hlive by reflexivity.
    discriminate Hlive. }
  destruct (row_loop_run exchange csv_columns (reader_rows (file_content file)) 1)
    as (messages & _ & Hrun).
  destruct (Hrun candle_date (db w)) as (d1 & ds & dc & _ & _ & Hall & Hseen & _).
  destruct (Hall CSVProcessor_init) as (ws & Hl).
  rewrite (process_csv_file_rows reg _ _ w _ _ _ Hp Hm Hne Hh _ Hl).
  cbn [snd db]. now apply Hseen.
Qed.

Lemma rows_seen_mono (d d' : Database) (file : ExtractedFile) :
  (forall s e dt, seen d s e dt -> seen d' s e dt) ->
  rows_seen reg d file -> rows_seen reg d' file.
Proof.
  intros Hmono H candle_date exchange csv_columns row Hp Hm Hh Hin Hlive.
  apply Hmono. now apply (H candle_date exchange csv_columns row).
Qed.

(** A file whose stored rows are all in the database creates nothing. *)
Lemma process_csv_file_again (file : ExtractedFile) (w : World) :
  rows_seen reg (db w) file ->
  let run := process_csv_file reg (file_name file) (file_content file) w in
  db (snd run) = db w
  /\ result_stocks_processed (fst run) = 0
  /\ result_candlesticks_processed (fst run) = 0.
Proof.
  intros Hseen run.
  destruct (result_success (fst run)) eqn:E.
  - unfold run in E. apply process_csv_file_success_inv in E.
    destruct E as (cd & ex & cols & Hp & Hm & Hne & Hh).
    destruct (row_loop_again ex cols (reader_rows (file_content file)) 1 cd (db w)
                (fun row Hin Hlive => Hseen cd ex cols row Hp Hm Hh Hin Hlive)
                CSVProcessor_init) as (es & ws & Hl & _).
    unfold run.
    rewrite (process_csv_file_rows reg _ _ w _ _ _ Hp Hm Hne Hh _ Hl).
    cbn. auto.
  - destruct (process_csv_file_inserted reg (file_name file) (file_content file) w)
      as [_ Hfail].
    destruct (Hfail E) as (H1 & H2 & H3 & _). auto.
Qed.

Lemma single_file_again (file : ExtractedFile) (bw : BulkWorld) :
  rows_seen reg (db (world bw)) file ->
  let bw' := snd (_process_single_file reg file bw) in
  total_stocks (bulk bw') = total_stocks (bulk bw)
  /\ total_candlesticks (bulk bw') = total_candlesticks (bulk bw)
  /\ stocks (db (world bw')) = stocks (db (world bw))
  /\ candlesticks (db (world bw')) = candlesticks (db (world bw)).
Proof.
  intros Hseen. destruct (process_csv_file_again file (world bw) Hseen) as (H1 & H2 & H3).
  unfold _process_single_file.
  destruct (process_csv_file reg (file_name file) (file_content file) (world bw))
    as [[sp cp es ws date ex | err sp cp es ws] w'];
    cbn [fst snd result_stocks_processed result_candlesticks_processed] in *;
    subst sp cp; cbn; rewrite H1, ?Nat.add_0_r; auto.
Qed.

(** What a file adds to the lists of the archive, told without the
    database. *)
Lemma single_file_static (file : ExtractedFile) (bw : BulkWorld) :
  fst (_process_single_file reg file bw) = Return tt
  /\ let bw' := snd (_process_single_file reg file bw) in
     failed_files (bulk bw') = failed_files (bulk bw) ++ failed_entries reg [file]
     /\ errors (bulk bw')
        = errors (bulk bw) ++ map error_line (failed_entries reg [file])
     /\ total_files_processed (bulk bw')
        = total_files_processed (bulk bw) + (if file_succeeds reg file then 1 else 0)
     /\ map pf_filename (processed_files (bulk bw'))
        = map pf_filename (processed_files (bulk bw))
          ++ (if file_succeeds reg file then [file_name file] else []).
Proof.
  destruct (process_csv_file_static (file_name file) (file_content file) (world bw)
              fresh_world) as [Hs Hf].
  destruct (process_csv_file_inserted reg (file_name file) (file_content file) (world bw))
    as [_ Hfail].
  unfold _process_single_file, failed_entries, file_succeeds. cbn [flat_map].
  rewrite <- Hs.
  destruct (process_csv_file reg (file_name file) (file_content file) (world bw))
    as [[sp cp es ws date ex | err sp cp es ws] w'].
  - cbn [fst snd result_success] in *.
    destruct (fst (process_csv_file reg (file_name file) (file_content file) fresh_world));
      [|discriminate Hs].
    cbn. rewrite !app_nil_r, map_app. auto.
  - cbn [fst snd result_success result_errors] in *.
    rewrite <- (Hf eq_refl).
    destruct (Hfail eq_refl) as (_ & _ & _ & -> & _).
    cbn. rewrite !app_nil_r, Nat.add_0_r. auto.
Qed.

Lemma file_loop_static (files : list ExtractedFile) :
  forall bw,
    let bw' := file_loop reg files bw in
    failed_files (bulk bw') = failed_files (bulk bw) ++ failed_entries reg files
    /\ errors (bulk bw') = errors (bulk bw) ++ map error_line (failed_entries reg files)
    /\ total_files_processed (bulk bw')
       = total_files_processed (bulk bw) + count_if (file_succeeds reg) files
    /\ map pf_filename (processed_files (bulk bw'))
       = map pf_filename (processed_files (bulk bw))
         ++ map file_name (filter (file_succeeds reg) files).
Proof.
  induction files as [|file rest IH]; intros bw.
  - cbn. rewrite !app_nil_r, Nat.add_0_r. auto.
  - destruct (single_file_static file bw) as (Hr & A1 & A2 & A3 & A4).
    cbn [file_loop].
    destruct (_process_single_file reg file bw) as [r bw1]. cbn [fst snd] in *.
    subst r. destruct (IH bw1) as (B1 & B2 & B3 & B4). cbv zeta.
    rewrite B1, B2, B3, B4, A1, A2, A3, A4.
    replace (failed_entries reg (file :: rest))
      with (failed_entries reg [file] ++ failed_entries reg rest)
      by (unfold failed_entries; cbn [flat_map]; now rewrite app_nil_r).
    rewrite count_if_cons. cbn [filter].
    destruct (file_succeeds reg file); cbn [map app];
      rewrite ?map_app, <- ?app_assoc, ?app_nil_r; cbn [app]; repeat split; lia.
Qed.

(** After the loop the stored rows of every file are in the database. *)
Lemma file_loop_seen (files : list ExtractedFile) :
  forall bw file,
    In file files -> rows_seen reg (db (world (file_loop reg files bw))) file.
Proof.
  induction files as [|f rest IH]; intros bw file Hin; [contradiction|].
  cbn [file_loop].
  destruct (single_file_static f bw) as (Hr & _).
  pose proof (process_csv_file_seen f (world bw)) as Hown.
  assert (Hseen1 : rows_seen reg (db (world (snd (_process_single_file reg f bw)))) f).
  { revert Hown. unfold _process_single_file.
    destruct (process_csv_file reg (file_name f) (file_content f) (world bw))
      as [[sp cp es ws date ex | err sp cp es ws] w']; cbn [fst snd world db]; [|auto].
    apply rows_seen_mono. intros s e dt. now apply seen_same_tables. }
  destruct (_process_single_file reg f bw) as [r bw1]. cbn [fst snd] in *. subst r.
  destruct Hin as [<- | Hin]; [|now apply IH].
  destruct (file_loop_effect reg rest bw1)
    as (pfs & ffs & _ & _ & _ & _ & _ & _ & _ & _ & Hins & _).
  cbv zeta in Hins.
  exact (rows_seen_mono _ _ f (inserted_seen _ _ _ _ _ Hins) Hseen1).
Qed.

(** A loop over files whose stored rows are all in the database creates
    nothing. *)
Lemma file_loop_again (files : list ExtractedFile) :
  forall bw,
    (forall file, In file files -> rows_seen reg (db (world bw)) file) ->
    let bw' := file_loop reg files bw in
    total_stocks (bulk bw') = total_stocks (bulk bw)
    /\ total_candlesticks (bulk bw') = total_candlesticks (bulk bw)
    /\ stocks (db (world bw')) = stocks (db (world bw))
    /\ candlesticks (db (world bw')) = candlesticks (db (world bw)).
Proof.
  induction files as [|f rest IH]; intros bw Hseen; [cbn; auto|].
  cbn [file_loop].
  destruct (single_file_static f bw) as (Hr & _).
  destruct (single_file_again f bw (Hseen f (or_introl eq_refl))) as (A1 & A2 & A3 & A4).
  destruct (_process_single_file reg f bw) as [r bw1]. cbn [fst snd] in *. subst r.
  assert (Hseen1 : forall file, In file rest -> rows_seen reg (db (world bw1)) file).
  { intros file Hin. apply (rows_seen_mono (db (world bw))).
    - intros s e dt. now apply seen_same_tables.
    - apply Hseen. now right. }
  destruct (IH bw1 Hseen1) as (B1 & B2 & B3 & B4). cbv zeta.
  rewrite B1, B2, B3, B4. auto.
Qed.

End ArchiveAgain.

(** X23.  Uploading an archive a second time creates no row.  When
    [process_zip_file] is run again on the same archive, from the state
    the first run has left, both totals are zero and the two tables are
    as the first run left them; the run is a success or not as the first
    was, with as many processed files, the same failed files and the same
    error lines; and each processed file has left one more upload
    record. *)
Theorem archive_reupload_creates_nothing (reg : Registry) (zip_file : Bulk.ZipUpload)
  (bw : Bulk.BulkWorld) :
  let first := Bulk.process_zip_file reg zip_file bw in
  let second := Bulk.process_zip_file reg zip_file (snd first) in
  Bulk.r_total_stocks (fst second) = 0
  /\ Bulk.r_total_candlesticks (fst second) = 0
  /\ stocks (db (Bulk.world (snd second))) = stocks (db (Bulk.world (snd first)))
  /\ candlesticks (db (Bulk.world (snd second)))
     = candlesticks (db (Bulk.world (snd first)))
  /\ Bulk.success (fst second) = Bulk.success (fst first)
  /\ Bulk.r_total_files_processed (fst second) = Bulk.r_total_files_processed (fst first)
  /\ map Bulk.pf_filename (Bulk.r_processed_files (fst second))
     = map Bulk.pf_filename (Bulk.r_processed_files (fst first))
  /\ Bulk.r_failed_files (fst second) = Bulk.r_failed_files (fst first)
  /\ Bulk.r_errors (fst second) = Bulk.r_errors (fst first)
  /\ List.length (csv_files (db (Bulk.world (snd second))))
     = List.length (csv_files (db (Bulk.world (snd first))))
       + Bulk.r_total_files_processed (fst first).
Proof.
  intros first second. unfold second, first, Bulk.process_zip_file.
  destruct (Bulk.zip_extract zip_file) as [files|e].
  2:{ cbn. repeat split; lia. }
  destruct (filter (fun f => Bulk.is_csv_file (Bulk.file_name f)) files) as [|f fs] eqn:E.
  { cbn. repeat split; lia. }
  set (l := f :: fs). clearbody l.
  cbn [fst snd Bulk.bulk Bulk.world db].
  pose proof (file_loop_static reg l
                (Bulk.mkBulkWorld Bulk.init
                   (mkWorld CSVProcessor_init (db (Bulk.world bw)))))
    as (S1 & S2 & S3 & S4).
  pose proof (file_loop_seen reg l
                (Bulk.mkBulkWorld Bulk.init
                   (mkWorld CSVProcessor_init (db (Bulk.world bw))))) as Hseen.
  set (bw1 := Bulk.file_loop reg l _) in *. clearbody bw1.
  pose proof (file_loop_static reg l
                (Bulk.mkBulkWorld Bulk.init
                   (mkWorld CSVProcessor_init (db (Bulk.world bw1)))))
    as (T1 & T2 & T3 & T4).
  destruct (file_loop_again reg l
              (Bulk.mkBulkWorld Bulk.init
                 (mkWorld CSVProcessor_init (db (Bulk.world bw1)))) Hseen)
    as (A1 & A2 & A3 & A4).
  destruct (file_loop_effect reg l
              (Bulk.mkBulkWorld Bulk.init
                 (mkWorld CSVProcessor_init (db (Bulk.world bw1)))))
    as (pfs & ffs & B1 & _ & B3 & _ & _ & _ & _ & _ & _ & B10).
  set (bw2 := Bulk.file_loop reg l _) in *. clearbody bw2.
  cbv zeta in *.
  cbn [Bulk.summary Bulk.r_total_stocks Bulk.r_total_candlesticks Bulk.success
         Bulk.r_total_files_processed Bulk.r_processed_files Bulk.r_failed_files
         Bulk.r_errors].
  cbn [Bulk.bulk Bulk.world db Bulk.init Bulk.total_stocks Bulk.total_candlesticks
         Bulk.total_files_processed Bulk.failed_files Bulk.errors Bulk.processed_files
         map app Nat.add] in *.
  rewrite A1, A2, A3, A4, T1, T2, T3, T4, S1, S2, S3, S4, !app_nil_r.
  repeat (split; [reflexivity|]).
  rewrite B10, length_app, length_map. rewrite T3 in B3. lia.
Qed.
